(** * The CSV import route of the dropout-prediction system

    A shallow embedding of [src/app/routes/_renderer.tsx]: the CSV parser
    [parseCSV] with its inner [parseLine], the eight row validators and the
    [POST] handler that validates, coerces and persists every parsed row.

    JavaScript strings are modelled as [string], one [ascii] per code unit
    (code units below 256).  The row objects built by the parser are finite
    maps from header name to value.  The persistence client is an in-memory
    store together with a fault oracle deciding which calls throw. *)

From Stdlib Require Import ZArith QArith Ascii String DecimalString.
From stdpp Require Import gmap strings list.

Close Scope Q_scope.
Open Scope string_scope.
Open Scope list_scope.

(** ** Strings *)

Module Str.

Definition dquote : ascii := "034"%char.
Definition comma : ascii := ","%char.
Definition newline : ascii := "010"%char.

Definition chars (s : string) : list ascii := list_ascii_of_string s.
Definition of_chars (l : list ascii) : string := string_of_list_ascii l.

(** White space and line terminators removed by [String.prototype.trim],
    as far as they are code units below 256: TAB, LF, VT, FF, CR, SP
    and NBSP. *)
Definition is_space (c : ascii) : bool :=
  let n := nat_of_ascii c in
  ((9 <=? n)%nat && (n <=? 13)%nat) || (n =? 32)%nat || (n =? 160)%nat.

Fixpoint trimStart_chars (l : list ascii) : list ascii :=
  match l with
  | c :: r => if is_space c then trimStart_chars r else l
  | [] => []
  end.

Definition trimEnd_chars (l : list ascii) : list ascii :=
  rev (trimStart_chars (rev l)).

Definition trim_chars (l : list ascii) : list ascii :=
  trimEnd_chars (trimStart_chars l).

Definition trim (s : string) : string := of_chars (trim_chars (chars s)).

(** [s.split('\n')]: never empty, one more piece than there are newlines. *)
Fixpoint split_chars (sep : ascii) (l : list ascii) : list (list ascii) :=
  match l with
  | [] => [[]]
  | c :: r =>
      if Ascii.eqb c sep then [] :: split_chars sep r
      else match split_chars sep r with
           | piece :: pieces => (c :: piece) :: pieces
           | [] => [[c]]
           end
  end.

Definition split (sep : ascii) (s : string) : list string :=
  map of_chars (split_chars sep (chars s)).

(** The header pass [h.replace(/./g, '')] with the double quote as the
    pattern: every double quote goes. *)
Definition remove_quotes (s : string) : string :=
  of_chars (List.filter (fun c => negb (Ascii.eqb c dquote)) (chars s)).

(** The value pass replaces the pattern (start, quote) | (quote, end),
    global and not multiline: the alternation is tried left to right at
    every position, so a quote at index 0 goes, and of what is left a
    quote at the last index goes. *)
Definition strip_leading_quote (l : list ascii) : list ascii :=
  match l with
  | c :: r => if Ascii.eqb c dquote then r else l
  | [] => []
  end.

Definition strip_trailing_quote (l : list ascii) : list ascii :=
  rev (strip_leading_quote (rev l)).

Definition strip_surrounding_quotes (s : string) : string :=
  of_chars (strip_trailing_quote (strip_leading_quote (chars s))).

Definition includes (c : ascii) (s : string) : bool :=
  existsb (Ascii.eqb c) (chars s).

(** Decimal rendering of a counter inside a template literal. *)
Definition of_nat (n : nat) : string :=
  NilZero.string_of_uint (Nat.to_uint n).

End Str.

(** ** Values of a row object *)

Inductive value : Type :=
| undefined
| null
| str (s : string).

#[global] Instance value_eq_dec : EqDecision value.
Proof. solve_decision. Defined.

(** [!v] is [negb (truthy v)]. *)
Definition truthy (v : value) : bool :=
  match v with
  | str s => negb (String.eqb s "")
  | _ => false
  end.

(** String coercion inside template literals and at the store boundary. *)
Definition to_string (v : value) : string :=
  match v with
  | undefined => "undefined"
  | null => "null"
  | str s => s
  end.

(** [v || null] for a field of a row. *)
Definition or_null (v : value) : option string :=
  match v with
  | str s => if String.eqb s "" then None else Some s
  | _ => None
  end.

(** [v || d] *)
Definition or_default (v : value) (d : string) : string :=
  default d (or_null v).

Notation Row := (gmap string value).

(** Property read [row.k] for a name [k] that [Object.prototype] does not
    define, as is every name the handler reads: the value is the own
    property, or undefined. *)
Definition prop (row : Row) (k : string) : value :=
  default undefined (row !! k).

(** ** The CSV parser *)

Module CSV.

Import Str.

(** The loop of [parseLine] at index [i], with [l] the characters from
    [i] on.  [line[i + 1]] is the head of the tail. *)
Fixpoint parseLine_loop (l : list ascii) (current : list ascii)
    (inQuotes : bool) (result : list string) : list string :=
  match l with
  | [] => result ++ [of_chars (trim_chars current)]
  | char :: rest =>
      if Ascii.eqb char dquote then
        match rest with
        | next :: rest' =>
            if inQuotes && Ascii.eqb next dquote
            then parseLine_loop rest' (current ++ [dquote]) inQuotes result
            else parseLine_loop rest current (negb inQuotes) result
        | [] => parseLine_loop rest current (negb inQuotes) result
        end
      else if Ascii.eqb char comma && negb inQuotes then
        parseLine_loop rest [] inQuotes
          (result ++ [of_chars (trim_chars current)])
      else parseLine_loop rest (current ++ [char]) inQuotes result
  end.

Definition parseLine (line : string) : list string :=
  parseLine_loop (chars line) [] false [].

Definition lines_of (csvText : string) : list string :=
  split newline (trim csvText).

Definition headers_of (lines : list string) : list string :=
  map remove_quotes (parseLine (hd "" lines)).

Definition values_of (line : string) : list string :=
  map strip_surrounding_quotes (parseLine line).

(** [value === '' || value === null || value === undefined ? null : value] *)
Definition normalize (v : string) : value :=
  if String.eqb v "" then null else str v.

(** [row[header] = v] on the own keys of the row; [inherits] tells whether
    the row still has [Object.prototype] as its prototype.  While it has,
    assigning the key [__proto__] runs the inherited setter, which creates
    no own property: it ignores a string and, given null, takes the
    prototype away.  After that [__proto__] is a key like any other. *)
Definition assign (row : Row) (inherits : bool) (header : string)
    (v : value) : Row * bool :=
  if String.eqb header "__proto__" && inherits
  then (row, match v with null => false | _ => true end)
  else (<[header := v]> row, inherits).

(** The [headers.forEach] of a line whose field count matches. *)
Fixpoint fill (row : Row) (inherits : bool) (headers values : list string)
    : Row :=
  match headers, values with
  | header :: hs, v :: vs =>
      let (row', inherits') := assign row inherits header (normalize v) in
      fill row' inherits' hs vs
  | _, _ => row
  end.

(** [const row: any = {}], then the loop. *)
Definition row_of (headers values : list string) : Row :=
  fill ∅ true headers values.

Fixpoint rows_of (headers : list string) (data : list string) : list Row :=
  match data with
  | [] => []
  | line :: more =>
      let values := values_of line in
      if (length values =? length headers)%nat
      then row_of headers values :: rows_of headers more
      else rows_of headers more
  end.

Definition parseCSV (csvText : string) : list Row :=
  let lines := lines_of csvText in
  if (length lines <? 2)%nat then []
  else rows_of (headers_of lines) (tl lines).

End CSV.

(** ** Row validators *)

Definition validateStudentRow (row : Row) : option string :=
  if negb (truthy (prop row "studentId")) then Some "Missing studentId"
  else if negb (truthy (prop row "name")) then Some "Missing name"
  else if negb (truthy (prop row "email")) then Some "Missing email"
  else if negb (truthy (prop row "dob")) then Some "Missing dob"
  else if negb (truthy (prop row "currentSemester"))
  then Some "Missing currentSemester"
  else None.

Definition validateAttendanceRow (row : Row) : option string :=
  if negb (truthy (prop row "studentId")) then Some "Missing studentId"
  else if negb (truthy (prop row "courseId")) then Some "Missing courseId"
  else if negb (truthy (prop row "month")) then Some "Missing month"
  else if negb (truthy (prop row "attendancePercent"))
  then Some "Missing attendancePercent"
  else None.

Definition validateTestScoreRow (row : Row) : option string :=
  if negb (truthy (prop row "studentId")) then Some "Missing studentId"
  else if negb (truthy (prop row "courseId")) then Some "Missing courseId"
  else if negb (truthy (prop row "testDate")) then Some "Missing testDate"
  else if negb (truthy (prop row "score")) then Some "Missing score"
  else None.

Definition validateBacklogRow (row : Row) : option string :=
  if negb (truthy (prop row "studentId")) then Some "Missing studentId"
  else if negb (truthy (prop row "courseId")) then Some "Missing courseId"
  else if negb (truthy (prop row "attempts")) then Some "Missing attempts"
  else match prop row "cleared" with
       | undefined | null => Some "Missing cleared field"
       | str _ => None
       end.

Definition validateFeeRow (row : Row) : option string :=
  if negb (truthy (prop row "studentId")) then Some "Missing studentId"
  else if negb (truthy (prop row "dueDate")) then Some "Missing dueDate"
  else if negb (truthy (prop row "status")) then Some "Missing status"
  else if negb (truthy (prop row "dueMonths")) then Some "Missing dueMonths"
  else None.

Definition validateProjectRow (row : Row) : option string :=
  if negb (truthy (prop row "studentId")) then Some "Missing studentId"
  else if negb (truthy (prop row "title")) then Some "Missing title"
  else if negb (truthy (prop row "startDate")) then Some "Missing startDate"
  else None.

Definition validatePhdRow (row : Row) : option string :=
  if negb (truthy (prop row "studentId")) then Some "Missing studentId"
  else if negb (truthy (prop row "title")) then Some "Missing title"
  else if negb (truthy (prop row "researchArea"))
  then Some "Missing researchArea"
  else if negb (truthy (prop row "startDate")) then Some "Missing startDate"
  else None.

Definition validateFellowshipRow (row : Row) : option string :=
  if negb (truthy (prop row "studentId")) then Some "Missing studentId"
  else if negb (truthy (prop row "type")) then Some "Missing type"
  else if negb (truthy (prop row "amount")) then Some "Missing amount"
  else if negb (truthy (prop row "duration")) then Some "Missing duration"
  else if negb (truthy (prop row "startDate")) then Some "Missing startDate"
  else None.

(** ** Numbers and dates *)

(** A JavaScript number: NaN, the two infinities, or a finite value, kept
    as the rational it denotes (the two zeros are not told apart). *)
Inductive number : Type :=
| NaN
| NegInfinity
| Num (q : Q)
| Infinity.

Definition isNaN (n : number) : bool :=
  match n with NaN => true | _ => false end.

(** [a < b]; false as soon as one side is NaN. *)
Definition number_lt (a b : number) : bool :=
  match a, b with
  | NaN, _ | _, NaN => false
  | Infinity, _ | _, NegInfinity => false
  | NegInfinity, _ | _, Infinity => true
  | Num p, Num q => negb (Qle_bool q p)
  end.

Definition number_gt (a b : number) : bool := number_lt b a.

Definition of_Z (z : Z) : number := Num (inject_Z z).

(** A [Date] object: its time value in milliseconds, or Invalid Date
    (whose [getTime()] is NaN). *)
Inductive Date : Type :=
| InvalidDate
| TimeValue (ms : Z).

#[global] Instance Date_eq_dec : EqDecision Date.
Proof. solve_decision. Defined.

Definition isInvalid (d : Date) : bool :=
  match d with InvalidDate => true | TimeValue _ => false end.

(** The global functions the handler calls on strings. *)
Class Builtins : Type := {
  parseInt : string -> number;
  parseFloat : string -> number;
  Date_parse : string -> Date
}.

(** [new Date(v)] for a field of a row. *)
Definition new_Date `{Builtins} (v : value) : Date :=
  match v with
  | str s => Date_parse s
  | null => TimeValue 0
  | undefined => InvalidDate
  end.

(** [String.prototype.match] with the pattern of the batch code: one or
    more capital letters, four decimal digits, one capital letter, from
    start to end.  The three groups are returned. *)
Definition is_upper (c : ascii) : bool :=
  let n := nat_of_ascii c in (65 <=? n)%nat && (n <=? 90)%nat.

Definition is_digit (c : ascii) : bool :=
  let n := nat_of_ascii c in (48 <=? n)%nat && (n <=? 57)%nat.

Definition batchId_match (batchId : string)
    : option (string * string * string) :=
  match rev (Str.chars batchId) with
  | section :: d4 :: d3 :: d2 :: d1 :: dept_rev =>
      if is_upper section && forallb is_digit [d1; d2; d3; d4]
         && forallb is_upper dept_rev
         && negb (length dept_rev =? 0)%nat
      then Some (Str.of_chars (rev dept_rev), Str.of_chars [d1; d2; d3; d4],
                 Str.of_chars [section])
      else None
  | _ => None
  end.

(** ** The store behind the persistence client *)

(** The columns of a student that every upload overwrites. *)
Record StudentData : Type := {
  name : string;
  email : string;
  phone : option string;
  dob : Date;
  department : option string;
  currentSemester : number;
  batchId : option string;
  parentName : option string;
  parentEmail : option string;
  parentPhone : option string;
  address : option string
}.

Record Student : Type := {
  studentId : string;
  teacherId : option string;
  data : StudentData
}.

Record Batch : Type := {
  b_batchId : string;
  b_batchNo : string;
  b_courseId : string;
  b_year : number;
  b_department : string
}.

Record CourseSubject : Type := {
  c_courseId : string;
  c_name : string;
  c_code : string;
  c_semester : Z;
  c_department : string
}.

Record Attendance : Type := {
  attendanceId : nat;
  a_studentId : string;
  a_courseId : string;
  a_month : Date;
  attendancePercent : number
}.

Record TestScore : Type := {
  t_studentId : string;
  t_courseId : string;
  t_testDate : Date;
  t_score : number
}.

Record Backlog : Type := {
  backlogId : nat;
  g_studentId : string;
  g_courseId : string;
  attempts : number;
  cleared : bool
}.

Record FeePayment : Type := {
  f_studentId : string;
  f_dueDate : Date;
  f_paidDate : option Date;
  f_status : string;
  f_dueMonths : number
}.

Record Project : Type := {
  p_title : string;
  p_description : option string;
  p_studentId : string;
  p_supervisorId : string;
  p_startDate : Date;
  p_endDate : option Date;
  p_status : string
}.

Record PhdSupervision : Type := {
  h_title : string;
  h_researchArea : string;
  h_studentId : string;
  h_supervisorId : string;
  h_startDate : Date;
  h_expectedEnd : option Date;
  h_status : string
}.

Record Fellowship : Type := {
  w_type : string;
  w_amount : number;
  w_duration : number;
  w_studentId : string;
  w_supervisorId : string;
  w_startDate : Date;
  w_endDate : option Date;
  w_status : string
}.

(** Tables in insertion order. *)
Record Store : Type := {
  students : list Student;
  batches : list Batch;
  courses : list CourseSubject;
  attendances : list Attendance;
  testScores : list TestScore;
  backlogs : list Backlog;
  feePayments : list FeePayment;
  projects : list Project;
  phdSupervisions : list PhdSupervision;
  fellowships : list Fellowship
}.

Definition empty_store : Store :=
  {| students := []; batches := []; courses := []; attendances := [];
     testScores := []; backlogs := []; feePayments := []; projects := [];
     phdSupervisions := []; fellowships := [] |}.

(** Every call the handler makes on the client, with its arguments.  In
    [StudentUpdate] the teacher is present when the payload sets it. *)
Inductive Call : Type :=
| BatchFindUnique (batchId : string)
| BatchCreate (b : Batch)
| CourseFindUnique (courseId : string)
| CourseCreate (c : CourseSubject)
| StudentFindUnique (studentId : string)
| StudentUpdate (studentId : string) (d : StudentData)
    (teacher : option string)
| StudentCreate (s : Student)
| AttendanceFindFirst (studentId courseId : string) (month : Date)
| AttendanceUpdate (attendanceId : nat) (percent : number)
| AttendanceCreate (studentId courseId : string) (month : Date)
    (percent : number)
| TestScoreCreate (t : TestScore)
| BacklogFindFirst (studentId courseId : string)
| BacklogUpdate (backlogId : nat) (attempts : number) (cleared : bool)
| BacklogCreate (studentId courseId : string) (attempts : number)
    (cleared : bool)
| FeePaymentCreate (f : FeePayment)
| ProjectCreate (p : Project)
| PhdSupervisionCreate (h : PhdSupervision)
| FellowshipCreate (w : Fellowship).

(** Which calls the store rejects: the message of the exception thrown,
    as a function of the store's content and the call. *)
Class Faults : Type := {
  fault : Store -> Call -> option string
}.

Module Table.

Definition fresh (ids : list nat) : nat := S (foldr Nat.max 0%nat ids).

Definition set_students (s : Store) (l : list Student) : Store :=
  {| students := l; batches := batches s; courses := courses s;
     attendances := attendances s; testScores := testScores s;
     backlogs := backlogs s; feePayments := feePayments s;
     projects := projects s; phdSupervisions := phdSupervisions s;
     fellowships := fellowships s |}.

Definition set_batches (s : Store) (l : list Batch) : Store :=
  {| students := students s; batches := l; courses := courses s;
     attendances := attendances s; testScores := testScores s;
     backlogs := backlogs s; feePayments := feePayments s;
     projects := projects s; phdSupervisions := phdSupervisions s;
     fellowships := fellowships s |}.

Definition set_courses (s : Store) (l : list CourseSubject) : Store :=
  {| students := students s; batches := batches s; courses := l;
     attendances := attendances s; testScores := testScores s;
     backlogs := backlogs s; feePayments := feePayments s;
     projects := projects s; phdSupervisions := phdSupervisions s;
     fellowships := fellowships s |}.

Definition set_attendances (s : Store) (l : list Attendance) : Store :=
  {| students := students s; batches := batches s; courses := courses s;
     attendances := l; testScores := testScores s;
     backlogs := backlogs s; feePayments := feePayments s;
     projects := projects s; phdSupervisions := phdSupervisions s;
     fellowships := fellowships s |}.

Definition set_testScores (s : Store) (l : list TestScore) : Store :=
  {| students := students s; batches := batches s; courses := courses s;
     attendances := attendances s; testScores := l;
     backlogs := backlogs s; feePayments := feePayments s;
     projects := projects s; phdSupervisions := phdSupervisions s;
     fellowships := fellowships s |}.

Definition set_backlogs (s : Store) (l : list Backlog) : Store :=
  {| students := students s; batches := batches s; courses := courses s;
     attendances := attendances s; testScores := testScores s;
     backlogs := l; feePayments := feePayments s;
     projects := projects s; phdSupervisions := phdSupervisions s;
     fellowships := fellowships s |}.

Definition set_feePayments (s : Store) (l : list FeePayment) : Store :=
  {| students := students s; batches := batches s; courses := courses s;
     attendances := attendances s; testScores := testScores s;
     backlogs := backlogs s; feePayments := l;
     projects := projects s; phdSupervisions := phdSupervisions s;
     fellowships := fellowships s |}.

Definition set_projects (s : Store) (l : list Project) : Store :=
  {| students := students s; batches := batches s; courses := courses s;
     attendances := attendances s; testScores := testScores s;
     backlogs := backlogs s; feePayments := feePayments s;
     projects := l; phdSupervisions := phdSupervisions s;
     fellowships := fellowships s |}.

Definition set_phdSupervisions (s : Store) (l : list PhdSupervision)
    : Store :=
  {| students := students s; batches := batches s; courses := courses s;
     attendances := attendances s; testScores := testScores s;
     backlogs := backlogs s; feePayments := feePayments s;
     projects := projects s; phdSupervisions := l;
     fellowships := fellowships s |}.

Definition set_fellowships (s : Store) (l : list Fellowship) : Store :=
  {| students := students s; batches := batches s; courses := courses s;
     attendances := attendances s; testScores := testScores s;
     backlogs := backlogs s; feePayments := feePayments s;
     projects := projects s; phdSupervisions := phdSupervisions s;
     fellowships := l |}.

(** What each call does on a store that accepts it. *)

Definition find_student (s : Store) (id : string) : option Student :=
  List.find (fun x => String.eqb (studentId x) id) (students s).

Definition find_batch (s : Store) (id : string) : option Batch :=
  List.find (fun x => String.eqb (b_batchId x) id) (batches s).

Definition find_course (s : Store) (id : string) : option CourseSubject :=
  List.find (fun x => String.eqb (c_courseId x) id) (courses s).

Definition update_student (id : string) (d : StudentData)
    (teacher : option string) (x : Student) : Student :=
  if String.eqb (studentId x) id
  then {| studentId := studentId x;
          teacherId := match teacher with
                       | Some t => Some t
                       | None => teacherId x
                       end;
          data := d |}
  else x.

Definition find_attendance (s : Store) (sid cid : string) (month : Date)
    : option Attendance :=
  List.find (fun x => String.eqb (a_studentId x) sid
                      && String.eqb (a_courseId x) cid
                      && bool_decide (a_month x = month))
    (attendances s).

Definition update_attendance (id : nat) (percent : number)
    (x : Attendance) : Attendance :=
  if (attendanceId x =? id)%nat
  then {| attendanceId := attendanceId x; a_studentId := a_studentId x;
          a_courseId := a_courseId x; a_month := a_month x;
          attendancePercent := percent |}
  else x.

Definition find_backlog (s : Store) (sid cid : string) : option Backlog :=
  List.find (fun x => String.eqb (g_studentId x) sid
                      && String.eqb (g_courseId x) cid)
    (backlogs s).

Definition update_backlog (id : nat) (n : number) (c : bool)
    (x : Backlog) : Backlog :=
  if (backlogId x =? id)%nat
  then {| backlogId := backlogId x; g_studentId := g_studentId x;
          g_courseId := g_courseId x; attempts := n; cleared := c |}
  else x.

End Table.

(** ** The handler's state and control flow *)

(** What a request mutates: the store, the list [errors] and the counter
    [processed]; [trace] records the client calls issued, oldest first. *)
Record World : Type := {
  db : Store;
  trace : list Call;
  errors : list string;
  processed : nat
}.

(** A block of the handler: runs on a world and either completes with a
    value or throws an exception, of which only [message] is ever read.
    Effects made before a throw stay. *)
Definition M (A : Type) : Type := World -> World * (string + A).

Definition ret {A : Type} (a : A) : M A := fun w => (w, inr a).

Definition bind {A B : Type} (m : M A) (k : A -> M B) : M B :=
  fun w =>
    match m w with
    | (w1, inr a) => k a w1
    | (w1, inl message) => (w1, inl message)
    end.

Notation "'let*' x ':=' m 'in' k" := (bind m (fun x => k))
  (at level 10, x name, m at level 100, k at level 200).
Notation "m '>>' k" := (bind m (fun _ => k))
  (at level 100, k at level 200, right associativity).

(** [try { body } catch (e) { handler(e.message) }] *)
Definition try_catch {A : Type} (body : M A) (handler : string -> M A)
    : M A :=
  fun w =>
    match body w with
    | (w1, inl message) => handler message w1
    | (w1, inr a) => (w1, inr a)
    end.

(** [errors.push(`Row ${processed + 1}: ${reason}`)] *)
Definition row_error (reason : string) : M unit :=
  fun w =>
    ({| db := db w; trace := trace w;
        errors := errors w
                  ++ ["Row " +:+ Str.of_nat (processed w + 1) +:+ ": " +:+ reason];
        processed := processed w |}, inr tt).

(** [processed++] *)
Definition count_processed : M unit :=
  fun w =>
    ({| db := db w; trace := trace w; errors := errors w;
        processed := processed w + 1 |}, inr tt).

(** [for (const row of rows) body]; no body of the handler lets an
    exception escape, and one that did would end the loop. *)
Fixpoint for_of {A : Type} (rows : list A) (body : A -> M unit) : M unit :=
  match rows with
  | [] => ret tt
  | row :: more => body row >> for_of more body
  end.

(** An awaited client call: logged, then thrown or run on the store. *)
Definition client `{Faults} {A : Type} (c : Call)
    (run : Store -> Store * A) : M A :=
  fun w =>
    let tr := trace w ++ [c] in
    match fault (db w) c with
    | Some message =>
        ({| db := db w; trace := tr; errors := errors w;
            processed := processed w |}, inl message)
    | None =>
        let (d, a) := run (db w) in
        ({| db := d; trace := tr; errors := errors w;
            processed := processed w |}, inr a)
    end.

Module Prisma.

Import Table.

Section Client.
Context `{Faults}.

Definition batch_findUnique (id : string) : M (option Batch) :=
  client (BatchFindUnique id) (fun s => (s, find_batch s id)).

Definition batch_create (b : Batch) : M Batch :=
  client (BatchCreate b) (fun s => (set_batches s (batches s ++ [b]), b)).

Definition courseSubject_findUnique (id : string)
    : M (option CourseSubject) :=
  client (CourseFindUnique id) (fun s => (s, find_course s id)).

Definition courseSubject_create (c : CourseSubject) : M CourseSubject :=
  client (CourseCreate c) (fun s => (set_courses s (courses s ++ [c]), c)).

Definition student_findUnique (id : string) : M (option Student) :=
  client (StudentFindUnique id) (fun s => (s, find_student s id)).

Definition student_update (id : string) (d : StudentData)
    (teacher : option string) : M unit :=
  client (StudentUpdate id d teacher)
    (fun s => (set_students s
                 (map (update_student id d teacher) (students s)), tt)).

Definition student_create (x : Student) : M unit :=
  client (StudentCreate x)
    (fun s => (set_students s (students s ++ [x]), tt)).

Definition attendance_findFirst (sid cid : string) (month : Date)
    : M (option Attendance) :=
  client (AttendanceFindFirst sid cid month)
    (fun s => (s, find_attendance s sid cid month)).

Definition attendance_update (id : nat) (percent : number) : M unit :=
  client (AttendanceUpdate id percent)
    (fun s => (set_attendances s
                 (map (update_attendance id percent) (attendances s)),
               tt)).

Definition attendance_create (sid cid : string) (month : Date)
    (percent : number) : M unit :=
  client (AttendanceCreate sid cid month percent)
    (fun s =>
       (set_attendances s
          (attendances s
           ++ [{| attendanceId := fresh (map attendanceId (attendances s));
                  a_studentId := sid; a_courseId := cid;
                  a_month := month; attendancePercent := percent |}]),
        tt)).

Definition testScore_create (t : TestScore) : M unit :=
  client (TestScoreCreate t)
    (fun s => (set_testScores s (testScores s ++ [t]), tt)).

Definition backlog_findFirst (sid cid : string) : M (option Backlog) :=
  client (BacklogFindFirst sid cid)
    (fun s => (s, find_backlog s sid cid)).

Definition backlog_update (id : nat) (n : number) (c : bool) : M unit :=
  client (BacklogUpdate id n c)
    (fun s => (set_backlogs s (map (update_backlog id n c) (backlogs s)),
               tt)).

Definition backlog_create (sid cid : string) (n : number) (c : bool)
    : M unit :=
  client (BacklogCreate sid cid n c)
    (fun s =>
       (set_backlogs s
          (backlogs s
           ++ [{| backlogId := fresh (map backlogId (backlogs s));
                  g_studentId := sid; g_courseId := cid;
                  attempts := n; cleared := c |}]),
        tt)).

Definition feePayment_create (f : FeePayment) : M unit :=
  client (FeePaymentCreate f)
    (fun s => (set_feePayments s (feePayments s ++ [f]), tt)).

Definition project_create (p : Project) : M unit :=
  client (ProjectCreate p)
    (fun s => (set_projects s (projects s ++ [p]), tt)).

Definition phdSupervision_create (h : PhdSupervision) : M unit :=
  client (PhdSupervisionCreate h)
    (fun s => (set_phdSupervisions s (phdSupervisions s ++ [h]), tt)).

Definition fellowship_create (w : Fellowship) : M unit :=
  client (FellowshipCreate w)
    (fun s => (set_fellowships s (fellowships s ++ [w]), tt)).

End Client.

End Prisma.

(** ** The upload handler *)

Module Upload.

Import Prisma.

Section Handler.
Context `{Builtins} `{Faults}.

(** The inner [try] of a students row: the batch that ends up in
    [finalBatchId], looked up or created from the batch code. *)
Definition find_or_create_batch (batchId : string) : M (option string) :=
  let* batch := batch_findUnique batchId in
  let* batch :=
    match batch with
    | Some b => ret (Some b)
    | None =>
        match batchId_match batchId with
        | Some (dept, yearStr, section) =>
            let year := parseInt yearStr in
            let defaultCourseId := dept +:+ "_GENERAL" in
            let* course := courseSubject_findUnique defaultCourseId in
            let* course :=
              match course with
              | Some c => ret c
              | None =>
                  courseSubject_create
                    {| c_courseId := defaultCourseId;
                       c_name := dept +:+ " General Course";
                       c_code := defaultCourseId;
                       c_semester := 1;
                       c_department := dept |}
              end in
            let* b :=
              batch_create
                {| b_batchId := batchId; b_batchNo := section;
                   b_courseId := defaultCourseId; b_year := year;
                   b_department := dept |} in
            ret (Some b)
        | None => ret None
        end
    end in
  ret (match batch with Some _ => Some batchId | None => None end).

Definition final_batch (row : Row) : M (option string) :=
  if truthy (prop row "batchId") then
    let batchId := to_string (prop row "batchId") in
    try_catch (find_or_create_batch batchId)
      (fun message =>
         row_error ("Could not create/find batch " +:+ batchId +:+ ": "
                    +:+ message) >>
         ret None)
  else ret None.

Definition student_data (row : Row) (dobDate : Date) (semester : number)
    (finalBatchId : option string) : StudentData :=
  {| name := to_string (prop row "name");
     email := to_string (prop row "email");
     phone := or_null (prop row "phone");
     dob := dobDate;
     department := or_null (prop row "department");
     currentSemester := semester;
     batchId := finalBatchId;
     parentName := or_null (prop row "parentName");
     parentEmail := or_null (prop row "parentEmail");
     parentPhone := or_null (prop row "parentPhone");
     address := or_null (prop row "address") |}.

(** [!existingStudent.teacherId] *)
Definition no_teacher (s : Student) : bool :=
  match teacherId s with
  | Some t => String.eqb t ""
  | None => true
  end.

Definition database_error (message : string) : M unit :=
  row_error ("Database error - " +:+ message).

(** The check for an existing student and the three writes that follow
    it.  [teacher] is the uploader's identifier, read from the cookie; an
    update that keeps the owner leaves [teacherId] out of its payload. *)
Definition upsert_student (teacher sid : string) (d : StudentData)
    : M unit :=
  let* existingStudent := student_findUnique sid in
  match existingStudent with
  | Some existing =>
      if no_teacher existing
      then student_update sid d (Some teacher)
      else student_update sid d None
  | None =>
      student_create
        {| studentId := sid; teacherId := Some teacher; data := d |}
  end.

Definition students_row (teacher : string) (row : Row) : M unit :=
  match validateStudentRow row with
  | Some validationError => row_error validationError
  | None =>
      try_catch
        (let dobDate := new_Date (prop row "dob") in
         if isInvalid dobDate then
           row_error ("Invalid date format for dob: "
                      +:+ to_string (prop row "dob"))
         else
           let semester := parseInt (to_string (prop row "currentSemester")) in
           if isNaN semester || number_lt semester (of_Z 1)
              || number_gt semester (of_Z 8)
           then row_error ("Invalid currentSemester: "
                           +:+ to_string (prop row "currentSemester"))
           else
             let* finalBatchId := final_batch row in
             let sid := to_string (prop row "studentId") in
             let d := student_data row dobDate semester finalBatchId in
             upsert_student teacher sid d >>
             count_processed)
        database_error
  end.

(** [student.department || 'General'] *)
Definition department_or_General (s : Student) : string :=
  match department (data s) with
  | Some d => if String.eqb d "" then "General" else d
  | None => "General"
  end.

(** The course check shared by attendance, test score and backlog rows. *)
Definition find_or_create_course (student : Student) (cid : string)
    : M CourseSubject :=
  let* course := courseSubject_findUnique cid in
  match course with
  | Some c => ret c
  | None =>
      courseSubject_create
        {| c_courseId := cid; c_name := "Course " +:+ cid; c_code := cid;
           c_semester := 1;
           c_department := department_or_General student |}
  end.

Definition student_not_found (row : Row) : M unit :=
  row_error ("Student " +:+ to_string (prop row "studentId")
             +:+ " not found").

(** [row.month.includes('-') && row.month.length >= 7] *)
Definition month_shape (month : string) : bool :=
  Str.includes "-" month && (7 <=? String.length month)%nat.

(** The [monthDate] of a value of that shape: YYYY-MM gets a day appended,
    anything longer is parsed as it stands. *)
Definition month_date (month : string) : Date :=
  if (String.length month =? 7)%nat
  then Date_parse (month +:+ "-01")
  else Date_parse month.

Definition attendance_row (row : Row) : M unit :=
  match validateAttendanceRow row with
  | Some validationError => row_error validationError
  | None =>
      try_catch
        (let sid := to_string (prop row "studentId") in
         let cid := to_string (prop row "courseId") in
         let* student := student_findUnique sid in
         match student with
         | None => student_not_found row
         | Some student =>
             let* course := find_or_create_course student cid in
             let month := to_string (prop row "month") in
             if month_shape month
             then
               let monthDate := month_date month in
               if isInvalid monthDate
               then row_error ("Invalid month date: " +:+ month)
               else
                 let percent :=
                   parseFloat (to_string (prop row "attendancePercent")) in
                 if isNaN percent || number_lt percent (of_Z 0)
                    || number_gt percent (of_Z 100)
                 then row_error
                        ("Invalid attendance percentage: "
                         +:+ to_string (prop row "attendancePercent"))
                 else
                   let* existingAttendance :=
                     attendance_findFirst sid cid monthDate in
                   match existingAttendance with
                   | Some existing =>
                       attendance_update (attendanceId existing) percent
                   | None => attendance_create sid cid monthDate percent
                   end >>
                   count_processed
             else row_error ("Invalid month format: " +:+ month)
         end)
        database_error
  end.

Definition testscores_row (row : Row) : M unit :=
  match validateTestScoreRow row with
  | Some validationError => row_error validationError
  | None =>
      try_catch
        (let sid := to_string (prop row "studentId") in
         let cid := to_string (prop row "courseId") in
         let* student := student_findUnique sid in
         match student with
         | None => student_not_found row
         | Some student =>
             let* course := find_or_create_course student cid in
             let testDate := new_Date (prop row "testDate") in
             if isInvalid testDate
             then row_error ("Invalid test date: "
                             +:+ to_string (prop row "testDate"))
             else
               let score := parseFloat (to_string (prop row "score")) in
               if isNaN score || number_lt score (of_Z 0)
                  || number_gt score (of_Z 100)
               then row_error ("Invalid score: "
                               +:+ to_string (prop row "score"))
               else
                 testScore_create
                   {| t_studentId := sid; t_courseId := cid;
                      t_testDate := testDate; t_score := score |} >>
                 count_processed
         end)
        database_error
  end.

(** [row.cleared === 'true' || ... === '1' || ... 'TRUE' || ... 'True'] *)
Definition parse_cleared (v : value) : bool :=
  bool_decide (v = str "true") || bool_decide (v = str "1")
  || bool_decide (v = str "TRUE") || bool_decide (v = str "True").

Definition backlogs_row (row : Row) : M unit :=
  match validateBacklogRow row with
  | Some validationError => row_error validationError
  | None =>
      try_catch
        (let sid := to_string (prop row "studentId") in
         let cid := to_string (prop row "courseId") in
         let* student := student_findUnique sid in
         match student with
         | None => student_not_found row
         | Some student =>
             let* course := find_or_create_course student cid in
             let n := parseInt (to_string (prop row "attempts")) in
             if isNaN n || number_lt n (of_Z 1)
             then row_error ("Invalid attempts: "
                             +:+ to_string (prop row "attempts"))
             else
               let c := parse_cleared (prop row "cleared") in
               let* existingBacklog := backlog_findFirst sid cid in
               match existingBacklog with
               | Some existing => backlog_update (backlogId existing) n c
               | None => backlog_create sid cid n c
               end >>
               count_processed
         end)
        database_error
  end.

Definition fees_row (row : Row) : M unit :=
  match validateFeeRow row with
  | Some validationError => row_error validationError
  | None =>
      try_catch
        (let sid := to_string (prop row "studentId") in
         let* student := student_findUnique sid in
         match student with
         | None => student_not_found row
         | Some student =>
             let dueDate := new_Date (prop row "dueDate") in
             if isInvalid dueDate
             then row_error ("Invalid due date: "
                             +:+ to_string (prop row "dueDate"))
             else
               let paidDate :=
                 if truthy (prop row "paidDate")
                 then Some (new_Date (prop row "paidDate"))
                 else None in
               if match paidDate with
                  | Some d => isInvalid d
                  | None => false
                  end
               then row_error ("Invalid paid date: "
                               +:+ to_string (prop row "paidDate"))
               else
                 let dueMonths :=
                   parseInt (to_string (prop row "dueMonths")) in
                 if isNaN dueMonths || number_lt dueMonths (of_Z 1)
                 then row_error ("Invalid due months: "
                                 +:+ to_string (prop row "dueMonths"))
                 else
                   feePayment_create
                     {| f_studentId := sid; f_dueDate := dueDate;
                        f_paidDate := paidDate;
                        f_status := to_string (prop row "status");
                        f_dueMonths := dueMonths |} >>
                   count_processed
         end)
        database_error
  end.

(** [v ? new Date(v) : null] *)
Definition optional_Date (v : value) : option Date :=
  if truthy v then Some (new_Date v) else None.

Definition projects_row (teacher : string) (row : Row) : M unit :=
  match validateProjectRow row with
  | Some validationError => row_error validationError
  | None =>
      try_catch
        (let sid := to_string (prop row "studentId") in
         let* student := student_findUnique sid in
         match student with
         | None => student_not_found row
         | Some student =>
             project_create
               {| p_title := to_string (prop row "title");
                  p_description := or_null (prop row "description");
                  p_studentId := sid;
                  p_supervisorId := teacher;
                  p_startDate := new_Date (prop row "startDate");
                  p_endDate := optional_Date (prop row "endDate");
                  p_status := or_default (prop row "status") "Active" |} >>
             count_processed
         end)
        database_error
  end.

Definition phd_row (teacher : string) (row : Row) : M unit :=
  match validatePhdRow row with
  | Some validationError => row_error validationError
  | None =>
      try_catch
        (let sid := to_string (prop row "studentId") in
         let* student := student_findUnique sid in
         match student with
         | None => student_not_found row
         | Some student =>
             phdSupervision_create
               {| h_title := to_string (prop row "title");
                  h_researchArea := to_string (prop row "researchArea");
                  h_studentId := sid;
                  h_supervisorId := teacher;
                  h_startDate := new_Date (prop row "startDate");
                  h_expectedEnd := optional_Date (prop row "expectedEnd");
                  h_status := or_default (prop row "status") "Ongoing" |} >>
             count_processed
         end)
        database_error
  end.

Definition fellowships_row (teacher : string) (row : Row) : M unit :=
  match validateFellowshipRow row with
  | Some validationError => row_error validationError
  | None =>
      try_catch
        (let sid := to_string (prop row "studentId") in
         let* student := student_findUnique sid in
         match student with
         | None => student_not_found row
         | Some student =>
             fellowship_create
               {| w_type := to_string (prop row "type");
                  w_amount := parseFloat (to_string (prop row "amount"));
                  w_duration := parseInt (to_string (prop row "duration"));
                  w_studentId := sid;
                  w_supervisorId := teacher;
                  w_startDate := new_Date (prop row "startDate");
                  w_endDate := optional_Date (prop row "endDate");
                  w_status := or_default (prop row "status") "Active" |} >>
             count_processed
         end)
        database_error
  end.

(** The [switch (type)]: the loop body of each upload type. *)
Definition row_handler (teacher : string) (type : string)
    : option (Row -> M unit) :=
  if String.eqb type "students" then Some (students_row teacher)
  else if String.eqb type "attendance" then Some attendance_row
  else if String.eqb type "testscores" then Some testscores_row
  else if String.eqb type "backlogs" then Some backlogs_row
  else if String.eqb type "fees" then Some fees_row
  else if String.eqb type "projects" then Some (projects_row teacher)
  else if String.eqb type "phd" then Some (phd_row teacher)
  else if String.eqb type "fellowships" then Some (fellowships_row teacher)
  else None.

Inductive Response : Type :=
| json_error (status : nat) (error : string)
| json_success (processed total : nat) (errors : list string).

Definition start (store : Store) : World :=
  {| db := store; trace := []; errors := []; processed := 0 |}.

(** The route, from the decoded [uid] cookie, the text of the uploaded
    file and the [type] field of the form.  The world returned is the
    one the request leaves behind. *)
Definition POST (teacherId : option string) (file : option string)
    (type : option string) (store : Store) : Response * World :=
  let w0 := start store in
  match teacherId with
  | None => (json_error 401 "Authentication required", w0)
  | Some teacher =>
      if String.eqb teacher ""
      then (json_error 401 "Authentication required", w0)
      else
        match file, type with
        | Some csvText, Some type =>
            if String.eqb type ""
            then (json_error 400 "File and type are required", w0)
            else
              let rows := CSV.parseCSV csvText in
              if (length rows =? 0)%nat
              then (json_error 400 "No valid data found in CSV", w0)
              else
                match row_handler teacher type with
                | None => (json_error 400 "Invalid upload type", w0)
                | Some body =>
                    match for_of rows body w0 with
                    | (w, inr _) =>
                        (json_success (processed w) (length rows)
                           (firstn 10 (errors w)), w)
                    | (w, inl message) =>
                        (json_error 500
                           ("Internal server error: " +:+ message), w)
                    end
                end
        | _, _ => (json_error 400 "File and type are required", w0)
        end
  end.

End Handler.

End Upload.

(** ** A reference engine

    The handler is parametric in the global functions and in the store's
    faults.  To run it on concrete uploads, this module gives the global
    functions on the inputs where every engine agrees: [parseInt] and
    [parseFloat] on decimal and hexadecimal literals (the finite value is
    the exact rational of the literal, which for the short literals used
    below is also the double the engine returns), and [Date] parsing on the
    date-only forms YYYY, YYYY-MM and YYYY-MM-DD of the date-time string
    format, with every other string Invalid Date. *)

Module Engine.

Definition digit_value (radix : Z) (c : ascii) : option Z :=
  let n := Z.of_nat (nat_of_ascii c) in
  let v := (if (48 <=? n) && (n <=? 57) then n - 48
            else if (97 <=? n) && (n <=? 122) then n - 87
            else if (65 <=? n) && (n <=? 90) then n - 55
            else radix)%Z in
  if (v <? radix)%Z then Some v else None.

(** The longest prefix of digits: how many, their value, and the rest. *)
Fixpoint read_digits (radix : Z) (l : list ascii) (count : nat) (acc : Z)
    : nat * Z * list ascii :=
  match l with
  | c :: r =>
      match digit_value radix c with
      | Some v => read_digits radix r (S count) (acc * radix + v)%Z
      | None => (count, acc, l)
      end
  | [] => (count, acc, [])
  end.

Definition read_sign (l : list ascii) : Z * list ascii :=
  match l with
  | c :: r =>
      if Ascii.eqb c "-" then ((-1)%Z, r)
      else if Ascii.eqb c "+" then (1%Z, r)
      else (1%Z, l)
  | [] => (1%Z, [])
  end.

Fixpoint starts_with (p l : list ascii) : bool :=
  match p, l with
  | [], _ => true
  | a :: p', b :: l' => Ascii.eqb a b && starts_with p' l'
  | _ :: _, [] => false
  end.

Definition parseInt_literal (s : string) : number :=
  let (sign, l) := read_sign (Str.trimStart_chars (Str.chars s)) in
  let (radix, l) :=
    match l with
    | z :: x :: r =>
        if Ascii.eqb z "0" && (Ascii.eqb x "x" || Ascii.eqb x "X")
        then (16%Z, r) else (10%Z, l)
    | _ => (10%Z, l)
    end in
  match read_digits radix l 0 0 with
  | (O, _, _) => NaN
  | (_, v, _) => of_Z (sign * v)
  end.

Definition scaled (m : Z) (scale : Z) : Q :=
  if (0 <=? scale)%Z then inject_Z (m * 10 ^ scale)%Z
  else Qmake m (Z.to_pos (10 ^ (- scale))%Z).

Definition parseFloat_literal (s : string) : number :=
  let (sign, l) := read_sign (Str.trimStart_chars (Str.chars s)) in
  if starts_with (Str.chars "Infinity") l
  then (if (sign <? 0)%Z then NegInfinity else Infinity)
  else
    let '(ni, vi, l) := read_digits 10 l 0 0 in
    let '(nf, v, l) :=
      match l with
      | c :: r => if Ascii.eqb c "." then read_digits 10 r 0 vi
                  else (O, vi, l)
      | [] => (O, vi, l)
      end in
    if (ni + nf =? 0)%nat then NaN
    else
      let e :=
        match l with
        | c :: r =>
            if Ascii.eqb c "e" || Ascii.eqb c "E" then
              let (esign, r) := read_sign r in
              match read_digits 10 r 0 0 with
              | (O, _, _) => 0%Z
              | (_, ev, _) => (esign * ev)%Z
              end
            else 0%Z
        | [] => 0%Z
        end in
      Num (scaled (sign * v) (e - Z.of_nat nf)).

Definition is_leap (y : Z) : bool :=
  ((y mod 4 =? 0) && negb (y mod 100 =? 0) || (y mod 400 =? 0))%Z.

Definition days_in_month (y m : Z) : Z :=
  if (m =? 2)%Z then (if is_leap y then 28 + 1 else 28)%Z
  else if ((m =? 4) || (m =? 6) || (m =? 9) || (m =? 11))%Z then 30%Z
  else 31%Z.

(** Days from 1970-01-01 to the given civil date. *)
Definition days_from_civil (y m d : Z) : Z :=
  let y' := (if m <=? 2 then y - 1 else y)%Z in
  let era := (y' / 400)%Z in
  let yoe := (y' - era * 400)%Z in
  let mp := (if 2 <? m then m - 3 else m + 9)%Z in
  let doy := ((153 * mp + 2) / 5 + d - 1)%Z in
  let doe := (yoe * 365 + yoe / 4 - yoe / 100 + doy)%Z in
  (era * 146097 + doe - 719468)%Z.

Definition civil (y m d : option Z) : Date :=
  match y, m, d with
  | Some y, Some m, Some d =>
      if ((1 <=? m) && (m <=? 12) && (1 <=? d) && (d <=? days_in_month y m))%Z
      then TimeValue (days_from_civil y m d * 86400000)
      else InvalidDate
  | _, _, _ => InvalidDate
  end.

Definition number_of (l : list ascii) : option Z :=
  match read_digits 10 l 0 0 with
  | (n, v, []) => if (n =? length l)%nat then Some v else None
  | _ => None
  end.

Definition Date_parse_iso (s : string) : Date :=
  match Str.chars s with
  | [y1; y2; y3; y4] => civil (number_of [y1; y2; y3; y4]) (Some 1%Z) (Some 1%Z)
  | [y1; y2; y3; y4; h; m1; m2] =>
      if Ascii.eqb h "-"
      then civil (number_of [y1; y2; y3; y4]) (number_of [m1; m2]) (Some 1%Z)
      else InvalidDate
  | [y1; y2; y3; y4; h; m1; m2; h'; d1; d2] =>
      if Ascii.eqb h "-" && Ascii.eqb h' "-"
      then civil (number_of [y1; y2; y3; y4]) (number_of [m1; m2])
             (number_of [d1; d2])
      else InvalidDate
  | _ => InvalidDate
  end.

Definition builtins : Builtins :=
  {| parseInt := parseInt_literal;
     parseFloat := parseFloat_literal;
     Date_parse := Date_parse_iso |}.

(** A store that accepts every call. *)
Definition no_faults : Faults := {| fault := fun _ _ => None |}.

End Engine.

(** ** Vocabulary of the statements *)

Import Str CSV Table Prisma Upload.

(** A list is trimmed at the start when it does not begin with white space. *)
Definition starts_clean (l : list ascii) : Prop :=
  match l with
  | c :: _ => is_space c = false
  | [] => True
  end.

(** One double quote, and one line feed, as strings. *)
Definition dq : string := String dquote EmptyString.

Definition nl : string := String newline EmptyString.

(** The field of the escaped-quote example as it stands in the file, and
    the value it spells. *)
Definition escaped_field : string :=
  dq +:+ "He said " +:+ dq +:+ dq +:+ "hi" +:+ dq +:+ dq +:+ dq.

Definition literal_value : string := "He said " +:+ dq +:+ "hi" +:+ dq.

(** A token with quotes inside, and a field that is tokenized to it. *)
Definition quoted_token : string := "a" +:+ dq +:+ "b" +:+ dq.

Definition quoted_token_field : string :=
  dq +:+ "a" +:+ dq +:+ dq +:+ "b" +:+ dq +:+ dq +:+ dq.

(** The owner of an existing student after an upload by [teacher]: kept
    when there was one, otherwise kept or set to the uploader. *)
Definition owner_kept (teacher : string) (s s' : Student) : Prop :=
  studentId s' = studentId s
  /\ (no_teacher s = false -> teacherId s' = teacherId s)
  /\ (no_teacher s = true ->
      teacherId s' = teacherId s \/ teacherId s' = Some teacher).

(** The student table after, against the table before: identifiers stay
    unique and every record is still there, at its place, with its owner
    kept. *)
Definition students_rel (teacher : string) (old new : list Student) : Prop :=
  NoDup (map studentId old) ->
  NoDup (map studentId new)
  /\ forall (i : nat) (s : Student), old !! i = Some s ->
       exists s', new !! i = Some s' /\ owner_kept teacher s s'.

(** Every run of the block relates the world before to the world after. *)
Definition keeps {A : Type} (R : World -> World -> Prop) (m : M A) : Prop :=
  forall (w w' : World) (r : string + A), m w = (w', r) -> R w w'.

(** The student table is untouched. *)
Definition same_students (w w' : World) : Prop :=
  students (db w') = students (db w).

(** [students_rel] between the tables of two worlds. *)
Definition students_step (teacher : string) (w w' : World) : Prop :=
  students_rel teacher (students (db w)) (students (db w')).

(** Client calls alone touch neither [errors] nor [processed]. *)
Definition calls_only (w w' : World) : Prop :=
  errors w' = errors w /\ processed w' = processed w.

(** The batch lookup is made of calls and leaves the students alone. *)
Definition lookup_step (w w' : World) : Prop :=
  same_students w w' /\ calls_only w w'.

(** The owner an upsert leaves on the student [sid]. *)
Definition owner_after (teacher : string) (before : option Student)
    : option string :=
  match before with
  | Some existing =>
      if no_teacher existing then Some teacher else teacherId existing
  | None => Some teacher
  end.

(** The whole batch step of a students row may push an error, but leaves
    the students and the counter alone. *)
Definition batch_step (w w' : World) : Prop :=
  same_students w w' /\ processed w' = processed w.

(** A store whose batch table cannot be read. *)
Definition batch_outage : Faults :=
  {| fault := fun _ c =>
       match c with
       | BatchFindUnique _ => Some "Connection lost"
       | _ => None
       end |}.

(** Uploads used to run the route. *)
Definition one_student_csv : string :=
  "studentId,name,email,dob,currentSemester,batchId" +:+ nl
  +:+ "S1,Alice,a@x.com,2000-01-01,3,CSE2024B".

(** A store that rejects a project whose start date is Invalid Date. *)
Definition strict_dates : Faults :=
  {| fault := fun _ c =>
       match c with
       | ProjectCreate p =>
           if isInvalid (p_startDate p)
           then Some "Invalid value for argument startDate"
           else None
       | _ => None
       end |}.

(** A store that accepts every call. *)
Definition Reliable `{Faults} : Prop :=
  forall (s : Store) (c : Call), fault s c = None.

(** The world after a call that was accepted. *)
Definition called (w : World) (c : Call) (d : Store) : World :=
  {| db := d; trace := trace w ++ [c]; errors := errors w;
     processed := processed w |}.

(** The course created for a course code the store does not know. *)
Definition placeholder_course (student : Student) (cid : string)
    : CourseSubject :=
  {| c_courseId := cid; c_name := "Course " +:+ cid; c_code := cid;
     c_semester := 1; c_department := department_or_General student |}.

(** The store once the course [cid] is known to it. *)
Definition with_course (st : Store) (student : Student) (cid : string)
    : Store :=
  match find_course st cid with
  | Some _ => st
  | None => set_courses st (courses st ++ [placeholder_course student cid])
  end.

(** The world after a row whose student the store does not know: one
    lookup made, one error pushed, nothing written, nothing counted. *)
Definition unknown_student (row : Row) (w : World) : World :=
  {| db := db w;
     trace := trace w ++ [StudentFindUnique (to_string (prop row "studentId"))];
     errors := errors w
               ++ ["Row " +:+ Str.of_nat (processed w + 1) +:+ ": Student "
                   +:+ to_string (prop row "studentId") +:+ " not found"];
     processed := processed w |}.

(** The validator and the loop body of every upload type but students. *)
Definition student_bound_types `{Builtins} `{Faults} (teacher : string)
    : list ((Row -> option string) * (Row -> M unit)) :=
  [ (validateAttendanceRow, attendance_row);
    (validateTestScoreRow, testscores_row);
    (validateBacklogRow, backlogs_row);
    (validateFeeRow, fees_row);
    (validateProjectRow, projects_row teacher);
    (validatePhdRow, phd_row teacher);
    (validateFellowshipRow, fellowships_row teacher) ].

(** A student owned by another teacher, and a store holding only her. *)
Definition alice : Student :=
  {| studentId := "S1"; teacherId := Some "T0";
     data := {| name := "Alice"; email := "a@x.com"; phone := None;
                dob := TimeValue 946684800000; department := Some "CSE";
                currentSemester := of_Z 3; batchId := None;
                parentName := None; parentEmail := None;
                parentPhone := None; address := None |} |}.

Definition store_with_alice : Store := Table.set_students empty_store [alice].

(** The same student before any teacher owns her. *)
Definition orphan : Student :=
  {| studentId := "S1"; teacherId := None; data := data alice |}.

Definition store_with_orphan : Store :=
  Table.set_students empty_store [orphan].

Definition two_nameless_rows : string :=
  "studentId,name" +:+ nl +:+ "S1," +:+ nl +:+ "S2,".

Definition student_bad_dob : string :=
  "studentId,name,email,dob,currentSemester" +:+ nl
  +:+ "S2,Bob,b@x.com,notadate,3".

Definition project_bad_date : string :=
  "studentId,title,startDate" +:+ nl +:+ "S1,Thesis,notadate".

Definition phd_bad_date : string :=
  "studentId,title,researchArea,startDate" +:+ nl
  +:+ "S1,Thesis,Logic,notadate".

Definition fellowship_bad_fields : string :=
  "studentId,type,amount,duration,startDate" +:+ nl
  +:+ "S1,Merit,lots,long,notadate".

Definition march_and_mid_march : string :=
  "studentId,courseId,month,attendancePercent" +:+ nl
  +:+ "S1,C1,2024-03,80" +:+ nl +:+ "S1,C1,2024-03-15,90".

Definition march_and_first_of_march : string :=
  "studentId,courseId,month,attendancePercent" +:+ nl
  +:+ "S1,C1,2024-03,80" +:+ nl +:+ "S1,C1,2024-03-01,90".

(** The route on the reference engine with a store that accepts every call. *)
Definition upload (type csvText : string) (store : Store)
    : Response * World :=
  @POST Engine.builtins Engine.no_faults (Some "T1") (Some csvText)
    (Some type) store.

(** Rows and stores used to run single loop bodies. *)
Definition march_row : Row :=
  row_of ["studentId"; "courseId"; "month"; "attendancePercent"]
    ["S1"; "C1"; "2024-03"; "90"].

Definition score_row : Row :=
  row_of ["studentId"; "courseId"; "testDate"; "score"]
    ["S1"; "C1"; "2024-03-01"; "75"].

Definition backlog_row : Row :=
  row_of ["studentId"; "courseId"; "attempts"; "cleared"]
    ["S1"; "C1"; "2"; "true"].

Definition alice_row : Row :=
  row_of ["studentId"; "name"; "email"; "dob"; "currentSemester"; "batchId"]
    ["S1"; "Alice"; "a@x.com"; "2000-01-01"; "3"; "CSE2024B"].

Definition march_record : Attendance :=
  {| attendanceId := 1; a_studentId := "S1"; a_courseId := "C1";
     a_month := TimeValue 1709251200000; attendancePercent := of_Z 80 |}.

Definition store_with_march : Store :=
  Table.set_attendances store_with_alice [march_record].

Definition first_backlog : Backlog :=
  {| backlogId := 1; g_studentId := "S1"; g_courseId := "C1";
     attempts := of_Z 1; cleared := false |}.

Definition store_with_backlog : Store :=
  Table.set_backlogs store_with_alice [first_backlog].

(** ** Vocabulary of the further properties *)

(** A value as the parser stores it: null or a string that is not empty. *)
Definition parsed_value (v : value) : Prop :=
  v = null \/ exists s, v = str s /\ s <> "".

(** The reason a validator gives for the first of [fields] that the row
    lacks. *)
Fixpoint first_missing (fields : list string) (row : Row) : option string :=
  match fields with
  | [] => None
  | f :: more =>
      if truthy (prop row f) then first_missing more row
      else Some ("Missing " +:+ f)
  end.

(** The validators that only test fields for presence, each with the
    fields it tests, in the order it tests them. *)
Definition presence_validators
    : list ((Row -> option string) * list string) :=
  [ (validateStudentRow,
     ["studentId"; "name"; "email"; "dob"; "currentSemester"]);
    (validateAttendanceRow,
     ["studentId"; "courseId"; "month"; "attendancePercent"]);
    (validateTestScoreRow, ["studentId"; "courseId"; "testDate"; "score"]);
    (validateFeeRow, ["studentId"; "dueDate"; "status"; "dueMonths"]);
    (validateProjectRow, ["studentId"; "title"; "startDate"]);
    (validatePhdRow, ["studentId"; "title"; "researchArea"; "startDate"]);
    (validateFellowshipRow,
     ["studentId"; "type"; "amount"; "duration"; "startDate"]) ].

(** The fields each presence validator tests, with the loop body that
    runs it. *)
Definition presence_checked `{Builtins} `{Faults} (teacher : string)
    : list (list string * (Row -> M unit)) :=
  [ (["studentId"; "name"; "email"; "dob"; "currentSemester"],
     students_row teacher);
    (["studentId"; "courseId"; "month"; "attendancePercent"],
     attendance_row);
    (["studentId"; "courseId"; "testDate"; "score"], testscores_row);
    (["studentId"; "dueDate"; "status"; "dueMonths"], fees_row);
    (["studentId"; "title"; "startDate"], projects_row teacher);
    (["studentId"; "title"; "researchArea"; "startDate"], phd_row teacher);
    (["studentId"; "type"; "amount"; "duration"; "startDate"],
     fellowships_row teacher) ].

(** The world after one more error entry. *)
Definition with_error (w : World) (reason : string) : World :=
  {| db := db w; trace := trace w;
     errors := errors w
               ++ ["Row " +:+ Str.of_nat (processed w + 1) +:+ ": " +:+ reason];
     processed := processed w |}.

(** A step that leaves the part [proj] of the store and the counter as
    they were, and the error list at most longer. *)
Definition calm {T : Type} (proj : Store -> T) (w w' : World) : Prop :=
  proj (db w') = proj (db w)
  /\ processed w' = processed w
  /\ errors w `prefix_of` errors w'.

(** How a row ends: rejected, with [proj] and the counter untouched and
    at least one more error, or counted. *)
Definition row_outcome {T : Type} (proj : Store -> T) (w w' : World)
    : Prop :=
  (calm proj w w' /\ length (errors w) < length (errors w'))
  \/ (processed w' = processed w + 1 /\ errors w `prefix_of` errors w').

(** A loop body: it returns, never throws, and ends the row. *)
Definition ends_row {T : Type} (proj : Store -> T) (body : M unit) : Prop :=
  forall w : World,
    exists w' : World, body w = (w', inr tt) /\ row_outcome proj w w'.

(** The inside of a [try]: it may throw, having been calm, or end the row. *)
Definition settles {T : Type} (proj : Store -> T) (m : M unit) : Prop :=
  forall (w w' : World) (r : string + unit),
    m w = (w', r) ->
    (exists e, r = inl e /\ calm proj w w')
    \/ (r = inr tt /\ row_outcome proj w w').

(** A block of client calls that may write to [proj], but not when it
    throws. *)
Definition writes {T A : Type} (proj : Store -> T) (m : M A) : Prop :=
  forall (w w' : World) (r : string + A),
    m w = (w', r) ->
    processed w' = processed w
    /\ errors w `prefix_of` errors w'
    /\ forall e, r = inl e -> proj (db w') = proj (db w).

(** The values of [type] the route accepts. *)
Definition upload_types : list string :=
  ["students"; "attendance"; "testscores"; "backlogs"; "fees"; "projects";
   "phd"; "fellowships"].

(** A number that is finite and lies between two integers, ends included. *)
Definition in_range (a b : Z) (n : number) : Prop :=
  exists q : Q, n = Num q /\ (inject_Z a <= q)%Q /\ (q <= inject_Z b)%Q.

(** A number that is not NaN and not below an integer. *)
Definition not_below (a : Z) (n : number) : Prop :=
  n = Infinity \/ exists q : Q, n = Num q /\ (inject_Z a <= q)%Q.

(** The part [proj] of the store is the same in both worlds. *)
Definition same_on {T : Type} (proj : Store -> T) (w w' : World) : Prop :=
  proj (db w') = proj (db w).

(** The store with the tables an upload type may write to emptied: what
    is left is what that type must leave alone. *)
Definition beside_students (s : Store) : Store :=
  set_students (set_batches (set_courses s []) []) [].

Definition beside_courses (s : Store) : Store := set_courses s [].

Definition beside_attendance (s : Store) : Store :=
  set_attendances (set_courses s []) [].

Definition beside_testscores (s : Store) : Store :=
  set_testScores (set_courses s []) [].

Definition beside_backlogs (s : Store) : Store :=
  set_backlogs (set_courses s []) [].

Definition beside_fees (s : Store) : Store := set_feePayments s [].

Definition beside_projects (s : Store) : Store := set_projects s [].

Definition beside_phd (s : Store) : Store := set_phdSupervisions s [].

Definition beside_fellowships (s : Store) : Store := set_fellowships s [].

(** More rows to run single loop bodies on. *)
Definition fee_row : Row :=
  row_of ["studentId"; "dueDate"; "status"; "dueMonths"]
    ["S1"; "2024-04-01"; "pending"; "2"].

Definition project_row : Row :=
  row_of ["studentId"; "title"; "startDate"] ["S1"; "Thesis"; "2024-01-15"].

Definition phd_thesis_row : Row :=
  row_of ["studentId"; "title"; "researchArea"; "startDate"]
    ["S1"; "Thesis"; "Logic"; "2024-01-15"].

Definition fellowship_row : Row :=
  row_of ["studentId"; "type"; "amount"; "duration"; "startDate"]
    ["S1"; "Merit"; "1000"; "12"; "2024-01-15"].

(** The course and the batch a students row creates for a batch code the
    store does not know. *)
Definition general_course (dept : string) : CourseSubject :=
  {| c_courseId := dept +:+ "_GENERAL";
     c_name := dept +:+ " General Course";
     c_code := dept +:+ "_GENERAL";
     c_semester := 1;
     c_department := dept |}.

Definition new_batch `{Builtins} (code dept year section : string) : Batch :=
  {| b_batchId := code; b_batchNo := section;
     b_courseId := dept +:+ "_GENERAL"; b_year := parseInt year;
     b_department := dept |}.

(** Course codes and batch codes are keys: a step keeps each of them
    free of duplicates. *)
Definition keys_stay_unique (w w' : World) : Prop :=
  (NoDup (map c_courseId (courses (db w))) ->
   NoDup (map c_courseId (courses (db w'))))
  /\ (NoDup (map b_batchId (batches (db w))) ->
      NoDup (map b_batchId (batches (db w')))).

(** An attendance row whose percentage is out of range. *)
Definition over_row : Row :=
  row_of ["studentId"; "courseId"; "month"; "attendancePercent"]
    ["S1"; "C1"; "2024-03"; "150"].

(** The student identifiers a file names, row by row. *)
Definition named_students (rows : list Row) : list string :=
  map (fun row => to_string (prop row "studentId")) rows.

(** Every student whose identifier is not among [ids] is where it was,
    as it was. *)
Definition others_kept (ids : list string) (w w' : World) : Prop :=
  forall (i : nat) (s : Student),
    students (db w) !! i = Some s -> studentId s ∉ ids ->
    students (db w') !! i = Some s.

(** A file with one new student. *)
Definition bob_csv : string :=
  "studentId,name,email,dob,currentSemester" +:+ nl
  +:+ "S2,Bob,b@x.com,2001-05-05,4".

(** [after] is [before] with at most the record [found] rewritten in place
    and at most one record appended. *)
Definition changes_only {T : Type} (found : option T)
    (before after : list T) : Prop :=
  (length before <= length after <= length before + 1)%nat
  /\ forall (i : nat) (x : T),
       before !! i = Some x -> found <> Some x -> after !! i = Some x.

(** The February record of the same student and course, stored before the
    March one. *)
Definition february_record : Attendance :=
  {| attendanceId := 2; a_studentId := "S1"; a_courseId := "C1";
     a_month := TimeValue 1706745600000; attendancePercent := of_Z 60 |}.

Definition store_with_two_months : Store :=
  Table.set_attendances store_with_alice [february_record; march_record].

(** A field as a CSV writer quotes it: every double quote doubled, the
    whole between two double quotes. *)
Definition escape_quotes (l : list ascii) : list ascii :=
  flat_map (fun c => if Ascii.eqb c dquote then [dquote; dquote] else [c]) l.

Definition quoted_field (t : string) : string :=
  of_chars (dquote :: escape_quotes (chars t) ++ [dquote]).

(** [v] is [t] without the double quote at its first position, when it has
    one there, and without the double quote at the last position of what
    is left, when it has one there. *)
Definition loses_end_quotes (t v : string) : Prop :=
  exists lead trail : list ascii,
    chars t = lead ++ chars v ++ trail
    /\ (lead = [dquote] \/ (lead = [] /\ head (chars t) <> Some dquote))
    /\ (trail = [dquote] \/ (trail = [] /\ last (chars v) <> Some dquote)).


(** [h] is [t] with every double quote deleted. *)
Definition loses_all_quotes (t h : string) : Prop :=
  (dquote ∉ chars h)
  /\ chars h `sublist_of` chars t
  /\ (length (chars t)
      = length (chars h) + count_occ ascii_dec (chars t) dquote)%nat.

(** The names every object inherits from [Object.prototype]. *)
Definition inherited_names : list string :=
  [ "constructor"; "__proto__"; "hasOwnProperty"; "isPrototypeOf";
    "propertyIsEnumerable"; "toLocaleString"; "toString"; "valueOf";
    "__defineGetter__"; "__defineSetter__"; "__lookupGetter__";
    "__lookupSetter__" ].


(** ** Facts about the parser *)

Lemma chars_of_chars (l : list ascii) : chars (of_chars l) = l.
Proof. apply list_ascii_of_string_of_list_ascii. Qed.

Lemma of_chars_chars (s : string) : of_chars (chars s) = s.
Proof. apply string_of_list_ascii_of_string. Qed.


Lemma trimStart_fixed (l : list ascii) :
  starts_clean l -> trimStart_chars l = l.
Proof. destruct l as [|c r]; simpl; [done|]. by intros ->. Qed.







Lemma split_chars_length (sep : ascii) (l : list ascii) :
  (1 <= length (split_chars sep l))%nat.
Proof.
  induction l as [|c r IH]; simpl; [lia|].
  destruct (Ascii.eqb c sep); simpl; [lia|].
  destruct (split_chars sep r); simpl in *; lia.
Qed.






Lemma remove_quotes_clean (s : string) :
  dquote ∉ chars (remove_quotes s).
Proof.
  unfold remove_quotes. rewrite chars_of_chars.
  intros Hin. apply list_elem_of_In, filter_In in Hin as [_ Hq].
  by rewrite Ascii.eqb_refl in Hq.
Qed.



(** C8.  The field [escaped_field], a quoted He said hi with hi in doubled
    quotes, is tokenized to the literal value with single quotes around
    hi; the value pass then strips one trailing quote from it, and that
    stripped string is what the row holds. *)
Theorem escaped_quote_field :
  parseLine escaped_field = [literal_value]
  /\ values_of escaped_field = [strip_surrounding_quotes literal_value]
  /\ strip_surrounding_quotes literal_value = "He said " +:+ dq +:+ "hi"
  /\ parseCSV ("quote" +:+ nl +:+ escaped_field)
     = [ {[ "quote" := str ("He said " +:+ dq +:+ "hi") ]} ].
Proof. repeat split; vm_compute; reflexivity. Qed.

(** ** Facts about the handler *)

Section Keeps.
Context `{Faults} (R : World -> World -> Prop) `{!PreOrder R}.

Hypothesis R_errors : forall w e,
  R w {| db := db w; trace := trace w; errors := e; processed := processed w |}.
Hypothesis R_processed : forall w n,
  R w {| db := db w; trace := trace w; errors := errors w; processed := n |}.
Hypothesis R_trace : forall w t,
  R w {| db := db w; trace := t; errors := errors w; processed := processed w |}.

Lemma keeps_ret {A : Type} (a : A) : keeps R (ret a).
Proof. intros w w' r [= <- _]. reflexivity. Qed.

Lemma keeps_bind {A B : Type} (m : M A) (k : A -> M B) :
  keeps R m -> (forall a, keeps R (k a)) -> keeps R (bind m k).
Proof.
  intros Hm Hk w w' r. unfold bind.
  destruct (m w) as [w1 [e|a]] eqn:Em.
  - intros [= <- _]. eapply Hm, Em.
  - intros Ek. transitivity w1; [eapply Hm, Em | eapply Hk, Ek].
Qed.

Lemma keeps_try_catch {A : Type} (m : M A) (h : string -> M A) :
  keeps R m -> (forall e, keeps R (h e)) -> keeps R (try_catch m h).
Proof.
  intros Hm Hh w w' r. unfold try_catch.
  destruct (m w) as [w1 [e|a]] eqn:Em.
  - intros Eh. transitivity w1; [eapply Hm, Em | eapply Hh, Eh].
  - intros [= <- _]. eapply Hm, Em.
Qed.

Lemma keeps_row_error (reason : string) : keeps R (row_error reason).
Proof. intros w w' r [= <- _]. apply R_errors. Qed.

Lemma keeps_count : keeps R count_processed.
Proof. intros w w' r [= <- _]. apply R_processed. Qed.

Lemma keeps_for_of {A : Type} (rows : list A) (body : A -> M unit) :
  (forall row, keeps R (body row)) -> keeps R (for_of rows body).
Proof.
  intros Hbody. induction rows as [|row more IH]; simpl.
  - apply keeps_ret.
  - apply keeps_bind; [apply Hbody | intros _; exact IH].
Qed.

Lemma keeps_client {A : Type} (c : Call) (run : Store -> Store * A) :
  (forall w, R w {| db := fst (run (db w)); trace := trace w ++ [c];
                    errors := errors w; processed := processed w |}) ->
  keeps R (client c run).
Proof.
  intros Hrun w w' r. unfold client.
  destruct (fault (db w) c).
  - intros [= <- _]. apply R_trace.
  - specialize (Hrun w). destruct (run (db w)) as [d a].
    intros [= <- _]. exact Hrun.
Qed.

End Keeps.

Ltac keeps_side := intros; first [reflexivity | repeat split; reflexivity].

Ltac keeps_step :=
  first
    [ apply keeps_ret; solve [typeclasses eauto]
    | apply keeps_row_error; keeps_side
    | apply keeps_count; keeps_side
    | apply keeps_bind; [typeclasses eauto | | intros ?]
    | apply keeps_try_catch; [typeclasses eauto | | intros ?]
    | apply keeps_client; [keeps_side | keeps_side]
    | match goal with
      | |- keeps _ (match ?x with _ => _ end) => destruct x
      end ].

Ltac keeps_calls := cbv zeta; repeat (keeps_step; cbv zeta).

Section Facts.
Context `{Builtins} `{Faults}.

#[global] Instance same_students_preorder : PreOrder same_students.
Proof.
  split; [by intros w | intros w1 w2 w3 H12 H23].
  unfold same_students in *. congruence.
Qed.

Lemma final_batch_students (row : Row) :
  keeps same_students (final_batch row).
Proof.
  unfold final_batch, find_or_create_batch, batch_findUnique, batch_create,
    courseSubject_findUnique, courseSubject_create.
  keeps_calls.
Qed.

Lemma find_or_create_course_students (student : Student) (cid : string) :
  keeps same_students (find_or_create_course student cid).
Proof.
  unfold find_or_create_course, courseSubject_findUnique,
    courseSubject_create.
  keeps_calls.
Qed.

Lemma attendance_row_students (row : Row) :
  keeps same_students (attendance_row row).
Proof.
  unfold attendance_row, student_not_found, database_error,
    student_findUnique, attendance_findFirst, attendance_update,
    attendance_create.
  keeps_calls; apply find_or_create_course_students.
Qed.

Lemma testscores_row_students (row : Row) :
  keeps same_students (testscores_row row).
Proof.
  unfold testscores_row, student_not_found, database_error,
    student_findUnique, testScore_create.
  keeps_calls; apply find_or_create_course_students.
Qed.

Lemma backlogs_row_students (row : Row) :
  keeps same_students (backlogs_row row).
Proof.
  unfold backlogs_row, student_not_found, database_error,
    student_findUnique, backlog_findFirst, backlog_update, backlog_create.
  keeps_calls; apply find_or_create_course_students.
Qed.

Lemma fees_row_students (row : Row) : keeps same_students (fees_row row).
Proof.
  unfold fees_row, student_not_found, database_error, student_findUnique,
    feePayment_create.
  keeps_calls.
Qed.

Lemma projects_row_students (teacher : string) (row : Row) :
  keeps same_students (projects_row teacher row).
Proof.
  unfold projects_row, student_not_found, database_error,
    student_findUnique, project_create.
  keeps_calls.
Qed.

Lemma phd_row_students (teacher : string) (row : Row) :
  keeps same_students (phd_row teacher row).
Proof.
  unfold phd_row, student_not_found, database_error, student_findUnique,
    phdSupervision_create.
  keeps_calls.
Qed.

Lemma fellowships_row_students (teacher : string) (row : Row) :
  keeps same_students (fellowships_row teacher row).
Proof.
  unfold fellowships_row, student_not_found, database_error,
    student_findUnique, fellowship_create.
  keeps_calls.
Qed.

Lemma keeps_weaken {A : Type} (R R' : World -> World -> Prop) (m : M A) :
  (forall w w', R w w' -> R' w w') -> keeps R m -> keeps R' m.
Proof. intros HR Hm w w' r Hrun. eapply HR, Hm, Hrun. Qed.

(** *** The student table under a students upload *)

Lemma owner_kept_refl (teacher : string) (s : Student) :
  owner_kept teacher s s.
Proof. repeat split; auto. Qed.

Lemma students_rel_refl (teacher : string) (l : list Student) :
  students_rel teacher l l.
Proof.
  intros Hnd. split; [done|]. intros i s Hs. exists s.
  split; [done | apply owner_kept_refl].
Qed.

Lemma students_rel_trans (teacher : string) (l1 l2 l3 : list Student) :
  students_rel teacher l1 l2 -> students_rel teacher l2 l3 ->
  students_rel teacher l1 l3.
Proof.
  intros H12 H23 Hnd. destruct (H12 Hnd) as [Hnd2 H12'].
  destruct (H23 Hnd2) as [Hnd3 H23']. split; [done|].
  intros i s Hs. destruct (H12' i s Hs) as (s2 & Hs2 & Hid2 & Hk2 & Ho2).
  destruct (H23' i s2 Hs2) as (s3 & Hs3 & Hid3 & Hk3 & Ho3).
  exists s3. split; [done|]. split; [congruence|]. split.
  - intros Hno. rewrite <- (Hk2 Hno). apply Hk3.
    unfold no_teacher in *. by rewrite (Hk2 Hno).
  - intros Hno. destruct (no_teacher s2) eqn:Hno2.
    + destruct (Ho3 eq_refl) as [->| ->]; [by apply Ho2 | by right].
    + rewrite (Hk3 eq_refl). by apply Ho2.
Qed.

#[global] Instance students_step_preorder (teacher : string) :
  PreOrder (students_step teacher).
Proof.
  split.
  - intros w. apply students_rel_refl.
  - intros w1 w2 w3. apply students_rel_trans.
Qed.

Lemma same_students_step (teacher : string) (w w' : World) :
  same_students w w' -> students_step teacher w w'.
Proof.
  unfold same_students, students_step. intros ->. apply students_rel_refl.
Qed.

Lemma find_student_Some (s : Store) (id : string) (x : Student) :
  find_student s id = Some x -> x ∈ students s /\ studentId x = id.
Proof.
  unfold find_student. intros Hf. apply find_some in Hf as [Hin Heq].
  split; [by apply list_elem_of_In | by apply String.eqb_eq].
Qed.

Lemma find_student_None (s : Store) (id : string) :
  find_student s id = None -> id ∉ map studentId (students s).
Proof.
  unfold find_student. intros Hf Hin.
  apply list_elem_of_fmap in Hin as (x & -> & Hx).
  apply list_elem_of_In in Hx.
  pose proof (find_none _ _ Hf x Hx) as Hne. simpl in Hne.
  by rewrite String.eqb_refl in Hne.
Qed.

Lemma update_student_id (id : string) (d : StudentData)
    (t : option string) (x : Student) :
  studentId (update_student id d t x) = studentId x.
Proof. unfold update_student. by destruct (String.eqb _ _). Qed.

Lemma map_update_student_ids (id : string) (d : StudentData)
    (t : option string) (l : list Student) :
  map studentId (map (update_student id d t) l) = map studentId l.
Proof.
  rewrite map_map. apply map_ext. intros x. apply update_student_id.
Qed.

Lemma NoDup_key_inj (l : list Student) (x y : Student) :
  NoDup (map studentId l) -> x ∈ l -> y ∈ l ->
  studentId x = studentId y -> x = y.
Proof.
  induction l as [|a l IH]; simpl; intros Hnd Hx Hy Heq.
  - by apply elem_of_nil in Hx.
  - apply NoDup_cons in Hnd as [Hnot Hnd].
    apply elem_of_cons in Hx as [->|Hx]; apply elem_of_cons in Hy as [->|Hy].
    + done.
    + exfalso. apply Hnot. rewrite Heq. by apply list_elem_of_fmap_2.
    + exfalso. apply Hnot. rewrite <- Heq. by apply list_elem_of_fmap_2.
    + by apply IH.
Qed.

Lemma students_rel_update_keep (teacher id : string) (d : StudentData)
    (l : list Student) :
  students_rel teacher l (map (update_student id d None) l).
Proof.
  intros Hnd. split; [by rewrite map_update_student_ids|].
  intros i s Hs. exists (update_student id d None s).
  split; [by rewrite list_lookup_fmap, Hs|].
  unfold owner_kept, update_student.
  destruct (String.eqb (studentId s) id); simpl; auto.
Qed.

Lemma students_rel_update_claim (teacher id : string) (d : StudentData)
    (st : Store) (existing : Student) :
  find_student st id = Some existing -> no_teacher existing = true ->
  students_rel teacher (students st)
    (map (update_student id d (Some teacher)) (students st)).
Proof.
  intros Hfind Hno Hnd. split; [by rewrite map_update_student_ids|].
  apply find_student_Some in Hfind as [Hin Hid].
  intros i s Hs. exists (update_student id d (Some teacher) s).
  split; [by rewrite list_lookup_fmap, Hs|].
  unfold owner_kept, update_student.
  destruct (String.eqb_spec (studentId s) id) as [Heq|Hne]; simpl; auto.
  assert (s = existing) as ->.
  { apply (NoDup_key_inj (students st)); [done| |done|congruence].
    by eapply list_elem_of_lookup_2. }
  split; [done|]. split; [congruence | auto].
Qed.

Lemma students_rel_create (teacher : string) (l : list Student)
    (x : Student) :
  studentId x ∉ map studentId l -> students_rel teacher l (l ++ [x]).
Proof.
  intros Hnew Hnd. split.
  - rewrite map_app. simpl. apply NoDup_app. split; [done|]. split.
    + intros y Hy Hx. apply list_elem_of_singleton in Hx as ->. done.
    + apply NoDup_singleton.
  - intros i s Hs. exists s. split; [|apply owner_kept_refl].
    by apply lookup_app_l_Some.
Qed.

Lemma upsert_student_step (teacher sid : string) (d : StudentData) :
  keeps (students_step teacher) (upsert_student teacher sid d).
Proof.
  intros w w' r. unfold upsert_student, bind, student_findUnique, client.
  destruct (fault (db w) (StudentFindUnique sid)).
  { intros [= <- _]. apply students_rel_refl. }
  destruct (find_student (db w) sid) as [existing|] eqn:Hfind.
  - destruct (no_teacher existing) eqn:Hno;
      unfold student_update, client; simpl;
      destruct (fault (db w) _); intros [= <- _];
      unfold students_step; simpl;
      first [ apply students_rel_refl
            | by eapply students_rel_update_claim
            | apply students_rel_update_keep ].
  - unfold student_create, client; simpl.
    destruct (fault (db w) _); intros [= <- _];
      unfold students_step; simpl; [apply students_rel_refl|].
    apply students_rel_create. simpl. by apply find_student_None.
Qed.

Lemma students_row_step (teacher : string) (row : Row) :
  keeps (students_step teacher) (students_row teacher row).
Proof.
  unfold students_row, database_error.
  destruct (validateStudentRow row).
  { apply keeps_row_error. intros; apply students_rel_refl. }
  cbv zeta.
  apply keeps_try_catch; [typeclasses eauto | |].
  2: { intros e. apply keeps_row_error. intros; apply students_rel_refl. }
  destruct (isInvalid _).
  { apply keeps_row_error. intros; apply students_rel_refl. }
  destruct (_ || _).
  { apply keeps_row_error. intros; apply students_rel_refl. }
  apply keeps_bind; [typeclasses eauto | |].
  { eapply keeps_weaken; [apply same_students_step|].
    apply final_batch_students. }
  intros finalBatchId.
  apply keeps_bind; [typeclasses eauto | apply upsert_student_step |].
  intros _. apply keeps_count. intros; apply students_rel_refl.
Qed.

(** Every loop body of the route, whatever the upload type. *)
Lemma row_handler_step (teacher type : string) (body : Row -> M unit)
    (row : Row) :
  row_handler teacher type = Some body ->
  keeps (students_step teacher) (body row).
Proof.
  unfold row_handler.
  repeat match goal with
         | |- (if ?b then _ else _) = _ -> _ => destruct b
         end; intros [= <-];
    first [ apply students_row_step
          | eapply keeps_weaken; [apply same_students_step|];
            first [ apply attendance_row_students
                  | apply testscores_row_students
                  | apply backlogs_row_students
                  | apply fees_row_students
                  | apply projects_row_students
                  | apply phd_row_students
                  | apply fellowships_row_students ] ].
Qed.

(** *** What an upsert leaves behind *)

#[global] Instance calls_only_preorder : PreOrder calls_only.
Proof.
  split; [by intros w | intros w1 w2 w3 [? ?] [? ?]].
  split; congruence.
Qed.

#[global] Instance lookup_step_preorder : PreOrder lookup_step.
Proof.
  split; [by intros w | intros w1 w2 w3 [? ?] [? ?]].
  split; etransitivity; eauto.
Qed.

Lemma find_or_create_batch_step (batchId : string) :
  keeps lookup_step (find_or_create_batch batchId).
Proof.
  unfold find_or_create_batch, batch_findUnique, batch_create,
    courseSubject_findUnique, courseSubject_create.
  keeps_calls.
Qed.

Lemma upsert_student_calls (teacher sid : string) (d : StudentData) :
  keeps calls_only (upsert_student teacher sid d).
Proof.
  unfold upsert_student, student_findUnique, student_update, student_create.
  keeps_calls.
Qed.

Lemma find_student_update (id : string) (d : StudentData)
    (t : option string) (l : list Student) :
  List.find (fun x => String.eqb (studentId x) id)
    (map (update_student id d t) l)
  = update_student id d t
    <$> List.find (fun x => String.eqb (studentId x) id) l.
Proof.
  induction l as [|x l IH]; simpl; [done|].
  rewrite update_student_id.
  destruct (String.eqb (studentId x) id); [done | exact IH].
Qed.

Lemma find_student_create (id : string) (l : list Student) (x : Student) :
  List.find (fun y => String.eqb (studentId y) id) l = None ->
  studentId x = id ->
  List.find (fun y => String.eqb (studentId y) id) (l ++ [x]) = Some x.
Proof.
  intros Hnone Hid. induction l as [|y l IH]; simpl in *.
  - by rewrite Hid, String.eqb_refl.
  - destruct (String.eqb (studentId y) id); [discriminate | by apply IH].
Qed.

Lemma upsert_student_result (teacher sid : string) (d : StudentData)
    (w w' : World) :
  upsert_student teacher sid d w = (w', inr tt) ->
  exists s, find_student (db w') sid = Some s
            /\ studentId s = sid /\ data s = d
            /\ teacherId s = owner_after teacher (find_student (db w) sid).
Proof.
  unfold upsert_student, bind, student_findUnique, client.
  destruct (fault (db w) (StudentFindUnique sid)); [discriminate|].
  destruct (find_student (db w) sid) as [existing|] eqn:Hfind; simpl.
  - pose proof (find_student_Some _ _ _ Hfind) as [_ Hid].
    apply String.eqb_eq in Hid.
    destruct (no_teacher existing) eqn:Hno;
      unfold student_update, client; simpl;
      destruct (fault (db w) _); intros [= <-]; simpl;
      unfold find_student in *; simpl;
      rewrite find_student_update, Hfind; simpl;
      eexists; (split; [reflexivity|]);
      unfold update_student; rewrite Hid; simpl;
      (split; [by apply String.eqb_eq|]); done.
  - unfold student_create, client; simpl.
    destruct (fault (db w) _); intros [= <-]; simpl.
    eexists. split.
    + unfold find_student in *. simpl. by apply find_student_create.
    + done.
Qed.

#[global] Instance batch_step_preorder : PreOrder batch_step.
Proof.
  split; [by intros w | intros w1 w2 w3 [? ?] [? ?]].
  split; [etransitivity; eauto | congruence].
Qed.

Lemma final_batch_step (row : Row) : keeps batch_step (final_batch row).
Proof.
  unfold final_batch, find_or_create_batch, batch_findUnique, batch_create,
    courseSubject_findUnique, courseSubject_create.
  keeps_calls.
Qed.

(** A students row that was counted went all the way through. *)
Lemma students_row_counted (teacher : string) (row : Row) (w w' : World)
    (r : string + unit) :
  students_row teacher row w = (w', r) ->
  processed w' = processed w + 1 ->
  exists (w1 w2 : World) (finalBatchId : option string),
    final_batch row w = (w1, inr finalBatchId)
    /\ upsert_student teacher (to_string (prop row "studentId"))
         (student_data row (new_Date (prop row "dob"))
            (parseInt (to_string (prop row "currentSemester")))
            finalBatchId) w1
       = (w2, inr tt)
    /\ w' = fst (count_processed w2).
Proof.
  unfold students_row, database_error.
  destruct (validateStudentRow row).
  { intros [= <- _]. simpl. lia. }
  unfold try_catch. cbv zeta.
  destruct (isInvalid _). { intros [= <- _]. simpl. lia. }
  destruct (_ || _). { intros [= <- _]. simpl. lia. }
  unfold bind at 1.
  destruct (final_batch row w) as [w1 [e|fb]] eqn:Hfb.
  { intros [= <- _]. simpl.
    destruct (final_batch_step row _ _ _ Hfb) as [_ Hp]. lia. }
  unfold bind at 1.
  destruct (upsert_student _ _ _ w1) as [w2 [e|[]]] eqn:Hup.
  { intros [= <- _]. simpl.
    destruct (final_batch_step row _ _ _ Hfb) as [_ Hp].
    destruct (upsert_student_calls _ _ _ _ _ _ Hup) as [_ Hp2]. lia. }
  intros [= <- _] _. by exists w1, w2, fb.
Qed.

End Facts.

(** C4.  Ownership of students.  Whatever is uploaded by [teacher], on a
    store whose student identifiers are unique: the identifiers stay
    unique and every existing student keeps its place and identifier; its
    owner is unchanged when it had one, and otherwise is unchanged or
    becomes [teacher].  A students row that is counted as processed leaves
    an existing student with its owner when it had one and with [teacher]
    when it had none. *)
Theorem owner_never_reassigned `{Builtins} `{Faults} :
  (forall (teacher : string) (file type : option string) (store : Store)
          (resp : Response) (w : World),
      POST (Some teacher) file type store = (resp, w) ->
      NoDup (map studentId (students store)) ->
      NoDup (map studentId (students (db w)))
      /\ forall (i : nat) (s : Student), students store !! i = Some s ->
           exists s', students (db w) !! i = Some s'
                      /\ owner_kept teacher s s')
  /\ (forall (teacher : string) (row : Row) (w w' : World)
             (r : string + unit) (existing : Student),
        students_row teacher row w = (w', r) ->
        processed w' = processed w + 1 ->
        find_student (db w) (to_string (prop row "studentId"))
        = Some existing ->
        exists s',
          find_student (db w') (to_string (prop row "studentId")) = Some s'
          /\ teacherId s' = if no_teacher existing then Some teacher
                            else teacherId existing).
Proof.
  split.
  - intros teacher file type store resp w Hpost Hnd.
    assert (Hstep : students_step teacher (start store) w).
    { unfold POST in Hpost.
      destruct (String.eqb teacher ""); [injection Hpost as _ <-; apply students_rel_refl|].
      destruct file as [csvText|]; [|injection Hpost as _ <-; apply students_rel_refl].
      destruct type as [type|]; [|injection Hpost as _ <-; apply students_rel_refl].
      destruct (String.eqb type ""); [injection Hpost as _ <-; apply students_rel_refl|].
      destruct (length (CSV.parseCSV csvText) =? 0)%nat;
        [injection Hpost as _ <-; apply students_rel_refl|].
      destruct (row_handler teacher type) as [body|] eqn:Hbody;
        [|injection Hpost as _ <-; apply students_rel_refl].
      destruct (for_of _ body (start store)) as [w1 r] eqn:Hloop.
      assert (students_step teacher (start store) w1).
      { eapply (keeps_for_of (students_step teacher)); [|exact Hloop].
        intros row. by eapply row_handler_step. }
      destruct r; by injection Hpost as _ <-. }
    exact (Hstep Hnd).
  - intros teacher row w w' r existing Hrun Hcount Hfind.
    destruct (students_row_counted _ _ _ _ _ Hrun Hcount)
      as (w1 & w2 & fb & Hfb & Hup & ->).
    destruct (final_batch_step row _ _ _ Hfb) as [Hsame _].
    apply upsert_student_result in Hup as (s & Hs & _ & _ & Hteacher).
    exists s. split; [exact Hs|]. rewrite Hteacher.
    unfold find_student in *. rewrite Hsame, Hfind. done.
Qed.

(** C9.  A students row whose batch lookup or creation throws is not
    skipped: the batch error is appended under the current row number, the
    student is upserted with a null batch reference and the row is counted.
    So one row can add both an error and a processed row, and a response
    can report [processed = total] with errors. *)
Theorem batch_failure_still_processed :
  (forall (B : Builtins) (F : Faults) (teacher : string) (row : Row)
          (w w1 w2 : World) (message : string),
      let code := to_string (prop row "batchId") in
      let sid := to_string (prop row "studentId") in
      let dobDate := new_Date (prop row "dob") in
      let semester := parseInt (to_string (prop row "currentSemester")) in
      let reason :=
        "Could not create/find batch " +:+ code +:+ ": " +:+ message in
      validateStudentRow row = None ->
      isInvalid dobDate = false ->
      isNaN semester || number_lt semester (of_Z 1)
        || number_gt semester (of_Z 8) = false ->
      truthy (prop row "batchId") = true ->
      find_or_create_batch code w = (w1, inl message) ->
      upsert_student teacher sid (student_data row dobDate semester None)
        (fst (row_error reason w1))
      = (w2, inr tt) ->
      students_row teacher row w = (fst (count_processed w2), inr tt)
      /\ errors (fst (count_processed w2))
         = errors w
           ++ ["Row " +:+ Str.of_nat (processed w + 1) +:+ ": " +:+ reason]
      /\ processed (fst (count_processed w2)) = processed w + 1
      /\ exists s, find_student (db w2) sid = Some s
                   /\ batchId (data s) = None)
  /\ exists (B : Builtins) (F : Faults) (teacher csvText : string)
            (store : Store) (n : nat) (errs : list string) (w : World),
       POST (Some teacher) (Some csvText) (Some "students") store
       = (json_success n n errs, w)
       /\ 0 < n /\ errs <> [].
Proof.
  split.
  - intros B F teacher row w w1 w2 message code sid dobDate semester reason
      Hvalid Hdob Hsem Hbatch Hthrow Hup.
    destruct (find_or_create_batch_step _ _ _ _ Hthrow) as [_ [He Hp]].
    destruct (upsert_student_calls _ _ _ _ _ _ Hup) as [He2 Hp2].
    simpl in He2, Hp2.
    split; [|split; [|split]].
    + unfold students_row. rewrite Hvalid. cbv zeta.
      fold dobDate semester. rewrite Hdob, Hsem.
      unfold try_catch at 1, bind at 1.
      unfold final_batch. rewrite Hbatch. fold code.
      unfold try_catch at 1. rewrite Hthrow.
      unfold bind at 1. fold reason. simpl ret.
      rewrite (surjective_pairing (row_error reason w1)).
      change (snd (row_error reason w1)) with (@inr string unit tt).
      cbv beta iota. unfold bind, ret. cbv beta iota.
      fold sid. rewrite Hup. reflexivity.
    + simpl. rewrite He2, He, Hp. reflexivity.
    + simpl. rewrite Hp2, Hp. reflexivity.
    + apply upsert_student_result in Hup as (s & Hs & _ & Hd & _).
      exists s. split; [exact Hs|]. by rewrite Hd.
  - exists Engine.builtins, batch_outage, "T1", one_student_csv, empty_store.
    eexists _, _, _. split; [vm_compute; reflexivity|].
    split; [lia | discriminate].
Qed.

Section Runs.
Context `{Builtins} `{Faults}.

Lemma client_accepted {A : Type} (c : Call) (run : Store -> Store * A)
    (w : World) :
  fault (db w) c = None ->
  client c run w = (called w c (fst (run (db w))), inr (snd (run (db w)))).
Proof.
  intros Hok. unfold client. rewrite Hok. by destruct (run (db w)).
Qed.

Lemma client_thrown {A : Type} (c : Call) (run : Store -> Store * A)
    (w : World) (message : string) :
  fault (db w) c = Some message ->
  client c run w = (called w c (db w), inl message).
Proof. intros Hbad. unfold client. by rewrite Hbad. Qed.

(** Under a reliable store the course check ends with the course known. *)
Lemma find_or_create_course_run (student : Student) (cid : string)
    (w : World) :
  Reliable ->
  exists (w1 : World) (c : CourseSubject),
    find_or_create_course student cid w = (w1, inr c)
    /\ db w1 = with_course (db w) student cid
    /\ errors w1 = errors w /\ processed w1 = processed w
    /\ exists calls, trace w1 = trace w ++ CourseFindUnique cid :: calls
         /\ Forall (fun c => c = CourseCreate (placeholder_course student cid))
              calls.
Proof.
  intros Hrel. unfold find_or_create_course, bind, courseSubject_findUnique.
  rewrite client_accepted by apply Hrel. simpl.
  unfold with_course.
  destruct (find_course (db w) cid) as [c|] eqn:Hc.
  - eexists _, c. split; [reflexivity|]. simpl.
    repeat split. exists []. split; [done | constructor].
  - unfold courseSubject_create. rewrite client_accepted by apply Hrel.
    eexists _, _. split; [reflexivity|]. simpl. repeat split.
    exists [CourseCreate (placeholder_course student cid)].
    split; [by rewrite <- app_assoc | by repeat constructor].
Qed.

Lemma find_course_with_course (st : Store) (student : Student)
    (cid : string) :
  exists c, find_course (with_course st student cid) cid = Some c
            /\ (find_course st cid = None ->
                c = placeholder_course student cid).
Proof.
  unfold with_course.
  destruct (find_course st cid) as [c|] eqn:Hc.
  - exists c. by rewrite Hc.
  - exists (placeholder_course student cid). split; [|done].
    unfold find_course in *. simpl.
    induction (courses st) as [|x l IH]; simpl in *.
    + by rewrite String.eqb_refl.
    + destruct (String.eqb (c_courseId x) cid); [discriminate | by apply IH].
Qed.

Lemma with_course_tables (st : Store) (student : Student) (cid : string) :
  students (with_course st student cid) = students st
  /\ attendances (with_course st student cid) = attendances st
  /\ testScores (with_course st student cid) = testScores st
  /\ backlogs (with_course st student cid) = backlogs st.
Proof. unfold with_course. by destruct (find_course st cid). Qed.

(** An attendance row with a known student and sound fields, on a
    reliable store. *)
Lemma attendance_row_run (row : Row) (w : World) (student : Student) :
  let sid := to_string (prop row "studentId") in
  let cid := to_string (prop row "courseId") in
  let month := to_string (prop row "month") in
  let percent := parseFloat (to_string (prop row "attendancePercent")) in
  Reliable ->
  validateAttendanceRow row = None ->
  find_student (db w) sid = Some student ->
  month_shape month = true ->
  isInvalid (month_date month) = false ->
  isNaN percent || number_lt percent (of_Z 0)
    || number_gt percent (of_Z 100) = false ->
  exists w' : World,
    attendance_row row w = (w', inr tt)
    /\ processed w' = processed w + 1
    /\ errors w' = errors w
    /\ courses (db w') = courses (with_course (db w) student cid)
    /\ attendances (db w')
       = match find_attendance (db w) sid cid (month_date month) with
         | Some existing =>
             map (update_attendance (attendanceId existing) percent)
               (attendances (db w))
         | None =>
             attendances (db w)
             ++ [{| attendanceId :=
                      fresh (map attendanceId (attendances (db w)));
                    a_studentId := sid; a_courseId := cid;
                    a_month := month_date month;
                    attendancePercent := percent |}]
         end
    /\ AttendanceFindFirst sid cid (month_date month) ∈ trace w'.
Proof.
  intros sid cid month percent Hrel Hvalid Hstudent Hshape Hdate Hpercent.
  unfold attendance_row. rewrite Hvalid. cbv zeta.
  fold sid cid month percent.
  unfold try_catch, bind at 1, student_findUnique.
  rewrite client_accepted by apply Hrel. cbn [fst snd].
  rewrite Hstudent. unfold bind at 1.
  destruct (find_or_create_course_run student cid
              (called w (StudentFindUnique sid) (db w)) Hrel)
    as (w1 & c & -> & Hdb & He & Hp & _).
  simpl in Hdb, He, Hp.
  rewrite Hshape, Hdate, Hpercent.
  unfold bind at 1, bind at 1, attendance_findFirst.
  rewrite client_accepted by apply Hrel. cbn [fst snd].
  destruct (with_course_tables (db w) student cid) as (_ & Hatt & _ & _).
  assert (Hfind : find_attendance (db w1) sid cid (month_date month)
                  = find_attendance (db w) sid cid (month_date month)).
  { unfold find_attendance. by rewrite Hdb, Hatt. }
  rewrite Hfind.
  destruct (find_attendance (db w) sid cid (month_date month))
    as [existing|].
  - unfold attendance_update. rewrite client_accepted by apply Hrel.
    eexists. split; [reflexivity|]. simpl.
    rewrite Hdb, Hatt, He, Hp. repeat split; try done.
    apply elem_of_app. left. apply elem_of_app. right.
    apply list_elem_of_here.
  - unfold attendance_create. rewrite client_accepted by apply Hrel.
    eexists. split; [reflexivity|]. simpl.
    rewrite Hdb, Hatt, He, Hp. repeat split; try done.
    apply elem_of_app. left. apply elem_of_app. right.
    apply list_elem_of_here.
Qed.

Lemma backlogs_row_run (row : Row) (w : World) (student : Student) :
  let sid := to_string (prop row "studentId") in
  let cid := to_string (prop row "courseId") in
  let n := parseInt (to_string (prop row "attempts")) in
  let c := parse_cleared (prop row "cleared") in
  Reliable ->
  validateBacklogRow row = None ->
  find_student (db w) sid = Some student ->
  isNaN n || number_lt n (of_Z 1) = false ->
  exists w' : World,
    backlogs_row row w = (w', inr tt)
    /\ processed w' = processed w + 1
    /\ errors w' = errors w
    /\ courses (db w') = courses (with_course (db w) student cid)
    /\ backlogs (db w')
       = match find_backlog (db w) sid cid with
         | Some existing =>
             map (update_backlog (backlogId existing) n c) (backlogs (db w))
         | None =>
             backlogs (db w)
             ++ [{| backlogId := fresh (map backlogId (backlogs (db w)));
                    g_studentId := sid; g_courseId := cid;
                    attempts := n; cleared := c |}]
         end.
Proof.
  intros sid cid n c Hrel Hvalid Hstudent Hn.
  unfold backlogs_row. rewrite Hvalid. cbv zeta. fold sid cid n c.
  unfold try_catch, bind at 1, student_findUnique.
  rewrite client_accepted by apply Hrel. cbn [fst snd].
  rewrite Hstudent. unfold bind at 1.
  destruct (find_or_create_course_run student cid
              (called w (StudentFindUnique sid) (db w)) Hrel)
    as (w1 & course & -> & Hdb & He & Hp & _).
  simpl in Hdb, He, Hp. rewrite Hn.
  unfold bind at 1, bind at 1, backlog_findFirst.
  rewrite client_accepted by apply Hrel. cbn [fst snd].
  destruct (with_course_tables (db w) student cid) as (_ & _ & _ & Hback).
  assert (Hfind : find_backlog (db w1) sid cid = find_backlog (db w) sid cid).
  { unfold find_backlog. by rewrite Hdb, Hback. }
  rewrite Hfind.
  destruct (find_backlog (db w) sid cid) as [existing|].
  - unfold backlog_update. rewrite client_accepted by apply Hrel.
    eexists. split; [reflexivity|]. simpl.
    rewrite Hdb, Hback, He, Hp. by repeat split.
  - unfold backlog_create. rewrite client_accepted by apply Hrel.
    eexists. split; [reflexivity|]. simpl.
    rewrite Hdb, Hback, He, Hp. by repeat split.
Qed.

Lemma testscores_row_run (row : Row) (w : World) (student : Student) :
  let sid := to_string (prop row "studentId") in
  let cid := to_string (prop row "courseId") in
  let testDate := new_Date (prop row "testDate") in
  let score := parseFloat (to_string (prop row "score")) in
  let record := {| t_studentId := sid; t_courseId := cid;
                   t_testDate := testDate; t_score := score |} in
  Reliable ->
  validateTestScoreRow row = None ->
  find_student (db w) sid = Some student ->
  isInvalid testDate = false ->
  isNaN score || number_lt score (of_Z 0)
    || number_gt score (of_Z 100) = false ->
  exists (w' : World) (course_calls : list Call),
    testscores_row row w = (w', inr tt)
    /\ processed w' = processed w + 1
    /\ errors w' = errors w
    /\ courses (db w') = courses (with_course (db w) student cid)
    /\ testScores (db w') = testScores (db w) ++ [record]
    /\ trace w'
       = trace w ++ [StudentFindUnique sid] ++ [CourseFindUnique cid]
         ++ course_calls ++ [TestScoreCreate record]
    /\ Forall (fun c => c = CourseCreate (placeholder_course student cid))
         course_calls.
Proof.
  intros sid cid testDate score record Hrel Hvalid Hstudent Hdate Hscore.
  unfold testscores_row. rewrite Hvalid. cbv zeta.
  fold sid cid testDate score.
  unfold try_catch, bind at 1, student_findUnique.
  rewrite client_accepted by apply Hrel. cbn [fst snd].
  rewrite Hstudent. unfold bind at 1.
  destruct (find_or_create_course_run student cid
              (called w (StudentFindUnique sid) (db w)) Hrel)
    as (w1 & course & -> & Hdb & He & Hp & calls & Htrace & Hcalls).
  simpl in Hdb, He, Hp, Htrace. rewrite Hdate, Hscore.
  unfold bind at 1, testScore_create.
  rewrite client_accepted by apply Hrel.
  destruct (with_course_tables (db w) student cid) as (_ & _ & Hts & _).
  eexists _, calls. split; [reflexivity|]. simpl.
  rewrite Hdb, Hts, He, Hp, Htrace. repeat split; try done.
  by rewrite <- !app_assoc.
Qed.

Lemma find_fmap_keep {A : Type} (p : A -> bool) (f : A -> A) (l : list A) :
  (forall x, p (f x) = p x) ->
  List.find p (map f l) = f <$> List.find p l.
Proof.
  intros Hp. induction l as [|x l IH]; simpl; [done|].
  rewrite Hp. destruct (p x); [done | exact IH].
Qed.

Lemma find_attendance_Some (st : Store) (sid cid : string) (month : Date)
    (a : Attendance) :
  find_attendance st sid cid month = Some a ->
  a ∈ attendances st
  /\ a_studentId a = sid /\ a_courseId a = cid /\ a_month a = month.
Proof.
  unfold find_attendance. intros Hf. apply find_some in Hf as [Hin Hk].
  apply andb_prop in Hk as [Hk Hm]. apply andb_prop in Hk as [Hs Hc].
  apply String.eqb_eq in Hs, Hc. apply bool_decide_eq_true in Hm.
  split; [by apply list_elem_of_In | done].
Qed.

Lemma find_backlog_Some (st : Store) (sid cid : string) (b : Backlog) :
  find_backlog st sid cid = Some b ->
  b ∈ backlogs st /\ g_studentId b = sid /\ g_courseId b = cid.
Proof.
  unfold find_backlog. intros Hf. apply find_some in Hf as [Hin Hk].
  apply andb_prop in Hk as [Hs Hc]. apply String.eqb_eq in Hs, Hc.
  split; [by apply list_elem_of_In | done].
Qed.

Lemma student_findUnique_calls (sid : string) :
  keeps calls_only (student_findUnique sid).
Proof. unfold student_findUnique. keeps_calls. Qed.

Lemma find_or_create_course_calls (student : Student) (cid : string) :
  keeps calls_only (find_or_create_course student cid).
Proof.
  unfold find_or_create_course, courseSubject_findUnique,
    courseSubject_create.
  keeps_calls.
Qed.

End Runs.

(** C5.  On a store that accepts every call: an attendance row whose
    (student, course, month date) has a record, and a backlog row whose
    (student, course) has a record, overwrite the found record (the
    percentage; the attempts and the cleared flag) and leave the table at
    its length; a test-score row always appends a record, and the calls it
    makes are the student and course checks and the create, with no
    lookup of test scores. *)
Theorem reimport_updates_in_place `{Builtins} `{Faults} :
  Reliable ->
  (forall (row : Row) (w : World) (student : Student)
          (existing : Attendance),
      let sid := to_string (prop row "studentId") in
      let cid := to_string (prop row "courseId") in
      let month := to_string (prop row "month") in
      let percent := parseFloat (to_string (prop row "attendancePercent")) in
      validateAttendanceRow row = None ->
      find_student (db w) sid = Some student ->
      month_shape month = true ->
      isInvalid (month_date month) = false ->
      isNaN percent || number_lt percent (of_Z 0)
        || number_gt percent (of_Z 100) = false ->
      find_attendance (db w) sid cid (month_date month) = Some existing ->
      exists w' : World,
        attendance_row row w = (w', inr tt)
        /\ processed w' = processed w + 1
        /\ attendances (db w')
           = map (update_attendance (attendanceId existing) percent)
               (attendances (db w))
        /\ length (attendances (db w')) = length (attendances (db w))
        /\ exists a,
             find_attendance (db w') sid cid (month_date month) = Some a
             /\ attendanceId a = attendanceId existing
             /\ attendancePercent a = percent)
  /\ (forall (row : Row) (w : World) (student : Student)
             (existing : Backlog),
        let sid := to_string (prop row "studentId") in
        let cid := to_string (prop row "courseId") in
        let n := parseInt (to_string (prop row "attempts")) in
        let c := parse_cleared (prop row "cleared") in
        validateBacklogRow row = None ->
        find_student (db w) sid = Some student ->
        isNaN n || number_lt n (of_Z 1) = false ->
        find_backlog (db w) sid cid = Some existing ->
        exists w' : World,
          backlogs_row row w = (w', inr tt)
          /\ processed w' = processed w + 1
          /\ backlogs (db w')
             = map (update_backlog (backlogId existing) n c)
                 (backlogs (db w))
          /\ length (backlogs (db w')) = length (backlogs (db w))
          /\ exists b,
               find_backlog (db w') sid cid = Some b
               /\ backlogId b = backlogId existing
               /\ attempts b = n /\ cleared b = c)
  /\ (forall (row : Row) (w : World) (student : Student),
        let sid := to_string (prop row "studentId") in
        let cid := to_string (prop row "courseId") in
        let testDate := new_Date (prop row "testDate") in
        let score := parseFloat (to_string (prop row "score")) in
        let record := {| t_studentId := sid; t_courseId := cid;
                         t_testDate := testDate; t_score := score |} in
        validateTestScoreRow row = None ->
        find_student (db w) sid = Some student ->
        isInvalid testDate = false ->
        isNaN score || number_lt score (of_Z 0)
          || number_gt score (of_Z 100) = false ->
        exists (w' : World) (course_calls : list Call),
          testscores_row row w = (w', inr tt)
          /\ processed w' = processed w + 1
          /\ testScores (db w') = testScores (db w) ++ [record]
          /\ length (testScores (db w')) = S (length (testScores (db w)))
          /\ trace w'
             = trace w ++ [StudentFindUnique sid] ++ [CourseFindUnique cid]
               ++ course_calls ++ [TestScoreCreate record]
          /\ Forall
               (fun c => c = CourseCreate (placeholder_course student cid))
               course_calls).
Proof.
  intros Hrel. split; [|split].
  - intros row w student existing sid cid month percent
      Hvalid Hstudent Hshape Hdate Hpercent Hfind.
    destruct (attendance_row_run row w student Hrel Hvalid Hstudent Hshape
                Hdate Hpercent) as (w' & Hrun & Hp & _ & _ & Hatt & _).
    fold sid cid month percent in Hatt. rewrite Hfind in Hatt.
    exists w'. split; [exact Hrun|]. split; [exact Hp|].
    split; [exact Hatt|]. split; [by rewrite Hatt, length_map|].
    exists (update_attendance (attendanceId existing) percent existing).
    unfold find_attendance in *. rewrite Hatt, find_fmap_keep, Hfind.
    + unfold update_attendance. simpl. rewrite Nat.eqb_refl.
      by repeat split.
    + intros x. unfold update_attendance.
      by destruct (attendanceId x =? attendanceId existing)%nat.
  - intros row w student existing sid cid n c Hvalid Hstudent Hn Hfind.
    destruct (backlogs_row_run row w student Hrel Hvalid Hstudent Hn)
      as (w' & Hrun & Hp & _ & _ & Hback).
    fold sid cid n c in Hback. rewrite Hfind in Hback.
    exists w'. split; [exact Hrun|]. split; [exact Hp|].
    split; [exact Hback|]. split; [by rewrite Hback, length_map|].
    exists (update_backlog (backlogId existing) n c existing).
    unfold find_backlog in *. rewrite Hback, find_fmap_keep, Hfind.
    + unfold update_backlog. simpl. rewrite Nat.eqb_refl.
      by repeat split.
    + intros x. unfold update_backlog.
      by destruct (backlogId x =? backlogId existing)%nat.
  - intros row w student sid cid testDate score record
      Hvalid Hstudent Hdate Hscore.
    destruct (testscores_row_run row w student Hrel Hvalid Hstudent Hdate
                Hscore) as (w' & calls & Hrun & Hp & _ & _ & Hts & Htr & Hc).
    exists w', calls. repeat split; try done.
    fold sid cid testDate score record in Hts. rewrite Hts, length_app.
    simpl. lia.
Qed.

Lemma attendance_row_counted `{Builtins} `{Faults} (row : Row)
    (w w' : World) (r : string + unit) :
  let sid := to_string (prop row "studentId") in
  let cid := to_string (prop row "courseId") in
  let month := to_string (prop row "month") in
  let percent := parseFloat (to_string (prop row "attendancePercent")) in
  attendance_row row w = (w', r) ->
  processed w' = processed w + 1 ->
  month_shape month = true
  /\ isInvalid (month_date month) = false
  /\ AttendanceFindFirst sid cid (month_date month) ∈ trace w'
  /\ exists a, a ∈ attendances (db w')
               /\ a_studentId a = sid /\ a_courseId a = cid
               /\ a_month a = month_date month
               /\ attendancePercent a = percent.
Proof.
  intros sid cid month percent.
  unfold attendance_row, database_error, student_not_found.
  destruct (validateAttendanceRow row). { intros [= <- _]. simpl. lia. }
  cbv zeta. fold sid cid month percent. unfold try_catch, bind at 1.
  destruct (student_findUnique sid w) as [w0 [e|student]] eqn:Hs0.
  all: destruct (student_findUnique_calls _ _ _ _ Hs0) as [_ Hp0].
  { intros [= <- _]. simpl. lia. }
  destruct student as [student|]; [|intros [= <- _]; simpl; lia].
  unfold bind at 1.
  destruct (find_or_create_course student cid w0) as [w1 [e|c]] eqn:Hs1.
  all: destruct (find_or_create_course_calls _ _ _ _ _ Hs1) as [_ Hp1].
  { intros [= <- _]. simpl. lia. }
  destruct (month_shape month); [|intros [= <- _]; simpl; lia].
  destruct (isInvalid (month_date month)); [intros [= <- _]; simpl; lia|].
  destruct (_ || _); [intros [= <- _]; simpl; lia|].
  unfold bind, attendance_findFirst, attendance_update, attendance_create,
    client, count_processed.
  destruct (fault (db w1) (AttendanceFindFirst _ _ _));
    [intros [= <- _]; simpl; lia|].
  destruct (find_attendance (db w1) sid cid (month_date month))
    as [existing|] eqn:Hfind; simpl.
  - destruct (fault (db w1) (AttendanceUpdate _ _));
      [intros [= <- _]; simpl; lia|].
    intros [= <- _] _. simpl. repeat split; try done.
    + apply elem_of_app. left. apply elem_of_app. right.
      apply list_elem_of_here.
    + apply find_attendance_Some in Hfind as (Hin & Hs & Hc & Hm).
      exists (update_attendance (attendanceId existing) percent existing).
      split; [by apply list_elem_of_fmap_2|].
      unfold update_attendance. rewrite Nat.eqb_refl. simpl. done.
  - destruct (fault (db w1) (AttendanceCreate _ _ _ _));
      [intros [= <- _]; simpl; lia|].
    intros [= <- _] _. simpl. repeat split; try done.
    + apply elem_of_app. left. apply elem_of_app. right.
      apply list_elem_of_here.
    + eexists. split; [apply elem_of_app; right; apply list_elem_of_here|].
      done.
Qed.

Section Courses.
Context `{Builtins} `{Faults}.

Lemma courses_with_new_course (st : Store) (student : Student)
    (cid : string) :
  find_course st cid = None ->
  courses (with_course st student cid)
  = courses st ++ [placeholder_course student cid].
Proof. unfold with_course. by intros ->. Qed.

End Courses.

Ltac unknown_student_run :=
  let row := fresh "row" in
  let w := fresh "w" in
  let Hvalid := fresh "Hvalid" in
  let Hfind := fresh "Hfind" in
  let Hok := fresh "Hok" in
  intros row w Hvalid Hfind Hok;
  unfold attendance_row, testscores_row, backlogs_row, fees_row,
    projects_row, phd_row, fellowships_row, student_not_found;
  rewrite Hvalid; cbv zeta;
  unfold try_catch, bind at 1, student_findUnique;
  rewrite (client_accepted _ _ _ Hok); cbn [fst snd];
  rewrite Hfind; reflexivity.

(** C6.  For each upload type other than students, a row that passes
    its validator and whose student is not in the store ends as
    [unknown_student]: one error Student ... not found, no write, no
    count.  For attendance, test-score and backlog rows whose student
    exists and whose course does not, on a store that accepts every call,
    the placeholder course is appended and the row is processed without
    an error. *)
Theorem unknown_student_skipped_unknown_course_created
    `{Builtins} `{Faults} (teacher : string) :
  Forall
    (fun '(validate, body) =>
       forall (row : Row) (w : World),
         validate row = None ->
         find_student (db w) (to_string (prop row "studentId")) = None ->
         fault (db w) (StudentFindUnique (to_string (prop row "studentId")))
         = None ->
         body row w = (unknown_student row w, inr tt))
    (student_bound_types teacher)
  /\ (Reliable ->
      forall (row : Row) (w : World) (student : Student),
        let sid := to_string (prop row "studentId") in
        let cid := to_string (prop row "courseId") in
        let month := to_string (prop row "month") in
        let percent :=
          parseFloat (to_string (prop row "attendancePercent")) in
        validateAttendanceRow row = None ->
        find_student (db w) sid = Some student ->
        month_shape month = true ->
        isInvalid (month_date month) = false ->
        isNaN percent || number_lt percent (of_Z 0)
          || number_gt percent (of_Z 100) = false ->
        find_course (db w) cid = None ->
        exists w' : World,
          attendance_row row w = (w', inr tt)
          /\ processed w' = processed w + 1
          /\ errors w' = errors w
          /\ courses (db w')
             = courses (db w) ++ [placeholder_course student cid])
  /\ (Reliable ->
      forall (row : Row) (w : World) (student : Student),
        let sid := to_string (prop row "studentId") in
        let cid := to_string (prop row "courseId") in
        let testDate := new_Date (prop row "testDate") in
        let score := parseFloat (to_string (prop row "score")) in
        validateTestScoreRow row = None ->
        find_student (db w) sid = Some student ->
        isInvalid testDate = false ->
        isNaN score || number_lt score (of_Z 0)
          || number_gt score (of_Z 100) = false ->
        find_course (db w) cid = None ->
        exists w' : World,
          testscores_row row w = (w', inr tt)
          /\ processed w' = processed w + 1
          /\ errors w' = errors w
          /\ courses (db w')
             = courses (db w) ++ [placeholder_course student cid])
  /\ (Reliable ->
      forall (row : Row) (w : World) (student : Student),
        let sid := to_string (prop row "studentId") in
        let cid := to_string (prop row "courseId") in
        let n := parseInt (to_string (prop row "attempts")) in
        validateBacklogRow row = None ->
        find_student (db w) sid = Some student ->
        isNaN n || number_lt n (of_Z 1) = false ->
        find_course (db w) cid = None ->
        exists w' : World,
          backlogs_row row w = (w', inr tt)
          /\ processed w' = processed w + 1
          /\ errors w' = errors w
          /\ courses (db w')
             = courses (db w) ++ [placeholder_course student cid]).
Proof.
  split; [|split; [|split]].
  - unfold student_bound_types.
    repeat (apply Forall_cons; split; [unknown_student_run|]).
    by apply Forall_nil.
  - intros Hrel row w student sid cid month percent
      Hvalid Hstudent Hshape Hdate Hpercent Hcourse.
    destruct (attendance_row_run row w student Hrel Hvalid Hstudent Hshape
                Hdate Hpercent) as (w' & Hrun & Hp & He & Hc & _).
    exists w'. repeat split; try done.
    rewrite Hc. by apply courses_with_new_course.
  - intros Hrel row w student sid cid testDate score
      Hvalid Hstudent Hdate Hscore Hcourse.
    destruct (testscores_row_run row w student Hrel Hvalid Hstudent Hdate
                Hscore) as (w' & calls & Hrun & Hp & He & Hc & _).
    exists w'. repeat split; try done.
    rewrite Hc. by apply courses_with_new_course.
  - intros Hrel row w student sid cid n Hvalid Hstudent Hn Hcourse.
    destruct (backlogs_row_run row w student Hrel Hvalid Hstudent Hn)
      as (w' & Hrun & Hp & He & Hc & _).
    exists w'. repeat split; try done.
    rewrite Hc. by apply courses_with_new_course.
Qed.

(** C1.  The number in an error entry is [processed + 1], not the row's
    position: in a students upload of two rows that both lack a name, the
    second row is reported as Row 1 like the first. *)
Theorem failed_rows_share_a_number `{Builtins} `{Faults} (store : Store) :
  fst (POST (Some "T1") (Some two_nameless_rows) (Some "students") store)
  = json_success 0 2 ["Row 1: Missing name"; "Row 1: Missing name"].
Proof. vm_compute. reflexivity. Qed.

(** C2.  An unparseable date is caught in a students row before any call
    to the store, but projects, phd and fellowships rows have no check:
    with an unparseable start date, and a non-numeric amount and duration,
    the create call is issued with an Invalid Date and NaN fields.  On a
    store that accepts the call the row is counted as processed without an
    error; on a store that rejects it the error is the store's, reported
    as a database error. *)
Theorem unchecked_fields_reach_the_store :
  Engine.Date_parse_iso "notadate" = InvalidDate
  /\ Engine.parseFloat_literal "lots" = NaN
  /\ Engine.parseInt_literal "long" = NaN
  /\ upload "students" student_bad_dob store_with_alice
     = (json_success 0 1 ["Row 1: Invalid date format for dob: notadate"],
        {| db := store_with_alice; trace := [];
           errors := ["Row 1: Invalid date format for dob: notadate"];
           processed := 0 |})
  /\ fst (upload "projects" project_bad_date store_with_alice)
     = json_success 1 1 []
  /\ projects (db (snd (upload "projects" project_bad_date store_with_alice)))
     = [{| p_title := "Thesis"; p_description := None; p_studentId := "S1";
           p_supervisorId := "T1"; p_startDate := InvalidDate;
           p_endDate := None; p_status := "Active" |}]
  /\ trace (snd (upload "projects" project_bad_date store_with_alice))
     = [StudentFindUnique "S1";
        ProjectCreate
          {| p_title := "Thesis"; p_description := None;
             p_studentId := "S1"; p_supervisorId := "T1";
             p_startDate := InvalidDate; p_endDate := None;
             p_status := "Active" |}]
  /\ @POST Engine.builtins strict_dates (Some "T1") (Some project_bad_date)
       (Some "projects") store_with_alice
     = (json_success 0 1
          ["Row 1: Database error - Invalid value for argument startDate"],
        {| db := store_with_alice;
           trace :=
             [StudentFindUnique "S1";
              ProjectCreate
                {| p_title := "Thesis"; p_description := None;
                   p_studentId := "S1"; p_supervisorId := "T1";
                   p_startDate := InvalidDate; p_endDate := None;
                   p_status := "Active" |}];
           errors :=
             ["Row 1: Database error - Invalid value for argument startDate"];
           processed := 0 |})
  /\ fst (upload "phd" phd_bad_date store_with_alice) = json_success 1 1 []
  /\ phdSupervisions (db (snd (upload "phd" phd_bad_date store_with_alice)))
     = [{| h_title := "Thesis"; h_researchArea := "Logic";
           h_studentId := "S1"; h_supervisorId := "T1";
           h_startDate := InvalidDate; h_expectedEnd := None;
           h_status := "Ongoing" |}]
  /\ fst (upload "fellowships" fellowship_bad_fields store_with_alice)
     = json_success 1 1 []
  /\ fellowships
       (db (snd (upload "fellowships" fellowship_bad_fields
                   store_with_alice)))
     = [{| w_type := "Merit"; w_amount := NaN; w_duration := NaN;
           w_studentId := "S1"; w_supervisorId := "T1";
           w_startDate := InvalidDate; w_endDate := None;
           w_status := "Active" |}].
Proof. repeat split; vm_compute; reflexivity. Qed.

(** C3.  The month of an attendance record is not cut down to the month.
    A value YYYY-MM is read as the first day of its month, and the value
    2024-03-01 uploaded after 2024-03 lands on the same record; but the
    value 2024-03-15, in the same calendar month, is looked up and stored
    under the fifteenth: uploaded after 2024-03 for the same student and
    course, it finds no record and a second one is created. *)
Theorem mid_month_row_gets_its_own_record :
  @month_date Engine.builtins "2024-03" = TimeValue 1709251200000
  /\ @month_date Engine.builtins "2024-03-01" = TimeValue 1709251200000
  /\ @month_date Engine.builtins "2024-03-15" = TimeValue 1710460800000
  /\ attendances
       (db (snd (upload "attendance" march_and_first_of_march
                   store_with_alice)))
     = [{| attendanceId := 1; a_studentId := "S1"; a_courseId := "C1";
           a_month := TimeValue 1709251200000;
           attendancePercent := of_Z 90 |}]
  /\ fst (upload "attendance" march_and_mid_march store_with_alice)
     = json_success 2 2 []
  /\ attendances
       (db (snd (upload "attendance" march_and_mid_march store_with_alice)))
     = [{| attendanceId := 1; a_studentId := "S1"; a_courseId := "C1";
           a_month := TimeValue 1709251200000;
           attendancePercent := of_Z 80 |};
        {| attendanceId := 2; a_studentId := "S1"; a_courseId := "C1";
           a_month := TimeValue 1710460800000;
           attendancePercent := of_Z 90 |}].
Proof. repeat split; vm_compute; reflexivity. Qed.

Lemma no_faults_reliable : @Reliable Engine.no_faults.
Proof. intros s c. reflexivity. Defined.

Lemma owner_never_reassigned_witness :
  (exists s',
      students (db (snd (upload "students" one_student_csv store_with_alice)))
        !! 0%nat = Some s'
      /\ owner_kept "T1" alice s')
  /\ exists s',
       find_student
         (db (fst (@students_row Engine.builtins Engine.no_faults "T1"
                     alice_row (start store_with_orphan)))) "S1"
       = Some s'
       /\ teacherId s' = Some "T1".
Proof.
  destruct (@owner_never_reassigned Engine.builtins Engine.no_faults)
    as [Hkeep Hclaim].
  split.
  - destruct (Hkeep "T1" (Some one_student_csv) (Some "students")
                store_with_alice _ _ (surjective_pairing _)) as [_ Hall].
    + vm_compute. apply NoDup_singleton.
    + apply (Hall 0%nat alice). reflexivity.
  - destruct (Hclaim "T1" alice_row (start store_with_orphan) _ _ orphan
                (surjective_pairing _)) as (s' & Hs' & Ht).
    + vm_compute. reflexivity.
    + vm_compute. reflexivity.
    + exists s'. split; [exact Hs' | exact Ht].
Defined.

Lemma reimport_updates_in_place_witness :
  (exists w',
      @attendance_row Engine.builtins Engine.no_faults march_row
        (start store_with_march) = (w', inr tt)
      /\ attendances (db w')
         = [{| attendanceId := 1; a_studentId := "S1"; a_courseId := "C1";
               a_month := TimeValue 1709251200000;
               attendancePercent := of_Z 90 |}])
  /\ (exists w',
        @backlogs_row Engine.builtins Engine.no_faults backlog_row
          (start store_with_backlog) = (w', inr tt)
        /\ backlogs (db w')
           = [{| backlogId := 1; g_studentId := "S1"; g_courseId := "C1";
                 attempts := of_Z 2; cleared := true |}])
  /\ exists w',
       @testscores_row Engine.builtins Engine.no_faults score_row
         (start store_with_alice) = (w', inr tt)
       /\ length (testScores (db w')) = 1%nat.
Proof.
  destruct (@reimport_updates_in_place Engine.builtins Engine.no_faults
              no_faults_reliable) as (Hatt & Hback & Hscore).
  split; [|split].
  - destruct (Hatt march_row (start store_with_march) alice march_record)
      as (w' & Hrun & _ & Hrecords & _);
      try (vm_compute; reflexivity).
    exists w'. split; [exact Hrun|]. rewrite Hrecords. vm_compute.
    reflexivity.
  - destruct (Hback backlog_row (start store_with_backlog) alice
                first_backlog)
      as (w' & Hrun & _ & Hrecords & _);
      try (vm_compute; reflexivity).
    exists w'. split; [exact Hrun|]. rewrite Hrecords. vm_compute.
    reflexivity.
  - destruct (Hscore score_row (start store_with_alice) alice)
      as (w' & calls & Hrun & _ & _ & Hlen & _);
      try (vm_compute; reflexivity).
    exists w'. split; [exact Hrun | exact Hlen].
Defined.

Lemma unknown_student_skipped_unknown_course_created_witness :
  @attendance_row Engine.builtins Engine.no_faults march_row
    (start empty_store)
  = (unknown_student march_row (start empty_store), inr tt)
  /\ (exists w',
        @attendance_row Engine.builtins Engine.no_faults march_row
          (start store_with_alice) = (w', inr tt)
        /\ courses (db w') = [placeholder_course alice "C1"])
  /\ (exists w',
        @testscores_row Engine.builtins Engine.no_faults score_row
          (start store_with_alice) = (w', inr tt)
        /\ courses (db w') = [placeholder_course alice "C1"])
  /\ exists w',
       @backlogs_row Engine.builtins Engine.no_faults backlog_row
         (start store_with_alice) = (w', inr tt)
       /\ courses (db w') = [placeholder_course alice "C1"].
Proof.
  destruct (@unknown_student_skipped_unknown_course_created
              Engine.builtins Engine.no_faults "T1")
    as (Hstudent & Hatt & Hscore & Hback).
  split; [|split; [|split]].
  - apply Forall_inv in Hstudent.
    apply (Hstudent march_row (start empty_store)); reflexivity.
  - destruct (Hatt no_faults_reliable march_row (start store_with_alice)
                alice)
      as (w' & Hrun & _ & _ & Hcourses);
      try (vm_compute; reflexivity).
    exists w'. split; [exact Hrun | exact Hcourses].
  - destruct (Hscore no_faults_reliable score_row (start store_with_alice)
                alice)
      as (w' & Hrun & _ & _ & Hcourses);
      try (vm_compute; reflexivity).
    exists w'. split; [exact Hrun | exact Hcourses].
  - destruct (Hback no_faults_reliable backlog_row (start store_with_alice)
                alice)
      as (w' & Hrun & _ & _ & Hcourses);
      try (vm_compute; reflexivity).
    exists w'. split; [exact Hrun | exact Hcourses].
Defined.

Lemma batch_failure_still_processed_witness :
  fst (@POST Engine.builtins batch_outage (Some "T1") (Some one_student_csv)
         (Some "students") empty_store)
  = json_success 1 1
      ["Row 1: Could not create/find batch CSE2024B: Connection lost"]
  /\ exists s,
       find_student
         (db (fst (@students_row Engine.builtins batch_outage "T1" alice_row
                     (start empty_store)))) "S1"
       = Some s
       /\ batchId (data s) = None.
Proof.
  destruct batch_failure_still_processed as [Hrow _].
  split; [vm_compute; reflexivity|].
  destruct (Hrow Engine.builtins batch_outage "T1" alice_row
              (start empty_store)
              (called (start empty_store) (BatchFindUnique "CSE2024B")
                 empty_store)
              (fst (@upsert_student batch_outage "T1" "S1"
                      (@student_data alice_row (TimeValue 946684800000)
                         (of_Z 3) None)
                      (fst (row_error
                              "Could not create/find batch CSE2024B: Connection lost"
                              (called (start empty_store)
                                 (BatchFindUnique "CSE2024B") empty_store)))))
              "Connection lost")
    as (Hrun & _ & _ & s & Hs & Hb);
    try (vm_compute; reflexivity).
  exists s. rewrite Hrun. split; [exact Hs | exact Hb].
Defined.

(** * Further properties of the code *)

(** ** More about the parser *)

Lemma parseLine_loop_plain (l current : list ascii) (result : list string) :
  dquote ∉ l ->
  parseLine_loop l current false result
  = result
    ++ match split_chars comma l with
       | piece :: pieces =>
           map (fun x => of_chars (trim_chars x)) ((current ++ piece) :: pieces)
       | [] => []
       end.
Proof.
  revert current result.
  induction l as [|c r IH]; intros current result Hq; simpl.
  - by rewrite app_nil_r.
  - apply not_elem_of_cons in Hq as [Hc Hr].
    destruct (Ascii.eqb_spec c dquote) as [->|_]; [done|].
    destruct (Ascii.eqb_spec c comma) as [->|_]; simpl.
    + rewrite (IH [] _ Hr), app_nil_r, <- app_assoc. simpl.
      by destruct (split_chars comma r).
    + rewrite (IH _ _ Hr).
      pose proof (split_chars_length comma r) as Hlen.
      destruct (split_chars comma r) as [|piece pieces]; simpl in *; [lia|].
      by rewrite <- app_assoc.
Qed.

(** X1.  A line without any double quote is split at its commas and every
    piece is trimmed. *)
Theorem parseLine_without_quotes (line : string) :
  dquote ∉ chars line -> parseLine line = map trim (split comma line).
Proof.
  intros Hq. unfold parseLine, split, trim.
  rewrite (parseLine_loop_plain _ _ _ Hq). simpl.
  pose proof (split_chars_length comma (chars line)) as Hlen.
  destruct (split_chars comma (chars line)) as [|piece pieces];
    simpl in *; [lia|].
  rewrite chars_of_chars. f_equal. rewrite map_map.
  apply map_ext. intros x. by rewrite chars_of_chars.
Qed.

Lemma parseLine_without_quotes_witness :
  parseLine " S1 , Alice,3" = ["S1"; "Alice"; "3"].
Proof.
  rewrite parseLine_without_quotes.
  - vm_compute. reflexivity.
  - vm_compute. intros Hin.
    repeat (apply elem_of_cons in Hin as [Hin|Hin]; [discriminate|]).
    by apply elem_of_nil in Hin.
Defined.


Lemma chars_app (a b : string) : chars (a +:+ b) = chars a ++ chars b.
Proof. induction a as [|c a IH]; simpl; [done|]. by rewrite IH. Qed.




Lemma normalize_parsed (v : string) : parsed_value (normalize v).
Proof.
  unfold normalize, parsed_value.
  destruct (String.eqb_spec v ""); [by left | right; eauto].
Qed.

Lemma fill_parsed (headers values : list string) (row : Row)
    (inherits : bool) :
  map_Forall (fun _ v => parsed_value v) row ->
  map_Forall (fun _ v => parsed_value v) (fill row inherits headers values).
Proof.
  revert values row inherits.
  induction headers as [|h hs IH]; intros [|v vs] row inherits Hrow;
    simpl; try done.
  unfold assign. destruct (String.eqb h "__proto__" && inherits);
    apply IH; [done|].
  apply map_Forall_insert_2; [apply normalize_parsed | done].
Qed.

Lemma rows_of_parsed (headers data : list string) :
  Forall (map_Forall (fun _ v => parsed_value v)) (rows_of headers data).
Proof.
  induction data as [|line more IH]; simpl; [constructor|].
  destruct (length (values_of line) =? length headers)%nat; [|done].
  constructor; [|done]. apply fill_parsed, map_Forall_empty.
Qed.

(** ** Quoted fields, header names and keys *)

(** Inside quotes every doubled quote gives one quote and everything else
    is kept, up to the closing quote at the end of the line. *)
Lemma parseLine_loop_escaped (l current : list ascii)
    (result : list string) :
  parseLine_loop (escape_quotes l ++ [dquote]) current true result
  = result ++ [of_chars (trim_chars (current ++ l))].
Proof.
  revert current. induction l as [|c r IH]; intros current; simpl.
  - by rewrite app_nil_r.
  - destruct (Ascii.eqb_spec c dquote) as [->|Hc]; simpl.
    + rewrite IH. by rewrite <- app_assoc.
    + apply Ascii.eqb_neq in Hc. rewrite Hc, andb_false_r, IH.
      by rewrite <- app_assoc.
Qed.

Lemma parseLine_quoted (t : string) : parseLine (quoted_field t) = [trim t].
Proof.
  unfold parseLine, quoted_field, trim. rewrite chars_of_chars.
  cbn [parseLine_loop]. rewrite Ascii.eqb_refl.
  destruct (escape_quotes (chars t) ++ [dquote]) as [|next rest] eqn:Hrest.
  { by destruct (escape_quotes (chars t)). }
  cbn [andb negb]. rewrite <- Hrest. apply parseLine_loop_escaped.
Qed.

Lemma trim_chars_fixed (l : list ascii) :
  starts_clean l -> starts_clean (rev l) -> trim_chars l = l.
Proof.
  intros Hstart Hend. unfold trim_chars, trimEnd_chars.
  rewrite (trimStart_fixed l Hstart), (trimStart_fixed _ Hend).
  apply rev_involutive.
Qed.

Lemma trim_between_quotes (m : string) :
  trim (dq +:+ m +:+ dq) = dq +:+ m +:+ dq.
Proof.
  unfold trim. rewrite trim_chars_fixed; [apply of_chars_chars | |].
  - reflexivity.
  - rewrite !chars_app, rev_app_distr, rev_app_distr. reflexivity.
Qed.

Lemma strip_trailing_spec (r : list ascii) :
  (exists v, r = v ++ [dquote] /\ strip_trailing_quote r = v)
  \/ (last r <> Some dquote /\ strip_trailing_quote r = r).
Proof.
  unfold strip_trailing_quote.
  induction r as [|x r' _] using rev_ind; [by right|].
  rewrite rev_app_distr. simpl.
  destruct (Ascii.eqb_spec x dquote) as [->|Hx].
  - left. exists r'. by rewrite rev_involutive.
  - right. simpl. rewrite rev_involutive. split; [|done].
    rewrite last_snoc. congruence.
Qed.

(** The value pass takes away a quote at the first position and a quote at
    the last position of what is left, and nothing else. *)
Lemma strip_surrounding_spec (t : string) :
  loses_end_quotes t (strip_surrounding_quotes t).
Proof.
  unfold loses_end_quotes, strip_surrounding_quotes.
  rewrite chars_of_chars.
  destruct (chars t) as [|c r] eqn:Ht.
  - exists [], []. simpl. split; [done|]. split; right; by split.
  - simpl. destruct (Ascii.eqb_spec c dquote) as [->|Hc].
    + destruct (strip_trailing_spec r) as [(v & -> & ->)|[Hlast ->]].
      * exists [dquote], [dquote]. split; [done|]. by split; left.
      * exists [dquote], []. rewrite app_nil_r. split; [done|].
        split; [by left | by right].
    + destruct (strip_trailing_spec (c :: r)) as [(v & Hv & ->)|[Hlast ->]].
      * exists [], [dquote]. split; [done|].
        split; [right; split; [done | simpl; congruence] | by left].
      * exists [], []. rewrite app_nil_r. split; [done|].
        split; right; (split; [done|]); simpl; congruence.
Qed.

(** The header pass deletes the quotes and nothing else. *)
Lemma remove_quotes_spec (t : string) : loses_all_quotes t (remove_quotes t).
Proof.
  unfold loses_all_quotes. split; [apply remove_quotes_clean|].
  unfold remove_quotes. rewrite chars_of_chars.
  induction (chars t) as [|c l [IHsub IHlen]]; simpl.
  - split; [constructor | done].
  - destruct (Ascii.eqb_spec c dquote) as [->|Hc]; simpl.
    + destruct (ascii_dec dquote dquote) as [_|Hne]; [|done].
      split; [by apply sublist_cons | lia].
    + destruct (ascii_dec c dquote) as [Heq|_]; [done|].
      split; [by apply sublist_skip | lia].
Qed.










(** C10.  Header names lose every double quote, data values lose at most
    one at each end.  No header name contains a quote, and the header at
    each position is the token at that position with the quotes deleted
    and nothing else.  The value at each position is the token at that
    position without a quote at its first position, if there is one, and
    without a quote at the last position of what is left, if there is one.
    So a token made of any text [m] between two quotes gives the value [m],
    whatever quotes [m] holds itself, and the header [m] without its
    quotes.  The token a, quote, b, quote becomes the key ab as a header
    and a, quote, b as a value. *)
Theorem header_and_value_quotes :
  (forall (lines : list string) (h : string),
      h ∈ headers_of lines -> dquote ∉ chars h)
  /\ (forall (lines : list string) (i : nat) (t : string),
        parseLine (hd "" lines) !! i = Some t ->
        exists h, headers_of lines !! i = Some h /\ loses_all_quotes t h)
  /\ (forall (line : string) (i : nat) (t : string),
        parseLine line !! i = Some t ->
        exists v, values_of line !! i = Some v /\ loses_end_quotes t v)
  /\ (forall m : string,
        parseLine (quoted_field (dq +:+ m +:+ dq)) = [dq +:+ m +:+ dq]
        /\ values_of (quoted_field (dq +:+ m +:+ dq)) = [m]
        /\ headers_of [quoted_field (dq +:+ m +:+ dq)] = [remove_quotes m])
  /\ parseLine quoted_token_field = [quoted_token]
  /\ remove_quotes quoted_token = "ab"
  /\ strip_surrounding_quotes quoted_token = "a" +:+ dq +:+ "b"
  /\ parseCSV (quoted_token_field +:+ nl +:+ quoted_token_field)
     = [ {[ "ab" := str ("a" +:+ dq +:+ "b") ]} ].
Proof.
  split; [|split; [|split; [|split]]].
  - intros lines h Hin. unfold headers_of in Hin.
    apply list_elem_of_fmap in Hin as (t & -> & _).
    apply remove_quotes_clean.
  - intros lines i t Ht. exists (remove_quotes t).
    split; [|apply remove_quotes_spec].
    unfold headers_of. by rewrite list_lookup_fmap, Ht.
  - intros line i t Ht. exists (strip_surrounding_quotes t).
    split; [|apply strip_surrounding_spec].
    unfold values_of. by rewrite list_lookup_fmap, Ht.
  - intros m.
    assert (Hline : parseLine (quoted_field (dq +:+ m +:+ dq))
                    = [dq +:+ m +:+ dq])
      by (by rewrite parseLine_quoted, trim_between_quotes).
    split; [exact Hline|]. unfold values_of, headers_of. simpl.
    rewrite Hline. simpl. split; f_equal.
    + unfold strip_surrounding_quotes. rewrite !chars_app. simpl.
      unfold strip_trailing_quote. rewrite rev_app_distr. simpl.
      rewrite rev_involutive. apply of_chars_chars.
    + unfold remove_quotes. rewrite !chars_app. simpl.
      rewrite List.filter_app. simpl. by rewrite app_nil_r.
  - repeat split; vm_compute; reflexivity.
Qed.

Lemma header_and_value_quotes_witness :
  exists v : string,
    values_of (dq +:+ dq +:+ dq +:+ "x" +:+ dq +:+ dq +:+ dq) !! 0%nat
    = Some v
    /\ loses_end_quotes (dq +:+ "x" +:+ dq) v.
Proof.
  destruct header_and_value_quotes as (_ & _ & Hvalue & _).
  apply (Hvalue (dq +:+ dq +:+ dq +:+ "x" +:+ dq +:+ dq +:+ dq) 0%nat
           (dq +:+ "x" +:+ dq)).
  vm_compute. reflexivity.
Defined.

(** X3.  Whatever the text, a row of the parse holds under each of its
    keys either null or a string that is not empty; so a field read from it
    under a name that objects do not inherit is truthy exactly when the row
    holds a string under that name. *)
Theorem parsed_rows_hold_null_or_text (csvText : string) :
  Forall
    (fun row : Row =>
       (forall (k : string) (v : value), row !! k = Some v -> parsed_value v)
       /\ forall k : string,
            k ∉ inherited_names ->
            truthy (prop row k) = true <-> exists s, row !! k = Some (str s))
    (parseCSV csvText).
Proof.
  assert (Hall : Forall (map_Forall (fun _ v => parsed_value v))
                   (parseCSV csvText)).
  { unfold parseCSV. destruct (_ <? 2)%nat; [constructor|].
    apply rows_of_parsed. }
  eapply Forall_impl; [exact Hall|]. intros row Hrow. split.
  - intros k v Hk. exact (Hrow k v Hk).
  - intros k _. unfold prop. split.
    + destruct (row !! k) as [[| |s]|]; simpl; try discriminate. eauto.
    + intros [s Hs]. rewrite Hs. simpl.
      destruct (Hrow k _ Hs) as [|(s' & [= <-] & Hne)]; [discriminate|].
      by destruct (String.eqb_spec s "").
Qed.

Lemma parsed_rows_hold_null_or_text_witness :
  truthy (prop (hd ∅ (parseCSV two_nameless_rows)) "studentId") = true.
Proof.
  assert (Hrow : parseCSV two_nameless_rows !! 0%nat
                 = Some (hd ∅ (parseCSV two_nameless_rows)))
    by (vm_compute; reflexivity).
  destruct (Forall_lookup_1 _ _ _ _
              (parsed_rows_hold_null_or_text two_nameless_rows) Hrow)
    as [_ Htruthy].
  apply Htruthy.
  - apply (bool_decide_unpack _). vm_compute. exact I.
  - exists "S1". vm_compute. reflexivity.
Defined.

Lemma fill_lookup_other (headers values : list string) (row : Row)
    (inherits : bool) (k : string) :
  k ∉ headers -> fill row inherits headers values !! k = row !! k.
Proof.
  revert values row inherits.
  induction headers as [|h hs IH]; intros [|v vs] row inherits Hk;
    simpl; try done.
  apply not_elem_of_cons in Hk as [Hne Hk].
  unfold assign. destruct (String.eqb h "__proto__" && inherits);
    rewrite (IH _ _ _ Hk); [done|].
  by rewrite lookup_insert_ne.
Qed.

(** X4.  Reading back what the header loop wrote: when the header names
    are distinct, the row holds under the name of column [i] the value of
    column [i], with an empty value turned into null; and a name that is
    no header is absent from the row.  (The name [__proto__] never becomes
    a key.) *)
Theorem row_of_lookup (headers values : list string) :
  NoDup headers ->
  (forall (i : nat) (h v : string),
      headers !! i = Some h -> values !! i = Some v -> h <> "__proto__" ->
      row_of headers values !! h = Some (normalize v))
  /\ (forall k : string, k ∉ headers -> row_of headers values !! k = None)
  /\ row_of headers values !! "__proto__" = None.
Proof.
  intros Hnd. unfold row_of. split; [|split].
  - assert (Hget : forall (inherits : bool) (row : Row) (i : nat)
                          (h v : string),
               headers !! i = Some h -> values !! i = Some v ->
               h <> "__proto__" ->
               fill row inherits headers values !! h = Some (normalize v)).
    { revert values.
      induction Hnd as [|h0 hs Hnot Hnd IH];
        intros values inherits row i h v Hh Hv Hne.
      - by rewrite lookup_nil in Hh.
      - destruct values as [|v0 vs]; [by rewrite lookup_nil in Hv|].
        destruct i as [|i]; simpl in *.
        + injection Hh as ->. injection Hv as ->. unfold assign.
          destruct (String.eqb_spec h "__proto__"); [done|]. simpl.
          rewrite (fill_lookup_other _ _ _ _ _ Hnot).
          by rewrite lookup_insert_eq.
        + destruct (assign row inherits h0 (normalize v0))
            as [row' inherits'].
          by apply (IH vs _ _ i). }
    intros i h v. apply Hget.
  - intros k Hk. by rewrite (fill_lookup_other _ _ _ _ _ Hk).
  - assert (Hkeep : forall hs vs (r : Row),
               NoDup hs -> r !! "__proto__" = None ->
               fill r true hs vs !! "__proto__" = None).
    { clear. induction hs as [|h hs IH]; intros [|v vs] r Hnd Hr;
        simpl; try done.
      apply NoDup_cons in Hnd as [Hnot Hnd]. unfold assign.
      destruct (String.eqb_spec h "__proto__") as [->|Hne]; simpl.
      - by rewrite (fill_lookup_other _ _ _ _ _ Hnot).
      - apply IH; [done|]. by rewrite lookup_insert_ne. }
    by apply Hkeep; [|apply lookup_empty].
Qed.

Lemma row_of_lookup_witness :
  row_of ["studentId"; "name"] ["S1"; ""] !! "name" = Some null.
Proof.
  destruct (row_of_lookup ["studentId"; "name"] ["S1"; ""]) as [Hget _].
  - apply (bool_decide_unpack _). vm_compute. exact I.
  - apply (Hget 1%nat "name" ""); [reflexivity | reflexivity | discriminate].
Defined.

(** ** The validators *)

Lemma first_missing_None (fields : list string) (row : Row) :
  first_missing fields row = None
  <-> Forall (fun f => truthy (prop row f) = true) fields.
Proof.
  induction fields as [|f more IH]; simpl; [by split|].
  destruct (truthy (prop row f)) eqn:Hf.
  - rewrite IH. split; [by constructor | by inversion 1].
  - split; [discriminate | inversion 1; congruence].
Qed.

Lemma first_missing_Some (fields : list string) (row : Row)
    (reason : string) :
  first_missing fields row = Some reason ->
  exists (before : list string) (f : string) (after : list string),
    fields = before ++ f :: after
    /\ reason = "Missing " +:+ f
    /\ Forall (fun g => truthy (prop row g) = true) before
    /\ truthy (prop row f) = false.
Proof.
  induction fields as [|f more IH]; simpl; [discriminate|].
  destruct (truthy (prop row f)) eqn:Hf.
  - intros Hmore. destruct (IH Hmore) as (before & g & after & -> & -> & Hb & Hg).
    exists (f :: before), g, after. repeat split; try done. by constructor.
  - intros [= <-]. exists [], f, more. by repeat split.
Qed.

Lemma presence_validators_first_missing :
  Forall (fun '(validate, fields) =>
            forall row : Row, validate row = first_missing fields row)
    presence_validators.
Proof.
  unfold presence_validators.
  repeat (apply Forall_cons; split;
          [intros row;
           unfold validateStudentRow, validateAttendanceRow,
             validateTestScoreRow, validateFeeRow, validateProjectRow,
             validatePhdRow, validateFellowshipRow;
           simpl; repeat (destruct (truthy _); simpl; try reflexivity)|]).
  by apply Forall_nil.
Qed.

(** X5.  A validator accepts a row exactly when every field it requires
    is present with a text that is not empty; when it rejects, its reason
    is Missing followed by the name of the first required field, in its
    own order, that the row lacks.  The backlog validator asks the same of
    studentId, courseId and attempts, and of cleared only that it holds
    some text. *)
Theorem validators_require_their_fields :
  Forall
    (fun '(validate, fields) =>
       forall row : Row,
         (validate row = None
          <-> Forall (fun f => truthy (prop row f) = true) fields)
         /\ forall reason : string,
              validate row = Some reason ->
              exists (before : list string) (f : string)
                     (after : list string),
                fields = before ++ f :: after
                /\ reason = "Missing " +:+ f
                /\ Forall (fun g => truthy (prop row g) = true) before
                /\ truthy (prop row f) = false)
    presence_validators
  /\ forall row : Row,
       validateBacklogRow row = None
       <-> Forall (fun f => truthy (prop row f) = true)
             ["studentId"; "courseId"; "attempts"]
           /\ exists s : string, prop row "cleared" = str s.
Proof.
  split.
  - eapply Forall_impl; [exact presence_validators_first_missing|].
    intros [validate fields] Heq row. rewrite Heq. split.
    + apply first_missing_None.
    + apply first_missing_Some.
  - intros row. unfold validateBacklogRow.
    rewrite <- (first_missing_None ["studentId"; "courseId"; "attempts"]).
    simpl.
    destruct (truthy (prop row "studentId")); simpl;
      [|split; [discriminate | by intros [? _]]].
    destruct (truthy (prop row "courseId")); simpl;
      [|split; [discriminate | by intros [? _]]].
    destruct (truthy (prop row "attempts")); simpl;
      [|split; [discriminate | by intros [? _]]].
    destruct (prop row "cleared") as [| |s].
    + split; [discriminate | by intros [_ [s ?]]].
    + split; [discriminate | by intros [_ [s ?]]].
    + split; [eauto | done].
Qed.

Lemma validators_require_their_fields_witness :
  validateStudentRow alice_row = None
  /\ exists f, validateFeeRow march_row = Some ("Missing " +:+ f)
               /\ truthy (prop march_row f) = false.
Proof.
  destruct validators_require_their_fields as [Hall _].
  unfold presence_validators in Hall. split.
  - apply Forall_inv in Hall. apply (Hall alice_row).
    repeat constructor.
  - do 3 apply Forall_inv_tail in Hall. apply Forall_inv in Hall.
    destruct (Hall march_row) as [_ Hwhy].
    destruct (Hwhy "Missing dueDate")
      as (before & f & after & _ & Hreason & _ & Hf).
    + vm_compute. reflexivity.
    + exists f. split; [|exact Hf]. rewrite <- Hreason. vm_compute.
      reflexivity.
Defined.

(** X6.  A row that lacks a required field never reaches the store: the
    loop body of its upload type pushes exactly one error, Row n: Missing
    f, where f is the first of the required fields, in the validator's
    order, that the row lacks; it makes no client call, writes nothing and
    does not count the row.  A backlog row is treated the same way for
    studentId, courseId and attempts, and when it has these three but no
    cleared, neither text nor empty text, the one error is Missing cleared
    field. *)
Theorem missing_field_is_one_error `{Builtins} `{Faults} (teacher : string) :
  Forall
    (fun '(fields, body) =>
       forall (row : Row) (w : World),
         ~ Forall (fun f => truthy (prop row f) = true) fields ->
         exists (before : list string) (f : string) (after : list string),
           fields = before ++ f :: after
           /\ Forall (fun g => truthy (prop row g) = true) before
           /\ truthy (prop row f) = false
           /\ body row w = (with_error w ("Missing " +:+ f), inr tt))
    (presence_checked teacher)
  /\ forall (row : Row) (w : World),
       validateBacklogRow row <> None ->
       (exists (before : list string) (f : string) (after : list string),
           ["studentId"; "courseId"; "attempts"] = before ++ f :: after
           /\ Forall (fun g => truthy (prop row g) = true) before
           /\ truthy (prop row f) = false
           /\ backlogs_row row w
              = (with_error w ("Missing " +:+ f), inr tt))
       \/ (Forall (fun g => truthy (prop row g) = true)
             ["studentId"; "courseId"; "attempts"]
           /\ (prop row "cleared" = undefined \/ prop row "cleared" = null)
           /\ backlogs_row row w
              = (with_error w "Missing cleared field", inr tt)).
Proof.
  assert (Hrun : forall (fields : list string) (row : Row),
             ~ Forall (fun f => truthy (prop row f) = true) fields ->
             exists (before : list string) (f : string)
                    (after : list string),
               fields = before ++ f :: after
               /\ Forall (fun g => truthy (prop row g) = true) before
               /\ truthy (prop row f) = false
               /\ first_missing fields row = Some ("Missing " +:+ f)).
  { intros fields row Hnot.
    destruct (first_missing fields row) as [reason|] eqn:Hfirst.
    - destruct (first_missing_Some _ _ _ Hfirst)
        as (before & f & after & Hfields & -> & Hbefore & Hf).
      by exists before, f, after.
    - by apply first_missing_None in Hfirst. }
  pose proof presence_validators_first_missing as Hval.
  unfold presence_validators in Hval.
  split.
  - unfold presence_checked.
    repeat (apply Forall_cons in Hval as [Heq Hval];
            apply Forall_cons; split;
            [intros row w Hnot;
             destruct (Hrun _ row Hnot)
               as (before & f & after & Hfields & Hbefore & Hf & Hfirst);
             exists before, f, after;
             split; [exact Hfields|]; split; [exact Hbefore|];
             split; [exact Hf|];
             rewrite <- Heq in Hfirst;
             unfold students_row, attendance_row, testscores_row, fees_row,
               projects_row, phd_row, fellowships_row;
             rewrite Hfirst; reflexivity
            |clear Heq]).
    by apply Forall_nil.
  - intros row w Hnot. unfold backlogs_row.
    destruct (first_missing ["studentId"; "courseId"; "attempts"] row)
      as [reason|] eqn:Hfirst.
    + left.
      destruct (first_missing_Some _ _ _ Hfirst)
        as (before & f & after & Hfields & -> & Hbefore & Hf).
      exists before, f, after. repeat split; try done.
      assert (Hreason : validateBacklogRow row = Some ("Missing " +:+ f)).
      { unfold validateBacklogRow. simpl in Hfirst.
        destruct (truthy (prop row "studentId")); simpl; [|exact Hfirst].
        destruct (truthy (prop row "courseId")); simpl; [|exact Hfirst].
        destruct (truthy (prop row "attempts")); simpl; [|exact Hfirst].
        discriminate. }
      by rewrite Hreason.
    + right. apply first_missing_None in Hfirst.
      split; [exact Hfirst|].
      pose proof Hfirst as Hall.
      apply Forall_cons in Hall as [Hs Hall].
      apply Forall_cons in Hall as [Hc Hall].
      apply Forall_cons in Hall as [Ha _].
      unfold validateBacklogRow in *. rewrite Hs, Hc, Ha in *. simpl in *.
      destruct (prop row "cleared"); [by split; [left|] | by split; [right|]
                                     | done].
Qed.

Lemma missing_field_is_one_error_witness :
  exists f,
    @fees_row Engine.builtins Engine.no_faults march_row (start empty_store)
    = (with_error (start empty_store) ("Missing " +:+ f), inr tt).
Proof.
  destruct (@missing_field_is_one_error Engine.builtins Engine.no_faults "T1")
    as [Hall _].
  unfold presence_checked in Hall.
  do 3 apply Forall_inv_tail in Hall. apply Forall_inv in Hall.
  destruct (Hall march_row (start empty_store))
    as (before & f & after & _ & _ & _ & Hrun).
  - intros Hfields. apply Forall_inv_tail, Forall_inv in Hfields.
    vm_compute in Hfields. discriminate.
  - exists f. exact Hrun.
Defined.

(** ** How a row ends *)

#[global] Instance calm_preorder {T : Type} (proj : Store -> T) :
  PreOrder (calm proj).
Proof.
  split.
  - intros w. by repeat split.
  - intros w1 w2 w3 (Hp & Hn & He) (Hp' & Hn' & He').
    repeat split; [congruence | congruence | by etransitivity].
Qed.

Section Outcome.
Context `{Faults} {T : Type} (proj : Store -> T).

Lemma calm_row_error (reason : string) :
  keeps (calm proj) (row_error reason).
Proof.
  intros w w' r [= <- _]. repeat split. simpl. by apply prefix_app_r.
Qed.

Lemma settles_row_error (reason : string) :
  settles proj (row_error reason).
Proof.
  intros w w' r [= <- <-]. right. split; [done|]. left. split.
  - repeat split. simpl. by apply prefix_app_r.
  - simpl. rewrite length_app. simpl. lia.
Qed.

Lemma row_outcome_after (w w1 w' : World) :
  calm proj w w1 -> row_outcome proj w1 w' -> row_outcome proj w w'.
Proof.
  intros Hcalm [[Hc Hlen]|[Hcount Hpre]].
  - left. split; [by etransitivity|].
    destruct Hcalm as (_ & _ & Hpre). apply prefix_length in Hpre. lia.
  - right. destruct Hcalm as (_ & Hn & Hpre'). split; [lia|].
    by etransitivity.
Qed.

Lemma settles_bind {A : Type} (m : M A) (k : A -> M unit) :
  keeps (calm proj) m -> (forall a, settles proj (k a)) ->
  settles proj (bind m k).
Proof.
  intros Hm Hk w w' r. unfold bind.
  destruct (m w) as [w1 [e|a]] eqn:Em.
  - intros [= <- <-]. left. exists e. split; [done|]. eapply Hm, Em.
  - intros Ek. pose proof (Hm _ _ _ Em) as Hcalm.
    destruct (Hk a _ _ _ Ek) as [(e & -> & Hc)|[-> Hout]].
    + left. exists e. split; [done | by etransitivity].
    + right. split; [done|]. by eapply row_outcome_after.
Qed.

Lemma settles_count {A : Type} (m : M A) :
  writes proj m -> settles proj (bind m (fun _ => count_processed)).
Proof.
  intros Hm w w' r. unfold bind.
  destruct (m w) as [w1 [e|a]] eqn:Em;
    destruct (Hm _ _ _ Em) as (Hn & Hpre & Hproj).
  - intros [= <- <-]. left. exists e. split; [done|].
    repeat split; [by eapply Hproj | done | done].
  - intros [= <- <-]. right. split; [done|]. right. simpl.
    split; [lia | done].
Qed.

Lemma writes_client {A : Type} (c : Call) (run : Store -> Store * A) :
  writes proj (client c run).
Proof.
  intros w w' r. unfold client. destruct (fault (db w) c).
  - by intros [= <- <-].
  - destruct (run (db w)) as [d a]. intros [= <- <-]. by repeat split.
Qed.

Lemma writes_bind {A B : Type} (m : M A) (k : A -> M B) :
  keeps (calm proj) m -> (forall a, writes proj (k a)) ->
  writes proj (bind m k).
Proof.
  intros Hm Hk w w' r. unfold bind.
  destruct (m w) as [w1 [e|a]] eqn:Em;
    destruct (Hm _ _ _ Em) as (Hp & Hn & Hpre).
  - intros [= <- <-]. by repeat split.
  - intros Ek. destruct (Hk a _ _ _ Ek) as (Hn' & Hpre' & Hproj).
    repeat split; [lia | by etransitivity |].
    intros e He. rewrite (Hproj e He). exact Hp.
Qed.

Lemma ends_row_error (reason : string) : ends_row proj (row_error reason).
Proof.
  intros w. eexists. split; [reflexivity|].
  destruct (settles_row_error reason w _ _ eq_refl)
    as [(e & He & _)|[_ Hout]]; [discriminate | exact Hout].
Qed.

Lemma ends_try_catch (m : M unit) :
  settles proj m -> ends_row proj (try_catch m database_error).
Proof.
  intros Hm w. unfold try_catch.
  destruct (m w) as [w1 r] eqn:Em.
  destruct (Hm _ _ _ Em) as [(e & -> & Hcalm)|[-> Hout]].
  - eexists. split; [reflexivity|]. eapply row_outcome_after; [exact Hcalm|].
    destruct (settles_row_error ("Database error - " +:+ e) w1 _ _ eq_refl)
      as [(e' & He' & _)|[_ Hout]]; [discriminate | exact Hout].
  - by exists w1.
Qed.

End Outcome.

Ltac calm_step := first [ apply calm_row_error | keeps_step ].
Ltac calm_block := cbv zeta; repeat (calm_step; cbv zeta).

Ltac writes_step :=
  first
    [ apply writes_client
    | apply writes_bind; [solve [calm_block] | intros ?]
    | match goal with
      | |- writes _ (match ?x with _ => _ end) => destruct x
      end ].
Ltac writes_block := cbv zeta; repeat (writes_step; cbv zeta).

Ltac settles_step :=
  first
    [ apply settles_row_error
    | apply settles_count; solve [writes_block]
    | apply settles_bind; [solve [calm_block] | intros ?]
    | match goal with
      | |- settles _ (match ?x with _ => _ end) => destruct x
      end ].
Ltac settles_block := cbv zeta; repeat (settles_step; cbv zeta).

Ltac ends_body :=
  match goal with
  | |- ends_row _ (match ?v with _ => _ end) =>
      destruct v; [apply ends_row_error | apply ends_try_catch]
  end.

Section Ends.
Context `{Builtins} `{Faults}.

Lemma students_row_ends (teacher : string) (row : Row) :
  ends_row students (students_row teacher row).
Proof.
  unfold students_row. ends_body.
  unfold final_batch, find_or_create_batch, upsert_student,
    batch_findUnique, batch_create, courseSubject_findUnique,
    courseSubject_create, student_findUnique, student_update, student_create.
  settles_block.
Qed.

Lemma attendance_row_ends (row : Row) :
  ends_row attendances (attendance_row row).
Proof.
  unfold attendance_row. ends_body.
  unfold student_not_found, find_or_create_course, courseSubject_findUnique,
    courseSubject_create, student_findUnique, attendance_findFirst,
    attendance_update, attendance_create.
  settles_block.
Qed.

Lemma testscores_row_ends (row : Row) :
  ends_row testScores (testscores_row row).
Proof.
  unfold testscores_row. ends_body.
  unfold student_not_found, find_or_create_course, courseSubject_findUnique,
    courseSubject_create, student_findUnique, testScore_create.
  settles_block.
Qed.

Lemma backlogs_row_ends (row : Row) :
  ends_row backlogs (backlogs_row row).
Proof.
  unfold backlogs_row. ends_body.
  unfold student_not_found, find_or_create_course, courseSubject_findUnique,
    courseSubject_create, student_findUnique, backlog_findFirst,
    backlog_update, backlog_create.
  settles_block.
Qed.

Lemma fees_row_ends (row : Row) : ends_row feePayments (fees_row row).
Proof.
  unfold fees_row. ends_body.
  unfold student_not_found, student_findUnique, feePayment_create.
  settles_block.
Qed.

Lemma projects_row_ends (teacher : string) (row : Row) :
  ends_row projects (projects_row teacher row).
Proof.
  unfold projects_row. ends_body.
  unfold student_not_found, student_findUnique, project_create.
  settles_block.
Qed.

Lemma phd_row_ends (teacher : string) (row : Row) :
  ends_row phdSupervisions (phd_row teacher row).
Proof.
  unfold phd_row. ends_body.
  unfold student_not_found, student_findUnique, phdSupervision_create.
  settles_block.
Qed.

Lemma fellowships_row_ends (teacher : string) (row : Row) :
  ends_row fellowships (fellowships_row teacher row).
Proof.
  unfold fellowships_row. ends_body.
  unfold student_not_found, student_findUnique, fellowship_create.
  settles_block.
Qed.

End Ends.

(** Every loop body ends its row, whatever the upload type. *)
Lemma row_handler_ends `{Builtins} `{Faults} (teacher type : string)
    (body : Row -> M unit) (row : Row) :
  row_handler teacher type = Some body ->
  ends_row (fun _ : Store => tt) (body row).
Proof.
  assert (Hweak : forall (T : Type) (proj : Store -> T) (m : M unit),
             ends_row proj m -> ends_row (fun _ : Store => tt) m).
  { intros T proj m Hm w. destruct (Hm w) as (w' & Hrun & Hout).
    exists w'. split; [exact Hrun|].
    destruct Hout as [[(_ & Hn & Hpre) Hlen]|Hcount]; [left | by right].
    by repeat split. }
  unfold row_handler.
  repeat match goal with
         | |- (if ?b then _ else _) = _ -> _ => destruct b
         end; intros [= <-]; eapply Hweak;
    first [ apply students_row_ends | apply attendance_row_ends
          | apply testscores_row_ends | apply backlogs_row_ends
          | apply fees_row_ends | apply projects_row_ends
          | apply phd_row_ends | apply fellowships_row_ends ].
Qed.

Lemma row_handler_Some `{Builtins} `{Faults} (teacher type : string) :
  is_Some (row_handler teacher type) <-> type ∈ upload_types.
Proof.
  unfold row_handler, upload_types. split.
  - repeat match goal with
           | |- is_Some (if String.eqb ?a ?b then _ else _) -> _ =>
               destruct (String.eqb_spec a b) as [->|?]
           end;
      try (intros _; apply (bool_decide_unpack _); vm_compute; exact I).
    by intros [? ?].
  - intros Hin.
    repeat (apply elem_of_cons in Hin as [->|Hin]; [by eexists|]).
    by apply elem_of_nil in Hin.
Qed.

(** The loop over the rows: it never throws, counts at most one per row,
    and leaves for every row a count or at least one error. *)
Lemma for_of_tally {A : Type} (rows : list A) (body : A -> M unit) :
  (forall row, ends_row (fun _ : Store => tt) (body row)) ->
  forall w : World,
    exists w' : World,
      for_of rows body w = (w', inr tt)
      /\ processed w <= processed w' <= processed w + length rows
      /\ length rows + processed w + length (errors w)
         <= processed w' + length (errors w')
      /\ errors w `prefix_of` errors w'.
Proof.
  intros Hbody. induction rows as [|row more IH]; intros w; simpl.
  - exists w. repeat split; (lia || done).
  - unfold bind. destruct (Hbody row w) as (w1 & -> & Hout).
    destruct (IH w1) as (w' & -> & Hn & Hsum & Hpre).
    exists w'. split; [done|].
    destruct Hout as [[(_ & Hn1 & Hpre1) Hlen]|[Hn1 Hpre1]];
      pose proof (prefix_length _ _ Hpre1);
      (repeat split; [lia | lia | lia | by etransitivity]).
Qed.

(** X7.  An upload that reaches the rows always answers with the summary:
    no failure of the store on any row aborts it.  In the summary, total
    is the number of rows the parser returned, processed is at most
    total, every row that was not counted left at least one error, so
    total is at most processed plus the number of errors pushed, and the
    errors reported are the first ten of those pushed. *)
Theorem upload_summary `{Builtins} `{Faults} (teacher csvText type : string)
    (store : Store) :
  teacher <> "" -> type ∈ upload_types -> parseCSV csvText <> [] ->
  exists w : World,
    POST (Some teacher) (Some csvText) (Some type) store
    = (json_success (processed w) (length (parseCSV csvText))
         (take 10 (errors w)), w)
    /\ processed w <= length (parseCSV csvText)
    /\ length (parseCSV csvText) <= processed w + length (errors w)
    /\ length (take 10 (errors w)) <= 10
    /\ (processed w = length (parseCSV csvText) \/ errors w <> []).
Proof.
  intros Hteacher Htype Hrows. unfold POST.
  apply String.eqb_neq in Hteacher. rewrite Hteacher.
  assert (Hty : String.eqb type "" = false).
  { apply String.eqb_neq. intros ->. unfold upload_types in Htype.
    repeat (apply elem_of_cons in Htype as [Htype|Htype]; [discriminate|]).
    by apply elem_of_nil in Htype. }
  rewrite Hty.
  destruct (length (parseCSV csvText) =? 0)%nat eqn:Hlen.
  { apply Nat.eqb_eq in Hlen. by destruct (parseCSV csvText). }
  apply (row_handler_Some teacher) in Htype as [body Hbody]. rewrite Hbody.
  destruct (for_of_tally (parseCSV csvText) body
              (fun row => row_handler_ends _ _ _ row Hbody) (start store))
    as (w & -> & Hn & Hsum & _).
  simpl in Hn, Hsum. exists w. split; [done|].
  repeat split; try lia.
  - rewrite length_take. lia.
  - destruct (errors w); [left; simpl in *; lia | by right].
Qed.

Lemma upload_summary_witness :
  exists w : World,
    @POST Engine.builtins batch_outage (Some "T1") (Some one_student_csv)
      (Some "students") empty_store
    = (json_success (processed w) 1 (take 10 (errors w)), w)
    /\ processed w <= 1.
Proof.
  destruct (@upload_summary Engine.builtins batch_outage "T1"
              one_student_csv "students" empty_store)
    as (w & Hpost & Hle & _).
  - apply String.eqb_neq. reflexivity.
  - apply (bool_decide_unpack _). vm_compute. exact I.
  - intros Hnone. apply (f_equal (@length Row)) in Hnone.
    vm_compute in Hnone. discriminate.
  - exists w. split; [exact Hpost | exact Hle].
Defined.

(** X8.  Requests that stop before the rows, for a cookie value already
    decoded and a file already read.  Without a teacher the answer is 401
    whatever else is sent; then a missing file or type gives 400, then a
    text without any parsed row, then an unknown type.  An error answer is
    only ever given before the first client call: it leaves the store as
    it was. *)
Theorem request_errors `{Builtins} `{Faults} (uid file type : option string)
    (store : Store) :
  ((uid = None \/ uid = Some "") ->
   POST uid file type store
   = (json_error 401 "Authentication required", start store))
  /\ (forall teacher : string,
        uid = Some teacher -> teacher <> "" ->
        (file = None \/ type = None \/ type = Some "") ->
        POST uid file type store
        = (json_error 400 "File and type are required", start store))
  /\ (forall teacher csvText kind : string,
        uid = Some teacher -> teacher <> "" -> file = Some csvText ->
        type = Some kind -> kind <> "" -> parseCSV csvText = [] ->
        POST uid file type store
        = (json_error 400 "No valid data found in CSV", start store))
  /\ (forall teacher csvText kind : string,
        uid = Some teacher -> teacher <> "" -> file = Some csvText ->
        type = Some kind -> kind <> "" -> parseCSV csvText <> [] ->
        kind ∉ upload_types ->
        POST uid file type store
        = (json_error 400 "Invalid upload type", start store))
  /\ (forall (status : nat) (message : string) (w : World),
        POST uid file type store = (json_error status message, w) ->
        w = start store).
Proof.
  split; [|split; [|split; [|split]]].
  - intros [->| ->]; reflexivity.
  - intros teacher -> Hteacher Hmissing. unfold POST.
    apply String.eqb_neq in Hteacher. rewrite Hteacher.
    destruct Hmissing as [->|[->| ->]]; [done | by destruct file |].
    by destruct file.
  - intros teacher csvText kind -> Hteacher -> -> Hkind Hrows. unfold POST.
    apply String.eqb_neq in Hteacher, Hkind. by rewrite Hteacher, Hkind, Hrows.
  - intros teacher csvText kind -> Hteacher -> -> Hkind Hrows Hunknown.
    unfold POST. apply String.eqb_neq in Hteacher, Hkind.
    rewrite Hteacher, Hkind.
    destruct (length (parseCSV csvText) =? 0)%nat eqn:Hlen.
    { apply Nat.eqb_eq in Hlen. by destruct (parseCSV csvText). }
    destruct (row_handler teacher kind) as [body|] eqn:Hbody; [|done].
    exfalso. apply Hunknown. apply (row_handler_Some teacher). by eexists.
  - intros status message w. unfold POST.
    destruct uid as [teacher|]; [|intros [= <- _ <-]; auto].
    destruct (String.eqb teacher ""); [intros [= <- _ <-]; auto|].
    destruct file as [csvText|]; [|intros [= <- _ <-]; auto].
    destruct type as [kind|]; [|intros [= <- _ <-]; auto].
    destruct (String.eqb kind ""); [intros [= <- _ <-]; auto|].
    destruct (length (parseCSV csvText) =? 0)%nat;
      [intros [= <- _ <-]; auto|].
    destruct (row_handler teacher kind) as [body|] eqn:Hbody;
      [|intros [= <- _ <-]; auto].
    destruct (for_of_tally (parseCSV csvText) body
                (fun row => row_handler_ends _ _ _ row Hbody) (start store))
      as (w1 & -> & _).
    discriminate.
Qed.

Lemma request_errors_witness :
  @POST Engine.builtins Engine.no_faults (Some "T1") (Some "a,b") (Some "fees")
    store_with_alice
  = (json_error 400 "No valid data found in CSV", start store_with_alice)
  /\ @POST Engine.builtins Engine.no_faults (Some "T1")
       (Some one_student_csv) (Some "grades") store_with_alice
     = (json_error 400 "Invalid upload type", start store_with_alice)
  /\ @POST Engine.builtins Engine.no_faults (Some "") (Some one_student_csv)
       (Some "students") store_with_alice
     = (json_error 401 "Authentication required", start store_with_alice)
  /\ @POST Engine.builtins Engine.no_faults (Some "T1") None
       (Some "students") store_with_alice
     = (json_error 400 "File and type are required",
        start store_with_alice).
Proof.
  split; [|split; [|split]].
  - destruct (@request_errors Engine.builtins Engine.no_faults (Some "T1")
                (Some "a,b") (Some "fees") store_with_alice)
      as (_ & _ & Hempty & _).
    apply (Hempty "T1" "a,b" "fees");
      [ reflexivity | apply String.eqb_neq; reflexivity | reflexivity
      | reflexivity | apply String.eqb_neq; reflexivity
      | vm_compute; reflexivity ].
  - destruct (@request_errors Engine.builtins Engine.no_faults (Some "T1")
                (Some one_student_csv) (Some "grades") store_with_alice)
      as (_ & _ & _ & Hunknown & _).
    apply (Hunknown "T1" one_student_csv "grades");
      [ reflexivity | apply String.eqb_neq; reflexivity | reflexivity
      | reflexivity | apply String.eqb_neq; reflexivity
      | intros Hnone; apply (f_equal (@length Row)) in Hnone;
        vm_compute in Hnone; discriminate
      | apply (bool_decide_unpack _); vm_compute; exact I ].
  - destruct (@request_errors Engine.builtins Engine.no_faults (Some "")
                (Some one_student_csv) (Some "students") store_with_alice)
      as (Hauth & _).
    apply Hauth. by right.
  - destruct (@request_errors Engine.builtins Engine.no_faults (Some "T1")
                None (Some "students") store_with_alice)
      as (_ & Hmissing & _).
    apply (Hmissing "T1");
      [reflexivity | apply String.eqb_neq; reflexivity | by left].
Defined.

(** X9.  A row that was not counted wrote nothing to the table of its
    upload type: the student table for students, and so on for the seven
    others.  A failed write, or an error found after the lookups, leaves
    that table exactly as it was. *)
Theorem uncounted_row_writes_nothing `{Builtins} `{Faults} (teacher : string)
    (row : Row) (w w' : World) (r : string + unit) :
  processed w' = processed w ->
  (students_row teacher row w = (w', r) ->
   students (db w') = students (db w))
  /\ (attendance_row row w = (w', r) ->
      attendances (db w') = attendances (db w))
  /\ (testscores_row row w = (w', r) ->
      testScores (db w') = testScores (db w))
  /\ (backlogs_row row w = (w', r) -> backlogs (db w') = backlogs (db w))
  /\ (fees_row row w = (w', r) -> feePayments (db w') = feePayments (db w))
  /\ (projects_row teacher row w = (w', r) ->
      projects (db w') = projects (db w))
  /\ (phd_row teacher row w = (w', r) ->
      phdSupervisions (db w') = phdSupervisions (db w))
  /\ (fellowships_row teacher row w = (w', r) ->
      fellowships (db w') = fellowships (db w)).
Proof.
  intros Hsame.
  assert (Hkeep : forall (T : Type) (proj : Store -> T) (m : M unit),
             ends_row proj m -> m w = (w', r) ->
             proj (db w') = proj (db w)).
  { intros T proj m Hm Hrun. destruct (Hm w) as (w1 & Hrun1 & Hout).
    rewrite Hrun in Hrun1. injection Hrun1 as <- _.
    destruct Hout as [[(Hp & _) _]|[Hn _]]; [exact Hp | lia]. }
  repeat split; apply Hkeep;
    first [ apply students_row_ends | apply attendance_row_ends
          | apply testscores_row_ends | apply backlogs_row_ends
          | apply fees_row_ends | apply projects_row_ends
          | apply phd_row_ends | apply fellowships_row_ends ].
Qed.

Lemma uncounted_row_writes_nothing_witness :
  attendances
    (db (fst (@attendance_row Engine.builtins Engine.no_faults march_row
                (start empty_store))))
  = [].
Proof.
  destruct (@uncounted_row_writes_nothing Engine.builtins Engine.no_faults
              "T1" march_row (start empty_store)
              (fst (@attendance_row Engine.builtins Engine.no_faults
                      march_row (start empty_store)))
              (snd (@attendance_row Engine.builtins Engine.no_faults
                      march_row (start empty_store))))
    as (_ & Hatt & _).
  - vm_compute. reflexivity.
  - rewrite Hatt; [reflexivity | apply surjective_pairing].
Defined.

(** ** What a counted row has passed *)

Lemma range_check (a b : Z) (n : number) :
  isNaN n || number_lt n (of_Z a) || number_gt n (of_Z b) = false ->
  in_range a b n.
Proof.
  unfold in_range, number_gt, number_lt, of_Z.
  destruct n as [| |q|]; simpl; try discriminate.
  intros Hb. apply orb_false_elim in Hb as [Hlo Hhi].
  apply negb_false_iff, Qle_bool_iff in Hlo, Hhi. by exists q.
Qed.

Lemma floor_check (a : Z) (n : number) :
  isNaN n || number_lt n (of_Z a) = false -> not_below a n.
Proof.
  unfold not_below, number_lt, of_Z.
  destruct n as [| |q|]; simpl; try discriminate; [|by left].
  intros Hlo. apply negb_false_iff, Qle_bool_iff in Hlo. right. by exists q.
Qed.

#[global] Instance same_on_preorder {T : Type} (proj : Store -> T) :
  PreOrder (same_on proj).
Proof.
  split; [by intros w | intros w1 w2 w3 H12 H23].
  unfold same_on in *. congruence.
Qed.

Section Frames.
Context `{Builtins} `{Faults}.

Lemma find_or_create_course_frame (student : Student) (cid : string) :
  keeps (same_on beside_courses) (find_or_create_course student cid).
Proof.
  unfold find_or_create_course, courseSubject_findUnique,
    courseSubject_create.
  keeps_calls.
Qed.

Lemma final_batch_frame (row : Row) :
  keeps (same_on beside_students) (final_batch row).
Proof.
  unfold final_batch, find_or_create_batch, batch_findUnique, batch_create,
    courseSubject_findUnique, courseSubject_create.
  keeps_calls.
Qed.

Lemma upsert_student_frame (teacher sid : string) (d : StudentData) :
  keeps (same_on beside_students) (upsert_student teacher sid d).
Proof.
  unfold upsert_student, student_findUnique, student_update, student_create.
  keeps_calls.
Qed.

Lemma attendance_row_frame (row : Row) :
  keeps (same_on beside_attendance) (attendance_row row).
Proof.
  unfold attendance_row, student_not_found, database_error,
    find_or_create_course, courseSubject_findUnique, courseSubject_create,
    student_findUnique, attendance_findFirst, attendance_update,
    attendance_create.
  keeps_calls.
Qed.

Lemma backlogs_row_frame (row : Row) :
  keeps (same_on beside_backlogs) (backlogs_row row).
Proof.
  unfold backlogs_row, student_not_found, database_error,
    find_or_create_course, courseSubject_findUnique, courseSubject_create,
    student_findUnique, backlog_findFirst, backlog_update, backlog_create.
  keeps_calls.
Qed.

(** X13.  What an upload type never touches.  A students row writes only
    to students, batches and courses; an attendance, test-score or backlog
    row only to courses and to its own table; a fee, project, PhD or
    fellowship row only to its own table.  Every other table is the same
    after the row as before, whatever the row holds and whatever the store
    answers. *)
Theorem rows_write_only_their_tables (teacher : string) (row : Row)
    (w w' : World) (r : string + unit) :
  (students_row teacher row w = (w', r) ->
   beside_students (db w') = beside_students (db w))
  /\ (attendance_row row w = (w', r) ->
      beside_attendance (db w') = beside_attendance (db w))
  /\ (testscores_row row w = (w', r) ->
      beside_testscores (db w') = beside_testscores (db w))
  /\ (backlogs_row row w = (w', r) ->
      beside_backlogs (db w') = beside_backlogs (db w))
  /\ (fees_row row w = (w', r) -> beside_fees (db w') = beside_fees (db w))
  /\ (projects_row teacher row w = (w', r) ->
      beside_projects (db w') = beside_projects (db w))
  /\ (phd_row teacher row w = (w', r) ->
      beside_phd (db w') = beside_phd (db w))
  /\ (fellowships_row teacher row w = (w', r) ->
      beside_fellowships (db w') = beside_fellowships (db w)).
Proof.
  assert (Hstudents : keeps (same_on beside_students)
                        (students_row teacher row)).
  { unfold students_row, database_error. keeps_calls;
      first [apply final_batch_frame | apply upsert_student_frame]. }
  pose proof (attendance_row_frame row) as Hatt.
  assert (Hscore : keeps (same_on beside_testscores) (testscores_row row)).
  { unfold testscores_row, student_not_found, database_error,
      find_or_create_course, courseSubject_findUnique, courseSubject_create,
      student_findUnique, testScore_create.
    keeps_calls. }
  pose proof (backlogs_row_frame row) as Hback.
  assert (Hfees : keeps (same_on beside_fees) (fees_row row)).
  { unfold fees_row, student_not_found, database_error, student_findUnique,
      feePayment_create.
    keeps_calls. }
  assert (Hproj : keeps (same_on beside_projects) (projects_row teacher row)).
  { unfold projects_row, student_not_found, database_error,
      student_findUnique, project_create.
    keeps_calls. }
  assert (Hphd : keeps (same_on beside_phd) (phd_row teacher row)).
  { unfold phd_row, student_not_found, database_error, student_findUnique,
      phdSupervision_create.
    keeps_calls. }
  assert (Hfel : keeps (same_on beside_fellowships)
                   (fellowships_row teacher row)).
  { unfold fellowships_row, student_not_found, database_error,
      student_findUnique, fellowship_create.
    keeps_calls. }
  repeat split; intros Hrun;
    [ exact (Hstudents _ _ _ Hrun) | exact (Hatt _ _ _ Hrun)
    | exact (Hscore _ _ _ Hrun) | exact (Hback _ _ _ Hrun)
    | exact (Hfees _ _ _ Hrun) | exact (Hproj _ _ _ Hrun)
    | exact (Hphd _ _ _ Hrun) | exact (Hfel _ _ _ Hrun) ].
Qed.

End Frames.

Lemma rows_write_only_their_tables_witness :
  students
    (db (fst (@attendance_row Engine.builtins Engine.no_faults march_row
                (start store_with_alice))))
  = [alice].
Proof.
  destruct (@rows_write_only_their_tables Engine.builtins Engine.no_faults
              "T1" march_row (start store_with_alice)
              (fst (@attendance_row Engine.builtins Engine.no_faults
                      march_row (start store_with_alice)))
              (snd (@attendance_row Engine.builtins Engine.no_faults
                      march_row (start store_with_alice))))
    as (_ & Hattendance & _).
  specialize (Hattendance (surjective_pairing _)).
  exact (f_equal students Hattendance).
Defined.

Ltac uncounted := intros [= <- _]; simpl in *; lia.

Section Counted.
Context `{Builtins} `{Faults}.

Lemma student_findUnique_db (sid : string) :
  keeps (same_on (fun s : Store => s)) (student_findUnique sid).
Proof. unfold student_findUnique. keeps_calls. Qed.

Lemma testscores_row_counted (row : Row) (w w' : World)
    (r : string + unit) :
  let sid := to_string (prop row "studentId") in
  let cid := to_string (prop row "courseId") in
  let testDate := new_Date (prop row "testDate") in
  let score := parseFloat (to_string (prop row "score")) in
  testscores_row row w = (w', r) ->
  processed w' = processed w + 1 ->
  isInvalid testDate = false
  /\ in_range 0 100 score
  /\ testScores (db w')
     = testScores (db w)
       ++ [{| t_studentId := sid; t_courseId := cid;
              t_testDate := testDate; t_score := score |}].
Proof.
  intros sid cid testDate score.
  unfold testscores_row, database_error, student_not_found.
  destruct (validateTestScoreRow row); [uncounted|].
  cbv zeta. fold sid cid testDate score. unfold try_catch, bind at 1.
  destruct (student_findUnique sid w) as [w0 [e|student]] eqn:Hs0.
  all: destruct (student_findUnique_calls _ _ _ _ Hs0) as [_ Hp0].
  all: pose proof (student_findUnique_db _ _ _ _ Hs0) as Hd0.
  all: unfold same_on in Hd0.
  { uncounted. }
  destruct student as [student|]; [|uncounted].
  unfold bind at 1.
  destruct (find_or_create_course student cid w0) as [w1 [e|c]] eqn:Hs1.
  all: destruct (find_or_create_course_calls _ _ _ _ _ Hs1) as [_ Hp1].
  all: pose proof (find_or_create_course_frame _ _ _ _ _ Hs1) as Hd1.
  all: apply (f_equal testScores) in Hd1; simpl in Hd1.
  { uncounted. }
  destruct (isInvalid testDate); [uncounted|].
  destruct (_ || _) eqn:Hrange; [uncounted|].
  unfold bind, testScore_create, client, count_processed.
  destruct (fault (db w1) _); [uncounted|].
  intros [= <- _] _. simpl. split; [done|].
  split; [by apply range_check|]. by rewrite Hd1, Hd0.
Qed.

Lemma backlogs_row_counted (row : Row) (w w' : World) (r : string + unit) :
  let sid := to_string (prop row "studentId") in
  let cid := to_string (prop row "courseId") in
  let n := parseInt (to_string (prop row "attempts")) in
  let c := parse_cleared (prop row "cleared") in
  backlogs_row row w = (w', r) ->
  processed w' = processed w + 1 ->
  not_below 1 n
  /\ exists b, b ∈ backlogs (db w')
               /\ g_studentId b = sid /\ g_courseId b = cid
               /\ attempts b = n /\ cleared b = c.
Proof.
  intros sid cid n c.
  unfold backlogs_row, database_error, student_not_found.
  destruct (validateBacklogRow row); [uncounted|].
  cbv zeta. fold sid cid n c. unfold try_catch, bind at 1.
  destruct (student_findUnique sid w) as [w0 [e|student]] eqn:Hs0.
  all: destruct (student_findUnique_calls _ _ _ _ Hs0) as [_ Hp0].
  { uncounted. }
  destruct student as [student|]; [|uncounted].
  unfold bind at 1.
  destruct (find_or_create_course student cid w0) as [w1 [e|course]] eqn:Hs1.
  all: destruct (find_or_create_course_calls _ _ _ _ _ Hs1) as [_ Hp1].
  { uncounted. }
  destruct (_ || _) eqn:Hrange; [uncounted|].
  unfold bind, backlog_findFirst, backlog_update, backlog_create, client,
    count_processed.
  destruct (fault (db w1) (BacklogFindFirst _ _)); [uncounted|].
  destruct (find_backlog (db w1) sid cid) as [existing|] eqn:Hfind; simpl.
  - destruct (fault (db w1) (BacklogUpdate _ _ _)); [uncounted|].
    intros [= <- _] _. simpl. split; [by apply floor_check|].
    apply find_backlog_Some in Hfind as (Hin & Hs & Hc).
    exists (update_backlog (backlogId existing) n c existing).
    split; [by apply list_elem_of_fmap_2|].
    unfold update_backlog. rewrite Nat.eqb_refl. simpl. done.
  - destruct (fault (db w1) (BacklogCreate _ _ _ _)); [uncounted|].
    intros [= <- _] _. simpl. split; [by apply floor_check|].
    eexists. split; [apply elem_of_app; right; apply list_elem_of_here|].
    done.
Qed.

Lemma fees_row_counted (row : Row) (w w' : World) (r : string + unit) :
  let sid := to_string (prop row "studentId") in
  let dueDate := new_Date (prop row "dueDate") in
  let paidDate := optional_Date (prop row "paidDate") in
  let dueMonths := parseInt (to_string (prop row "dueMonths")) in
  fees_row row w = (w', r) ->
  processed w' = processed w + 1 ->
  isInvalid dueDate = false
  /\ paidDate <> Some InvalidDate
  /\ not_below 1 dueMonths
  /\ feePayments (db w')
     = feePayments (db w)
       ++ [{| f_studentId := sid; f_dueDate := dueDate;
              f_paidDate := paidDate;
              f_status := to_string (prop row "status");
              f_dueMonths := dueMonths |}].
Proof.
  intros sid dueDate paidDate dueMonths.
  unfold fees_row, database_error, student_not_found.
  destruct (validateFeeRow row); [uncounted|].
  cbv zeta. fold sid dueDate dueMonths. unfold try_catch, bind at 1.
  destruct (student_findUnique sid w) as [w0 [e|student]] eqn:Hs0.
  all: destruct (student_findUnique_calls _ _ _ _ Hs0) as [_ Hp0].
  all: pose proof (student_findUnique_db _ _ _ _ Hs0) as Hd0.
  all: unfold same_on in Hd0.
  { uncounted. }
  destruct student as [student|]; [|uncounted].
  destruct (isInvalid dueDate); [uncounted|].
  change (if truthy (prop row "paidDate")
          then Some (new_Date (prop row "paidDate")) else None)
    with paidDate.
  destruct paidDate as [[|ms]|] eqn:Hpaid; simpl; [uncounted| |].
  all: destruct (_ || _) eqn:Hrange; [uncounted|].
  all: unfold bind, feePayment_create, client, count_processed.
  all: destruct (fault (db w0) _); [uncounted|].
  all: intros [= <- _] _; simpl.
  all: repeat split; [done | by apply floor_check | by rewrite Hd0].
Qed.

Lemma student_findUnique_Some (sid : string) (w w0 : World)
    (student : Student) :
  student_findUnique sid w = (w0, inr (Some student)) ->
  find_student (db w) sid = Some student.
Proof.
  unfold student_findUnique, client.
  destruct (fault (db w) _); [discriminate | by intros [= _ ->]].
Qed.

(** Whatever comes after the student lookup, a counted row found its
    student. *)
Lemma counted_found_student (sid : string) (no : M unit)
    (k : Student -> M unit) (h : string -> M unit) (w w' : World)
    (r : string + unit) :
  (forall w0 w1 r1, no w0 = (w1, r1) -> processed w1 = processed w0) ->
  (forall e w0 w1 r1, h e w0 = (w1, r1) -> processed w1 = processed w0) ->
  try_catch
    (bind (student_findUnique sid)
       (fun student => match student with
                       | None => no
                       | Some s => k s
                       end)) h w = (w', r) ->
  processed w' = processed w + 1 ->
  exists student, find_student (db w) sid = Some student.
Proof.
  intros Hno Hh. unfold try_catch, bind.
  destruct (student_findUnique sid w) as [w0 [e|student]] eqn:Hs0.
  all: destruct (student_findUnique_calls _ _ _ _ Hs0) as [_ Hp0].
  - intros Hrun Hcount. apply Hh in Hrun. lia.
  - destruct student as [student|].
    + intros _ _. exists student. by eapply student_findUnique_Some.
    + destruct (no w0) as [w1 [e|u]] eqn:Hn; apply Hno in Hn.
      * intros Hrun Hcount. apply Hh in Hrun. lia.
      * intros [= <- _] Hcount. lia.
Qed.

Lemma row_error_processed (reason : string) (w0 w1 : World)
    (r1 : string + unit) :
  row_error reason w0 = (w1, r1) -> processed w1 = processed w0.
Proof. by intros [= <- _]. Qed.

Lemma attendance_row_counted_percent (row : Row) (w w' : World)
    (r : string + unit) :
  let percent := parseFloat (to_string (prop row "attendancePercent")) in
  attendance_row row w = (w', r) ->
  processed w' = processed w + 1 ->
  in_range 0 100 percent.
Proof.
  intros percent.
  unfold attendance_row, database_error, student_not_found.
  destruct (validateAttendanceRow row); [uncounted|].
  cbv zeta. fold percent. unfold try_catch, bind at 1.
  destruct (student_findUnique _ w) as [w0 [e|student]] eqn:Hs0.
  all: destruct (student_findUnique_calls _ _ _ _ Hs0) as [_ Hp0].
  { uncounted. }
  destruct student as [student|]; [|uncounted].
  unfold bind at 1.
  destruct (find_or_create_course student _ w0) as [w1 [e|c]] eqn:Hs1.
  all: destruct (find_or_create_course_calls _ _ _ _ _ Hs1) as [_ Hp1].
  { uncounted. }
  destruct (month_shape _); [|uncounted].
  destruct (isInvalid _); [uncounted|].
  destruct (_ || _) eqn:Hrange; [uncounted|].
  intros _ _. by apply range_check.
Qed.

Lemma students_row_counted_checks (teacher : string) (row : Row)
    (w w' : World) (r : string + unit) :
  students_row teacher row w = (w', r) ->
  processed w' = processed w + 1 ->
  validateStudentRow row = None
  /\ isInvalid (new_Date (prop row "dob")) = false
  /\ in_range 1 8 (parseInt (to_string (prop row "currentSemester"))).
Proof.
  unfold students_row, database_error.
  destruct (validateStudentRow row); [uncounted|].
  unfold try_catch. cbv zeta.
  destruct (isInvalid _); [uncounted|].
  destruct (_ || _) eqn:Hrange; [uncounted|].
  intros _ _. repeat split. by apply range_check.
Qed.

Lemma projects_row_counted (teacher : string) (row : Row) (w w' : World)
    (r : string + unit) :
  projects_row teacher row w = (w', r) ->
  processed w' = processed w + 1 ->
  projects (db w')
  = projects (db w)
    ++ [{| p_title := to_string (prop row "title");
           p_description := or_null (prop row "description");
           p_studentId := to_string (prop row "studentId");
           p_supervisorId := teacher;
           p_startDate := new_Date (prop row "startDate");
           p_endDate := optional_Date (prop row "endDate");
           p_status := or_default (prop row "status") "Active" |}].
Proof.
  unfold projects_row, database_error, student_not_found.
  destruct (validateProjectRow row); [uncounted|].
  cbv zeta. unfold try_catch, bind at 1.
  destruct (student_findUnique _ w) as [w0 [e|student]] eqn:Hs0.
  all: destruct (student_findUnique_calls _ _ _ _ Hs0) as [_ Hp0].
  all: pose proof (student_findUnique_db _ _ _ _ Hs0) as Hd0.
  all: unfold same_on in Hd0.
  { uncounted. }
  destruct student as [student|]; [|uncounted].
  unfold bind, project_create, client, count_processed.
  destruct (fault (db w0) _); [uncounted|].
  intros [= <- _] _. simpl. by rewrite Hd0.
Qed.

Lemma phd_row_counted (teacher : string) (row : Row) (w w' : World)
    (r : string + unit) :
  phd_row teacher row w = (w', r) ->
  processed w' = processed w + 1 ->
  phdSupervisions (db w')
  = phdSupervisions (db w)
    ++ [{| h_title := to_string (prop row "title");
           h_researchArea := to_string (prop row "researchArea");
           h_studentId := to_string (prop row "studentId");
           h_supervisorId := teacher;
           h_startDate := new_Date (prop row "startDate");
           h_expectedEnd := optional_Date (prop row "expectedEnd");
           h_status := or_default (prop row "status") "Ongoing" |}].
Proof.
  unfold phd_row, database_error, student_not_found.
  destruct (validatePhdRow row); [uncounted|].
  cbv zeta. unfold try_catch, bind at 1.
  destruct (student_findUnique _ w) as [w0 [e|student]] eqn:Hs0.
  all: destruct (student_findUnique_calls _ _ _ _ Hs0) as [_ Hp0].
  all: pose proof (student_findUnique_db _ _ _ _ Hs0) as Hd0.
  all: unfold same_on in Hd0.
  { uncounted. }
  destruct student as [student|]; [|uncounted].
  unfold bind, phdSupervision_create, client, count_processed.
  destruct (fault (db w0) _); [uncounted|].
  intros [= <- _] _. simpl. by rewrite Hd0.
Qed.

Lemma fellowships_row_counted (teacher : string) (row : Row) (w w' : World)
    (r : string + unit) :
  fellowships_row teacher row w = (w', r) ->
  processed w' = processed w + 1 ->
  fellowships (db w')
  = fellowships (db w)
    ++ [{| w_type := to_string (prop row "type");
           w_amount := parseFloat (to_string (prop row "amount"));
           w_duration := parseInt (to_string (prop row "duration"));
           w_studentId := to_string (prop row "studentId");
           w_supervisorId := teacher;
           w_startDate := new_Date (prop row "startDate");
           w_endDate := optional_Date (prop row "endDate");
           w_status := or_default (prop row "status") "Active" |}].
Proof.
  unfold fellowships_row, database_error, student_not_found.
  destruct (validateFellowshipRow row); [uncounted|].
  cbv zeta. unfold try_catch, bind at 1.
  destruct (student_findUnique _ w) as [w0 [e|student]] eqn:Hs0.
  all: destruct (student_findUnique_calls _ _ _ _ Hs0) as [_ Hp0].
  all: pose proof (student_findUnique_db _ _ _ _ Hs0) as Hd0.
  all: unfold same_on in Hd0.
  { uncounted. }
  destruct student as [student|]; [|uncounted].
  unfold bind, fellowship_create, client, count_processed.
  destruct (fault (db w0) _); [uncounted|].
  intros [= <- _] _. simpl. by rewrite Hd0.
Qed.

End Counted.

(** X10.  A students row that is counted has passed the checks and is in
    the store: looking its identifier up afterwards finds a student with
    the row's name and email, the parsed date of birth, which is valid, the
    parsed semester, which lies between 1 and 8, and as owner the previous
    owner when the student existed with one, the uploader otherwise. *)
Theorem counted_student_is_stored `{Builtins} `{Faults} (teacher : string)
    (row : Row) (w w' : World) (r : string + unit) :
  let sid := to_string (prop row "studentId") in
  let dobDate := new_Date (prop row "dob") in
  let semester := parseInt (to_string (prop row "currentSemester")) in
  students_row teacher row w = (w', r) ->
  processed w' = processed w + 1 ->
  isInvalid dobDate = false
  /\ in_range 1 8 semester
  /\ exists s : Student,
       find_student (db w') sid = Some s
       /\ studentId s = sid
       /\ name (data s) = to_string (prop row "name")
       /\ email (data s) = to_string (prop row "email")
       /\ dob (data s) = dobDate
       /\ currentSemester (data s) = semester
       /\ teacherId s = owner_after teacher (find_student (db w) sid).
Proof.
  intros sid dobDate semester Hrun Hcount.
  destruct (students_row_counted_checks _ _ _ _ _ Hrun Hcount)
    as (_ & Hdob & Hsem).
  split; [exact Hdob|]. split; [exact Hsem|].
  destruct (students_row_counted _ _ _ _ _ Hrun Hcount)
    as (w1 & w2 & fb & Hfb & Hup & ->).
  destruct (final_batch_step row _ _ _ Hfb) as [Hsame _].
  apply upsert_student_result in Hup as (s & Hs & Hid & Hd & Ht).
  exists s. simpl. rewrite Hd. repeat split; try done.
  rewrite Ht. unfold find_student. by rewrite Hsame.
Qed.

Lemma counted_student_is_stored_witness :
  exists s : Student,
    find_student
      (db (fst (@students_row Engine.builtins Engine.no_faults "T1"
                  alice_row (start store_with_orphan)))) "S1"
    = Some s
    /\ currentSemester (data s) = of_Z 3
    /\ teacherId s = Some "T1".
Proof.
  destruct (@counted_student_is_stored Engine.builtins Engine.no_faults "T1"
              alice_row (start store_with_orphan) _ _
              (surjective_pairing _))
    as (_ & _ & s & Hs & _ & _ & _ & _ & Hsem & Ht).
  - vm_compute. reflexivity.
  - exists s. split; [exact Hs|]. split.
    + rewrite Hsem. vm_compute. reflexivity.
    + rewrite Ht. vm_compute. reflexivity.
Defined.

(** X11.  What is stored by a counted row has passed the checks.  An
    attendance row: a percentage between 0 and 100.  A test-score row: a
    valid test date and a score between 0 and 100, in the record appended.
    A backlog row: an attempt count that is a number not below 1, in the
    record of its student and course.  A fee row: a valid due date, a paid
    date that is absent or valid, and due months not below 1, in the record
    appended. *)
Theorem counted_rows_passed_checks `{Builtins} `{Faults} (row : Row)
    (w w' : World) (r : string + unit) :
  processed w' = processed w + 1 ->
  (attendance_row row w = (w', r) ->
   in_range 0 100 (parseFloat (to_string (prop row "attendancePercent"))))
  /\ (testscores_row row w = (w', r) ->
      isInvalid (new_Date (prop row "testDate")) = false
      /\ in_range 0 100 (parseFloat (to_string (prop row "score")))
      /\ testScores (db w')
         = testScores (db w)
           ++ [{| t_studentId := to_string (prop row "studentId");
                  t_courseId := to_string (prop row "courseId");
                  t_testDate := new_Date (prop row "testDate");
                  t_score := parseFloat (to_string (prop row "score")) |}])
  /\ (backlogs_row row w = (w', r) ->
      not_below 1 (parseInt (to_string (prop row "attempts")))
      /\ exists b : Backlog,
           b ∈ backlogs (db w')
           /\ g_studentId b = to_string (prop row "studentId")
           /\ g_courseId b = to_string (prop row "courseId")
           /\ attempts b = parseInt (to_string (prop row "attempts"))
           /\ cleared b = parse_cleared (prop row "cleared"))
  /\ (fees_row row w = (w', r) ->
      isInvalid (new_Date (prop row "dueDate")) = false
      /\ optional_Date (prop row "paidDate") <> Some InvalidDate
      /\ not_below 1 (parseInt (to_string (prop row "dueMonths")))
      /\ feePayments (db w')
         = feePayments (db w)
           ++ [{| f_studentId := to_string (prop row "studentId");
                  f_dueDate := new_Date (prop row "dueDate");
                  f_paidDate := optional_Date (prop row "paidDate");
                  f_status := to_string (prop row "status");
                  f_dueMonths :=
                    parseInt (to_string (prop row "dueMonths")) |}]).
Proof.
  intros Hcount. split; [|split; [|split]]; intros Hrun.
  - exact (attendance_row_counted_percent _ _ _ _ Hrun Hcount).
  - exact (testscores_row_counted _ _ _ _ Hrun Hcount).
  - exact (backlogs_row_counted _ _ _ _ Hrun Hcount).
  - exact (fees_row_counted _ _ _ _ Hrun Hcount).
Qed.

Lemma counted_rows_passed_checks_witness :
  in_range 0 100 (Engine.parseFloat_literal "90")
  /\ not_below 1 (Engine.parseInt_literal "2").
Proof.
  split.
  - destruct (@counted_rows_passed_checks Engine.builtins Engine.no_faults
                march_row (start store_with_alice)
                (fst (@attendance_row Engine.builtins Engine.no_faults
                        march_row (start store_with_alice)))
                (snd (@attendance_row Engine.builtins Engine.no_faults
                        march_row (start store_with_alice))))
      as (Hatt & _).
    + vm_compute. reflexivity.
    + apply Hatt. apply surjective_pairing.
  - destruct (@counted_rows_passed_checks Engine.builtins Engine.no_faults
                fee_row (start store_with_alice)
                (fst (@fees_row Engine.builtins Engine.no_faults
                        fee_row (start store_with_alice)))
                (snd (@fees_row Engine.builtins Engine.no_faults
                        fee_row (start store_with_alice))))
      as (_ & _ & _ & Hfee).
    + vm_compute. reflexivity.
    + destruct Hfee as (_ & _ & Hmonths & _); [apply surjective_pairing|].
      exact Hmonths.
Defined.

(** X12.  A counted project, PhD or fellowship row appended exactly one
    record to its table, with the uploading teacher as supervisor, the
    row's student, and the status Active (Ongoing for a PhD) when the row
    gives none. *)
Theorem supervised_records `{Builtins} `{Faults} (teacher : string)
    (row : Row) (w w' : World) (r : string + unit) :
  processed w' = processed w + 1 ->
  (projects_row teacher row w = (w', r) ->
   projects (db w')
   = projects (db w)
     ++ [{| p_title := to_string (prop row "title");
            p_description := or_null (prop row "description");
            p_studentId := to_string (prop row "studentId");
            p_supervisorId := teacher;
            p_startDate := new_Date (prop row "startDate");
            p_endDate := optional_Date (prop row "endDate");
            p_status := or_default (prop row "status") "Active" |}])
  /\ (phd_row teacher row w = (w', r) ->
      phdSupervisions (db w')
      = phdSupervisions (db w)
        ++ [{| h_title := to_string (prop row "title");
               h_researchArea := to_string (prop row "researchArea");
               h_studentId := to_string (prop row "studentId");
               h_supervisorId := teacher;
               h_startDate := new_Date (prop row "startDate");
               h_expectedEnd := optional_Date (prop row "expectedEnd");
               h_status := or_default (prop row "status") "Ongoing" |}])
  /\ (fellowships_row teacher row w = (w', r) ->
      fellowships (db w')
      = fellowships (db w)
        ++ [{| w_type := to_string (prop row "type");
               w_amount := parseFloat (to_string (prop row "amount"));
               w_duration := parseInt (to_string (prop row "duration"));
               w_studentId := to_string (prop row "studentId");
               w_supervisorId := teacher;
               w_startDate := new_Date (prop row "startDate");
               w_endDate := optional_Date (prop row "endDate");
               w_status := or_default (prop row "status") "Active" |}]).
Proof.
  intros Hcount. split; [|split]; intros Hrun.
  - exact (projects_row_counted _ _ _ _ _ Hrun Hcount).
  - exact (phd_row_counted _ _ _ _ _ Hrun Hcount).
  - exact (fellowships_row_counted _ _ _ _ _ Hrun Hcount).
Qed.

Lemma supervised_records_witness :
  map p_supervisorId
    (projects
       (db (fst (@projects_row Engine.builtins Engine.no_faults "T1"
                   project_row (start store_with_alice)))))
  = ["T1"].
Proof.
  destruct (@supervised_records Engine.builtins Engine.no_faults "T1"
              project_row (start store_with_alice)
              (fst (@projects_row Engine.builtins Engine.no_faults "T1"
                      project_row (start store_with_alice)))
              (snd (@projects_row Engine.builtins Engine.no_faults "T1"
                      project_row (start store_with_alice))))
    as (Hproject & _).
  - vm_compute. reflexivity.
  - rewrite Hproject; [reflexivity | apply surjective_pairing].
Defined.

(** X14.  A row of any upload type but students is counted only when its
    student is in the store, and that student is still there, unchanged,
    after the row. *)
Theorem counted_row_has_its_student `{Builtins} `{Faults} (teacher : string) :
  Forall
    (fun '(validate, body) =>
       forall (row : Row) (w w' : World) (r : string + unit),
         body row w = (w', r) ->
         processed w' = processed w + 1 ->
         exists student : Student,
           find_student (db w) (to_string (prop row "studentId"))
           = Some student
           /\ find_student (db w') (to_string (prop row "studentId"))
              = Some student)
    (student_bound_types teacher).
Proof.
  assert (Hafter : forall (body : Row -> M unit) (row : Row) (w w' : World)
                          (r : string + unit) (student : Student),
             keeps same_students (body row) ->
             body row w = (w', r) ->
             find_student (db w) (to_string (prop row "studentId"))
             = Some student ->
             find_student (db w') (to_string (prop row "studentId"))
             = Some student).
  { intros body row w w' r student Hkeep Hrun Hfind.
    unfold find_student. by rewrite (Hkeep _ _ _ Hrun). }
  unfold student_bound_types.
  repeat (apply Forall_cons; split;
    [ intros row w w' r Hrun Hcount;
      assert (Hfound : exists student,
                 find_student (db w) (to_string (prop row "studentId"))
                 = Some student);
      [ revert Hrun Hcount;
        unfold attendance_row, testscores_row, backlogs_row, fees_row,
          projects_row, phd_row, fellowships_row;
        match goal with
        | |- match ?v with _ => _ end _ = _ -> _ => destruct v
        end; [uncounted|]; cbv zeta;
        apply counted_found_student;
        [ intros ? ? ?; apply row_error_processed
        | intros ? ? ? ?; apply row_error_processed ]
      | destruct Hfound as [student Hfind]; exists student;
        split; [exact Hfind|];
        eapply Hafter; [|exact Hrun|exact Hfind];
        first [ apply attendance_row_students
              | apply testscores_row_students
              | apply backlogs_row_students | apply fees_row_students
              | apply projects_row_students | apply phd_row_students
              | apply fellowships_row_students ] ]
    |]).
  by apply Forall_nil.
Qed.

Lemma counted_row_has_its_student_witness :
  exists student : Student,
    find_student store_with_alice "S1" = Some student.
Proof.
  pose proof (@counted_row_has_its_student Engine.builtins Engine.no_faults
                "T1") as Hall.
  apply Forall_inv in Hall.
  destruct (Hall march_row (start store_with_alice) _ _
              (surjective_pairing _)) as (student & Hfind & _).
  - vm_compute. reflexivity.
  - exists student. exact Hfind.
Defined.

(** ** Batch codes *)

Lemma of_chars_app (a b : list ascii) :
  of_chars (a ++ b) = of_chars a +:+ of_chars b.
Proof. induction a as [|c a IH]; simpl; [done|]. by rewrite IH. Qed.

Lemma string_length_chars (s : string) :
  String.length s = length (chars s).
Proof. induction s as [|c s IH]; simpl; [done|]. by rewrite IH. Qed.

(** X15.  The pattern of a batch code.  When a code matches, it is the
    three groups one after the other: a department of one or more capital
    letters, a year of exactly four digits and a section of one capital
    letter; and every string of that shape matches, with these groups. *)
Theorem batchId_match_groups :
  (forall code dept year section : string,
      batchId_match code = Some (dept, year, section) ->
      code = dept +:+ year +:+ section
      /\ dept <> ""
      /\ forallb is_upper (chars dept) = true
      /\ String.length year = 4%nat
      /\ forallb is_digit (chars year) = true
      /\ String.length section = 1%nat
      /\ forallb is_upper (chars section) = true)
  /\ (forall dept year section : string,
        dept <> "" ->
        forallb is_upper (chars dept) = true ->
        String.length year = 4%nat ->
        forallb is_digit (chars year) = true ->
        String.length section = 1%nat ->
        forallb is_upper (chars section) = true ->
        batchId_match (dept +:+ year +:+ section)
        = Some (dept, year, section)).
Proof.
  split.
  - intros code dept year section. unfold batchId_match.
    destruct (rev (chars code)) as [|s [|d4 [|d3 [|d2 [|d1 dept_rev]]]]]
      eqn:Hrev; try discriminate.
    destruct (_ && _) eqn:Hok; [|discriminate].
    intros [= <- <- <-].
    apply andb_prop in Hok as [Hok Hlen].
    apply andb_prop in Hok as [Hok Hdept].
    apply andb_prop in Hok as [Hsec Hdigits].
    apply (f_equal (@rev ascii)) in Hrev. rewrite rev_involutive in Hrev.
    simpl in Hrev. rewrite <- !app_assoc in Hrev. simpl in Hrev.
    repeat split.
    + rewrite <- (of_chars_chars code), Hrev, of_chars_app. reflexivity.
    + intros Hempty. destruct dept_rev as [|c l]; [discriminate|].
      apply (f_equal chars) in Hempty. rewrite chars_of_chars in Hempty.
      simpl in Hempty. by destruct (rev l).
    + rewrite chars_of_chars, forallb_forall. intros c Hin.
      apply in_rev in Hin. rewrite forallb_forall in Hdept. by apply Hdept.
    + exact Hdigits.
    + simpl. by rewrite Hsec.
  - intros dept year section Hne Hdept Hlen Hdigits Hlen1 Hsec.
    rewrite !string_length_chars in *. unfold batchId_match.
    rewrite !chars_app, !rev_app_distr.
    destruct (chars year) as [|d1 [|d2 [|d3 [|d4 [|]]]]] eqn:Hy;
      try discriminate.
    destruct (chars section) as [|c [|]] eqn:Hs; try discriminate.
    assert (E1 : of_chars (rev (rev (chars dept))) = dept)
      by (rewrite rev_involutive; apply of_chars_chars).
    assert (E2 : of_chars [d1; d2; d3; d4] = year)
      by (rewrite <- Hy; apply of_chars_chars).
    assert (E3 : of_chars [c] = section)
      by (rewrite <- Hs; apply of_chars_chars).
    simpl. simpl in Hdigits, Hsec. rewrite andb_true_r in Hsec.
    rewrite Hsec. simpl.
    assert (Hd : is_digit d1 && (is_digit d2 && (is_digit d3
                   && (is_digit d4 && true))) = true) by exact Hdigits.
    rewrite Hd. simpl.
    assert (Hup : forallb is_upper (rev (chars dept)) = true).
    { rewrite forallb_forall. intros x Hin. apply in_rev in Hin.
      rewrite forallb_forall in Hdept. by apply Hdept. }
    rewrite Hup. simpl.
    assert (Hlen0 : (length (rev (chars dept)) =? 0)%nat = false).
    { rewrite length_rev. apply Nat.eqb_neq. intros Hz.
      apply Hne. rewrite <- (of_chars_chars dept).
      by destruct (chars dept). }
    rewrite Hlen0. simpl. simpl in E2, E3. by rewrite E1, E2, E3.
Qed.

Lemma batchId_match_groups_witness :
  batchId_match "CSE2024B" = Some ("CSE", "2024", "B")
  /\ String.length "2024" = 4%nat.
Proof.
  destruct batchId_match_groups as [Hgroups Hshape].
  assert (Hmatch : batchId_match ("CSE" +:+ "2024" +:+ "B")
                   = Some ("CSE", "2024", "B")).
  { apply Hshape; [apply String.eqb_neq | ..]; reflexivity. }
  split; [exact Hmatch|].
  destruct (Hgroups _ _ _ _ Hmatch) as (_ & _ & _ & Hlen & _). exact Hlen.
Defined.

(** ** Batches made from a students row *)

Section Batches.
Context `{Builtins} `{Faults}.

Lemma upsert_student_rest (teacher sid : string) (d : StudentData) :
  keeps (same_on (fun s : Store => (batches s, courses s)))
    (upsert_student teacher sid d).
Proof.
  unfold upsert_student, student_findUnique, student_update, student_create.
  keeps_calls.
Qed.

Lemma upsert_student_accepted (teacher sid : string) (d : StudentData)
    (w : World) :
  Reliable -> exists w', upsert_student teacher sid d w = (w', inr tt).
Proof.
  intros Hrel. unfold upsert_student, bind, student_findUnique.
  rewrite client_accepted by apply Hrel. cbn [fst snd].
  destruct (find_student _ _) as [existing|];
    [destruct (no_teacher existing)|];
    unfold student_update, student_create;
    rewrite client_accepted by apply Hrel; by eexists.
Qed.

(** A students row with sound fields on a reliable store, after its batch
    step. *)
Lemma students_row_after_batch (teacher : string) (row : Row)
    (w w1 : World) (finalBatchId : option string) :
  Reliable ->
  validateStudentRow row = None ->
  isInvalid (new_Date (prop row "dob")) = false ->
  isNaN (parseInt (to_string (prop row "currentSemester")))
    || number_lt (parseInt (to_string (prop row "currentSemester"))) (of_Z 1)
    || number_gt (parseInt (to_string (prop row "currentSemester"))) (of_Z 8)
  = false ->
  final_batch row w = (w1, inr finalBatchId) ->
  exists (w' : World) (s : Student),
    students_row teacher row w = (w', inr tt)
    /\ processed w' = processed w1 + 1
    /\ errors w' = errors w1
    /\ batches (db w') = batches (db w1)
    /\ courses (db w') = courses (db w1)
    /\ find_student (db w') (to_string (prop row "studentId")) = Some s
    /\ batchId (data s) = finalBatchId.
Proof.
  intros Hrel Hvalid Hdob Hsem Hfb.
  unfold students_row. rewrite Hvalid. cbv zeta. rewrite Hdob, Hsem.
  unfold try_catch, bind at 1. rewrite Hfb. unfold bind at 1.
  destruct (upsert_student_accepted teacher
              (to_string (prop row "studentId"))
              (student_data row (new_Date (prop row "dob"))
                 (parseInt (to_string (prop row "currentSemester")))
                 finalBatchId) w1 Hrel) as [w2 Hup].
  rewrite Hup.
  destruct (upsert_student_calls _ _ _ _ _ _ Hup) as [He Hp].
  pose proof (upsert_student_rest _ _ _ _ _ _ Hup) as Hrest.
  unfold same_on in Hrest. injection Hrest as Hb Hc.
  apply upsert_student_result in Hup as (s & Hs & _ & Hd & _).
  eexists _, s. split; [reflexivity|]. simpl.
  repeat split; try done; try lia. by rewrite Hd.
Qed.

Lemma find_or_create_batch_known (code : string) (w : World) (b : Batch) :
  Reliable -> find_batch (db w) code = Some b ->
  find_or_create_batch code w
  = (called w (BatchFindUnique code) (db w), inr (Some code)).
Proof.
  intros Hrel Hb. unfold find_or_create_batch, bind, batch_findUnique.
  rewrite client_accepted by apply Hrel. cbn [fst snd]. by rewrite Hb.
Qed.

Lemma find_or_create_batch_unmatched (code : string) (w : World) :
  Reliable -> find_batch (db w) code = None -> batchId_match code = None ->
  find_or_create_batch code w
  = (called w (BatchFindUnique code) (db w), inr None).
Proof.
  intros Hrel Hb Hm. unfold find_or_create_batch, bind, batch_findUnique.
  rewrite client_accepted by apply Hrel. cbn [fst snd]. by rewrite Hb, Hm.
Qed.

Lemma find_or_create_batch_new (code dept year section : string)
    (w : World) :
  Reliable -> find_batch (db w) code = None ->
  batchId_match code = Some (dept, year, section) ->
  exists w' : World,
    find_or_create_batch code w = (w', inr (Some code))
    /\ errors w' = errors w /\ processed w' = processed w
    /\ batches (db w')
       = batches (db w) ++ [new_batch code dept year section]
    /\ courses (db w')
       = match find_course (db w) (dept +:+ "_GENERAL") with
         | Some _ => courses (db w)
         | None => courses (db w) ++ [general_course dept]
         end.
Proof.
  intros Hrel Hb Hm. unfold find_or_create_batch, bind, batch_findUnique.
  rewrite client_accepted by apply Hrel. cbn [fst snd]. rewrite Hb, Hm.
  unfold courseSubject_findUnique. rewrite client_accepted by apply Hrel.
  cbn [fst snd db called].
  destruct (find_course (db w) (dept +:+ "_GENERAL")) as [c|].
  - unfold batch_create, ret. rewrite client_accepted by apply Hrel.
    eexists. split; [reflexivity|]. by repeat split.
  - unfold courseSubject_create, batch_create, ret.
    rewrite !client_accepted by apply Hrel.
    eexists. split; [reflexivity|]. by repeat split.
Qed.

End Batches.

(** X16.  Batches made on the way.  On a store that accepts every call, a
    students row with sound fields and a batch code the store does not
    know is processed without an error whatever the code: when the code
    matches the pattern, the batch is appended with the code's department,
    parsed year and section, the department's general course is there
    afterwards, created if it was missing, and the student refers to the
    batch; when the code does not match, no batch and no course are
    created and the student is stored with no batch. *)
Theorem students_row_unknown_batch `{Builtins} `{Faults} (teacher : string)
    (row : Row) (w : World) (code : string) :
  Reliable ->
  validateStudentRow row = None ->
  isInvalid (new_Date (prop row "dob")) = false ->
  isNaN (parseInt (to_string (prop row "currentSemester")))
    || number_lt (parseInt (to_string (prop row "currentSemester"))) (of_Z 1)
    || number_gt (parseInt (to_string (prop row "currentSemester"))) (of_Z 8)
  = false ->
  prop row "batchId" = str code -> code <> "" ->
  find_batch (db w) code = None ->
  exists (w' : World) (s : Student),
    students_row teacher row w = (w', inr tt)
    /\ processed w' = processed w + 1
    /\ errors w' = errors w
    /\ find_student (db w') (to_string (prop row "studentId")) = Some s
    /\ match batchId_match code with
       | Some (dept, year, section) =>
           batches (db w')
           = batches (db w) ++ [new_batch code dept year section]
           /\ courses (db w')
              = match find_course (db w) (dept +:+ "_GENERAL") with
                | Some _ => courses (db w)
                | None => courses (db w) ++ [general_course dept]
                end
           /\ batchId (data s) = Some code
       | None =>
           batches (db w') = batches (db w)
           /\ courses (db w') = courses (db w)
           /\ batchId (data s) = None
       end.
Proof.
  intros Hrel Hvalid Hdob Hsem Hcode Hne Hb.
  assert (Htruthy : truthy (prop row "batchId") = true).
  { rewrite Hcode. simpl. by destruct (String.eqb_spec code ""). }
  destruct (batchId_match code) as [[[dept year] section]|] eqn:Hm.
  - destruct (find_or_create_batch_new code dept year section w Hrel Hb Hm)
      as (w1 & Hrun & He & Hp & Hbatches & Hcourses).
    assert (Hfb : final_batch row w = (w1, inr (Some code))).
    { unfold final_batch, try_catch. rewrite Htruthy, Hcode. simpl.
      by rewrite Hrun. }
    destruct (students_row_after_batch teacher row w w1 _ Hrel Hvalid Hdob
                Hsem Hfb) as (w' & s & Hrow & Hp' & He' & Hb' & Hc' & Hs & Hd).
    exists w', s. repeat split; (congruence || lia).
  - assert (Hfb : final_batch row w
                  = (called w (BatchFindUnique code) (db w), inr None)).
    { unfold final_batch, try_catch. rewrite Htruthy, Hcode. simpl.
      by rewrite (find_or_create_batch_unmatched code w Hrel Hb Hm). }
    destruct (students_row_after_batch teacher row w _ _ Hrel Hvalid Hdob
                Hsem Hfb) as (w' & s & Hrow & Hp' & He' & Hb' & Hc' & Hs & Hd).
    exists w', s. by repeat split.
Qed.

Lemma students_row_unknown_batch_witness :
  exists (w' : World) (s : Student),
    @students_row Engine.builtins Engine.no_faults "T1" alice_row
      (start empty_store) = (w', inr tt)
    /\ batches (db w')
       = [{| b_batchId := "CSE2024B"; b_batchNo := "B";
             b_courseId := "CSE_GENERAL"; b_year := of_Z 2024;
             b_department := "CSE" |}]
    /\ courses (db w') = [general_course "CSE"]
    /\ batchId (data s) = Some "CSE2024B".
Proof.
  destruct (@students_row_unknown_batch Engine.builtins Engine.no_faults "T1"
              alice_row (start empty_store) "CSE2024B" no_faults_reliable)
    as (w' & s & Hrun & _ & _ & _ & Hbatch);
    try (vm_compute; reflexivity).
  - apply String.eqb_neq. reflexivity.
  - exists w', s. split; [exact Hrun|].
    change (batchId_match "CSE2024B") with (Some ("CSE", "2024", "B"))
      in Hbatch.
    destruct Hbatch as (Hb & Hc & Hd). rewrite Hb, Hc. by repeat split.
Defined.

(** ** Course codes and batch codes stay unique *)

#[global] Instance keys_stay_unique_preorder : PreOrder keys_stay_unique.
Proof.
  split.
  - intros w. by split.
  - intros w1 w2 w3 [Hc Hb] [Hc' Hb']. split; auto.
Qed.

Lemma find_course_None (st : Store) (cid : string) :
  find_course st cid = None -> cid ∉ map c_courseId (courses st).
Proof.
  unfold find_course. intros Hf Hin.
  apply list_elem_of_fmap in Hin as (x & -> & Hx).
  apply list_elem_of_In in Hx.
  pose proof (find_none _ _ Hf x Hx) as Hne. simpl in Hne.
  by rewrite String.eqb_refl in Hne.
Qed.

Lemma find_batch_None (st : Store) (code : string) :
  find_batch st code = None -> code ∉ map b_batchId (batches st).
Proof.
  unfold find_batch. intros Hf Hin.
  apply list_elem_of_fmap in Hin as (x & -> & Hx).
  apply list_elem_of_In in Hx.
  pose proof (find_none _ _ Hf x Hx) as Hne. simpl in Hne.
  by rewrite String.eqb_refl in Hne.
Qed.

Lemma NoDup_snoc_key {A : Type} (key : A -> string) (l : list A) (x : A) :
  key x ∉ map key l -> NoDup (map key l) -> NoDup (map key (l ++ [x])).
Proof.
  intros Hnew Hnd. rewrite map_app. simpl. apply NoDup_app.
  split; [done|]. split; [|apply NoDup_singleton].
  intros y Hy Hx. by apply list_elem_of_singleton in Hx as ->.
Qed.

Section Unique.
Context `{Builtins} `{Faults}.

Lemma find_or_create_course_unique (student : Student) (cid : string) :
  keeps keys_stay_unique (find_or_create_course student cid).
Proof.
  intros w w' r.
  unfold find_or_create_course, bind, courseSubject_findUnique,
    courseSubject_create, client.
  destruct (fault (db w) (CourseFindUnique cid)).
  { intros [= <- _]. by split. }
  destruct (find_course (db w) cid) as [c|] eqn:Hc; simpl.
  { intros [= <- _]. by split. }
  destruct (fault (db w) _); intros [= <- _]; simpl; [by split|].
  split; [|done]. apply NoDup_snoc_key. simpl. by apply find_course_None.
Qed.

Lemma find_or_create_batch_unique (code : string) :
  keeps keys_stay_unique (find_or_create_batch code).
Proof.
  intros w w' r.
  unfold find_or_create_batch, bind, batch_findUnique, batch_create,
    courseSubject_findUnique, courseSubject_create, client, ret.
  destruct (fault (db w) (BatchFindUnique code)).
  { intros [= <- _]. by split. }
  destruct (find_batch (db w) code) as [b|] eqn:Hb; simpl.
  { intros [= <- _]. by split. }
  destruct (batchId_match code) as [[[dept year] section]|]; simpl.
  2: { intros [= <- _]. by split. }
  destruct (fault (db w) (CourseFindUnique _)).
  { intros [= <- _]. by split. }
  destruct (find_course (db w) (dept +:+ "_GENERAL")) as [c|] eqn:Hc; simpl.
  - destruct (fault (db w) (BatchCreate _)); intros [= <- _]; simpl;
      [by split|].
    split; [done|]. apply NoDup_snoc_key. simpl. by apply find_batch_None.
  - destruct (fault (db w) (CourseCreate _)); simpl.
    { intros [= <- _]. by split. }
    destruct (fault _ (BatchCreate _)); intros [= <- _]; simpl.
    + split; [|done]. apply NoDup_snoc_key. simpl. by apply find_course_None.
    + split.
      * apply NoDup_snoc_key. simpl. by apply find_course_None.
      * apply NoDup_snoc_key. simpl. by apply find_batch_None.
Qed.

End Unique.

Ltac unique_side := intros; split; intros Hnd; exact Hnd.

Ltac unique_step :=
  first
    [ apply find_or_create_course_unique
    | apply find_or_create_batch_unique
    | apply keeps_ret; solve [typeclasses eauto]
    | apply keeps_row_error; unique_side
    | apply keeps_count; unique_side
    | apply keeps_bind; [typeclasses eauto | | intros ?]
    | apply keeps_try_catch; [typeclasses eauto | | intros ?]
    | apply keeps_client; [unique_side | unique_side]
    | match goal with
      | |- keeps _ (match ?x with _ => _ end) => destruct x
      end ].

Ltac unique_block := cbv zeta; repeat (unique_step; cbv zeta).

Lemma row_handler_unique `{Builtins} `{Faults} (teacher type : string)
    (body : Row -> M unit) (row : Row) :
  row_handler teacher type = Some body ->
  keeps keys_stay_unique (body row).
Proof.
  unfold row_handler.
  repeat match goal with
         | |- (if ?b then _ else _) = _ -> _ => destruct b
         end; intros [= <-];
    unfold students_row, attendance_row, testscores_row, backlogs_row,
      fees_row, projects_row, phd_row, fellowships_row, final_batch,
      upsert_student, student_not_found, database_error,
      student_findUnique, student_update, student_create,
      attendance_findFirst, attendance_update, attendance_create,
      testScore_create, backlog_findFirst, backlog_update, backlog_create,
      feePayment_create, project_create, phdSupervision_create,
      fellowship_create;
    unique_block.
Qed.

(** X17.  Course codes and batch codes stay unique.  Whatever is uploaded
    and whatever the store answers, when no two courses of the store share
    a code and no two batches share a code before the request, none do
    after it: a course or a batch is only ever created after a lookup of
    its code found nothing. *)
Theorem uploads_keep_codes_unique `{Builtins} `{Faults}
    (uid file type : option string) (store : Store) (resp : Response)
    (w : World) :
  POST uid file type store = (resp, w) ->
  NoDup (map c_courseId (courses store)) ->
  NoDup (map b_batchId (batches store)) ->
  NoDup (map c_courseId (courses (db w)))
  /\ NoDup (map b_batchId (batches (db w))).
Proof.
  intros Hpost Hc Hb.
  assert (Hstep : keys_stay_unique (start store) w).
  { unfold POST in Hpost.
    destruct uid as [teacher|]; [|by injection Hpost as _ <-].
    destruct (String.eqb teacher ""); [by injection Hpost as _ <-|].
    destruct file as [csvText|]; [|by injection Hpost as _ <-].
    destruct type as [kind|]; [|by injection Hpost as _ <-].
    destruct (String.eqb kind ""); [by injection Hpost as _ <-|].
    destruct (length (parseCSV csvText) =? 0)%nat;
      [by injection Hpost as _ <-|].
    destruct (row_handler teacher kind) as [body|] eqn:Hbody;
      [|by injection Hpost as _ <-].
    destruct (for_of _ body (start store)) as [w1 r] eqn:Hloop.
    assert (keys_stay_unique (start store) w1).
    { eapply (keeps_for_of keys_stay_unique); [|exact Hloop].
      intros row. by eapply row_handler_unique. }
    destruct r; by injection Hpost as _ <-. }
  destruct Hstep as [Hc' Hb']. split; [by apply Hc' | by apply Hb'].
Qed.

Lemma uploads_keep_codes_unique_witness :
  NoDup
    (map c_courseId
       (courses (db (snd (upload "students" one_student_csv empty_store)))))
  /\ NoDup
       (map b_batchId
          (batches (db (snd (upload "students" one_student_csv
                              empty_store))))).
Proof.
  apply (@uploads_keep_codes_unique Engine.builtins Engine.no_faults
           (Some "T1") (Some one_student_csv) (Some "students") empty_store
           (fst (upload "students" one_student_csv empty_store))).
  - apply surjective_pairing.
  - apply NoDup_nil_2.
  - apply NoDup_nil_2.
Defined.

(** ** The course of a row that is then rejected *)

Section Rejected.
Context `{Builtins} `{Faults}.

(** Whatever follows the course check, if it leaves the courses alone the
    placeholder is what the row adds to them. *)
Lemma course_then_rest (sid cid : string) (student : Student)
    (k : CourseSubject -> M unit) (no : M unit) (w w' : World)
    (r : string + unit) :
  Reliable ->
  find_student (db w) sid = Some student ->
  find_course (db w) cid = None ->
  (forall c, keeps (same_on courses) (k c)) ->
  try_catch
    (bind (student_findUnique sid)
       (fun found => match found with
                     | None => no
                     | Some s => bind (find_or_create_course s cid) k
                     end))
    database_error w = (w', r) ->
  courses (db w') = courses (db w) ++ [placeholder_course student cid].
Proof.
  intros Hrel Hstudent Hcourse Hk.
  unfold try_catch, bind at 1, student_findUnique.
  rewrite client_accepted by apply Hrel. cbn [fst snd]. rewrite Hstudent.
  unfold bind at 1.
  destruct (find_or_create_course_run student cid
              (called w (StudentFindUnique sid) (db w)) Hrel)
    as (w1 & c & -> & Hdb & _).
  simpl in Hdb.
  assert (Hnew : courses (db w1)
                 = courses (db w) ++ [placeholder_course student cid]).
  { rewrite Hdb. by apply courses_with_new_course. }
  destruct (k c w1) as [w2 [e|u]] eqn:Hrest;
    pose proof (Hk c _ _ _ Hrest) as Hsame; unfold same_on in Hsame.
  - intros [= <- _]. simpl. congruence.
  - intros [= <- _]. congruence.
Qed.

(** X18.  The course comes before the checks.  On a store that accepts
    every call, an attendance, test-score or backlog row that passes its
    validator, names a student the store knows and a course it does not,
    leaves the placeholder course in the store however the row ends:
    also when it is then rejected for its month, date, percentage, score or
    attempt count. *)
Theorem course_is_created_before_the_checks (row : Row) (w w' : World)
    (r : string + unit) (student : Student) :
  Reliable ->
  find_student (db w) (to_string (prop row "studentId")) = Some student ->
  find_course (db w) (to_string (prop row "courseId")) = None ->
  (validateAttendanceRow row = None -> attendance_row row w = (w', r) ->
   courses (db w')
   = courses (db w)
     ++ [placeholder_course student (to_string (prop row "courseId"))])
  /\ (validateTestScoreRow row = None -> testscores_row row w = (w', r) ->
      courses (db w')
      = courses (db w)
        ++ [placeholder_course student (to_string (prop row "courseId"))])
  /\ (validateBacklogRow row = None -> backlogs_row row w = (w', r) ->
      courses (db w')
      = courses (db w)
        ++ [placeholder_course student (to_string (prop row "courseId"))]).
Proof.
  intros Hrel Hstudent Hcourse.
  split; [|split]; intros Hvalid;
    unfold attendance_row, testscores_row, backlogs_row;
    rewrite Hvalid; cbv zeta;
    apply (course_then_rest _ _ student); try done;
    intros c;
    unfold student_not_found, attendance_findFirst, attendance_update,
      attendance_create, testScore_create, backlog_findFirst,
      backlog_update, backlog_create;
    keeps_calls.
Qed.

End Rejected.

Lemma course_is_created_before_the_checks_witness :
  @attendance_row Engine.builtins Engine.no_faults over_row
    (start store_with_alice)
  = ({| db := set_courses store_with_alice [placeholder_course alice "C1"];
        trace := [StudentFindUnique "S1"; CourseFindUnique "C1";
                  CourseCreate (placeholder_course alice "C1")];
        errors := ["Row 1: Invalid attendance percentage: 150"];
        processed := 0 |}, inr tt)
  /\ courses
       (db (fst (@attendance_row Engine.builtins Engine.no_faults over_row
                   (start store_with_alice))))
     = [placeholder_course alice "C1"].
Proof.
  split; [vm_compute; reflexivity|].
  destruct (@course_is_created_before_the_checks Engine.builtins
              Engine.no_faults over_row (start store_with_alice)
              (fst (@attendance_row Engine.builtins Engine.no_faults over_row
                      (start store_with_alice)))
              (snd (@attendance_row Engine.builtins Engine.no_faults over_row
                      (start store_with_alice)))
              alice no_faults_reliable)
    as (Hatt & _);
    [vm_compute; reflexivity | vm_compute; reflexivity |].
  rewrite Hatt; [reflexivity | vm_compute; reflexivity
                | apply surjective_pairing].
Defined.

(** ** The same row twice *)

Lemma fresh_above (ids : list nat) (x : nat) :
  x ∈ ids -> (x < fresh ids)%nat.
Proof.
  unfold fresh. induction ids as [|y ids IH]; simpl; intros Hin.
  - by apply elem_of_nil in Hin.
  - apply elem_of_cons in Hin as [->|Hin]; [lia|].
    specialize (IH Hin). lia.
Qed.

Lemma find_snoc {A : Type} (p : A -> bool) (l : list A) (x : A) :
  List.find p l = None -> p x = true -> List.find p (l ++ [x]) = Some x.
Proof.
  intros Hnone Hx. induction l as [|y l IH]; simpl in *; [by rewrite Hx|].
  destruct (p y); [discriminate | by apply IH].
Qed.

Lemma map_id_on {A : Type} (f : A -> A) (l : list A) :
  (forall x, x ∈ l -> f x = x) -> map f l = l.
Proof.
  intros Hf. induction l as [|x l IH]; simpl; [done|].
  rewrite Hf by apply list_elem_of_here.
  rewrite IH; [done|]. intros y Hy. apply Hf. by apply list_elem_of_further.
Qed.

Lemma store_beside_attendance (a b : Store) :
  beside_attendance a = beside_attendance b ->
  courses a = courses b -> attendances a = attendances b -> a = b.
Proof.
  destruct a, b. unfold beside_attendance. simpl.
  intros [= -> -> -> -> -> -> -> ->] -> ->. reflexivity.
Qed.

Lemma store_beside_backlogs (a b : Store) :
  beside_backlogs a = beside_backlogs b ->
  courses a = courses b -> backlogs a = backlogs b -> a = b.
Proof.
  destruct a, b. unfold beside_backlogs. simpl.
  intros [= -> -> -> -> -> -> -> ->] -> ->. reflexivity.
Qed.

Lemma with_course_again (st st1 : Store) (student : Student)
    (cid : string) :
  courses st1 = courses (with_course st student cid) ->
  with_course st1 student cid = st1.
Proof.
  intros Hc. destruct (find_course_with_course st student cid) as (c & Hf & _).
  unfold with_course. unfold find_course in *. by rewrite Hc, Hf.
Qed.

Lemma attendance_written_twice (l : list Attendance) (sid cid : string)
    (d : Date) (p : number) :
  let key := fun x => String.eqb (a_studentId x) sid
                      && String.eqb (a_courseId x) cid
                      && bool_decide (a_month x = d) in
  let once :=
    match List.find key l with
    | Some existing => map (update_attendance (attendanceId existing) p) l
    | None => l ++ [{| attendanceId := fresh (map attendanceId l);
                       a_studentId := sid; a_courseId := cid;
                       a_month := d; attendancePercent := p |}]
    end in
  match List.find key once with
  | Some existing => map (update_attendance (attendanceId existing) p) once
  | None => once ++ [{| attendanceId := fresh (map attendanceId once);
                        a_studentId := sid; a_courseId := cid;
                        a_month := d; attendancePercent := p |}]
  end = once.
Proof.
  intros key once. unfold once.
  destruct (List.find key l) as [existing|] eqn:Hfind.
  - rewrite find_fmap_keep, Hfind.
    2: { intros x. unfold update_attendance.
         by destruct (attendanceId x =? attendanceId existing)%nat. }
    simpl. unfold update_attendance at 2. rewrite Nat.eqb_refl. simpl.
    rewrite map_map. apply map_ext. intros x. unfold update_attendance.
    destruct (attendanceId x =? attendanceId existing)%nat eqn:Hx; simpl;
      by rewrite Hx.
  - rewrite (find_snoc _ _ _ Hfind).
    2: { unfold key. simpl. rewrite !String.eqb_refl.
         by rewrite bool_decide_eq_true_2. }
    simpl. rewrite map_app. simpl. unfold update_attendance at 2.
    simpl. rewrite Nat.eqb_refl. f_equal.
    apply map_id_on. intros x Hx. unfold update_attendance.
    destruct (Nat.eqb_spec (attendanceId x)
                (fresh (map attendanceId l))) as [Heq|]; [|done].
    pose proof (fresh_above (map attendanceId l) (attendanceId x)
                  (list_elem_of_fmap_2 attendanceId _ _ Hx)) as Hlt.
    lia.
Qed.

Lemma backlog_written_twice (l : list Backlog) (sid cid : string)
    (n : number) (c : bool) :
  let key := fun x => String.eqb (g_studentId x) sid
                      && String.eqb (g_courseId x) cid in
  let once :=
    match List.find key l with
    | Some existing => map (update_backlog (backlogId existing) n c) l
    | None => l ++ [{| backlogId := fresh (map backlogId l);
                       g_studentId := sid; g_courseId := cid;
                       attempts := n; cleared := c |}]
    end in
  match List.find key once with
  | Some existing => map (update_backlog (backlogId existing) n c) once
  | None => once ++ [{| backlogId := fresh (map backlogId once);
                        g_studentId := sid; g_courseId := cid;
                        attempts := n; cleared := c |}]
  end = once.
Proof.
  intros key once. unfold once.
  destruct (List.find key l) as [existing|] eqn:Hfind.
  - rewrite find_fmap_keep, Hfind.
    2: { intros x. unfold update_backlog.
         by destruct (backlogId x =? backlogId existing)%nat. }
    simpl. unfold update_backlog at 2. rewrite Nat.eqb_refl. simpl.
    rewrite map_map. apply map_ext. intros x. unfold update_backlog.
    destruct (backlogId x =? backlogId existing)%nat eqn:Hx; simpl;
      by rewrite Hx.
  - rewrite (find_snoc _ _ _ Hfind).
    2: { unfold key. simpl. by rewrite !String.eqb_refl. }
    simpl. rewrite map_app. simpl. unfold update_backlog at 2.
    simpl. rewrite Nat.eqb_refl. f_equal.
    apply map_id_on. intros x Hx. unfold update_backlog.
    destruct (Nat.eqb_spec (backlogId x) (fresh (map backlogId l)))
      as [Heq|]; [|done].
    pose proof (fresh_above (map backlogId l) (backlogId x)
                  (list_elem_of_fmap_2 backlogId _ _ Hx)) as Hlt.
    lia.
Qed.

(** X19.  The same row twice.  On a store that accepts every call, an
    attendance row or a backlog row with sound fields that is run a second
    time right after the first is counted again and leaves the store
    exactly as the first run left it: the second run finds the record of
    the first and writes the same values into it. *)
Theorem same_row_twice `{Builtins} `{Faults} (row : Row) (w : World)
    (student : Student) :
  Reliable ->
  find_student (db w) (to_string (prop row "studentId")) = Some student ->
  (validateAttendanceRow row = None ->
   month_shape (to_string (prop row "month")) = true ->
   isInvalid (month_date (to_string (prop row "month"))) = false ->
   isNaN (parseFloat (to_string (prop row "attendancePercent")))
     || number_lt (parseFloat (to_string (prop row "attendancePercent")))
          (of_Z 0)
     || number_gt (parseFloat (to_string (prop row "attendancePercent")))
          (of_Z 100)
   = false ->
   exists w1 w2 : World,
     attendance_row row w = (w1, inr tt)
     /\ attendance_row row w1 = (w2, inr tt)
     /\ db w2 = db w1
     /\ processed w2 = processed w + 2)
  /\ (validateBacklogRow row = None ->
      isNaN (parseInt (to_string (prop row "attempts")))
        || number_lt (parseInt (to_string (prop row "attempts"))) (of_Z 1)
      = false ->
      exists w1 w2 : World,
        backlogs_row row w = (w1, inr tt)
        /\ backlogs_row row w1 = (w2, inr tt)
        /\ db w2 = db w1
        /\ processed w2 = processed w + 2).
Proof.
  intros Hrel Hstudent. split.
  - intros Hvalid Hshape Hdate Hpercent.
    destruct (attendance_row_run row w student Hrel Hvalid Hstudent Hshape
                Hdate Hpercent) as (w1 & Hrun1 & Hp1 & _ & Hc1 & Ha1 & _).
    assert (Hstudent1 : find_student (db w1)
                          (to_string (prop row "studentId")) = Some student).
    { unfold find_student.
      by rewrite (attendance_row_students row _ _ _ Hrun1). }
    destruct (attendance_row_run row w1 student Hrel Hvalid Hstudent1 Hshape
                Hdate Hpercent) as (w2 & Hrun2 & Hp2 & _ & Hc2 & Ha2 & _).
    exists w1, w2. repeat split; try done; [|lia].
    apply store_beside_attendance.
    + exact (attendance_row_frame row w1 w2 _ Hrun2).
    + by rewrite Hc2, (with_course_again _ _ _ _ Hc1).
    + rewrite Ha2. unfold find_attendance. rewrite Ha1.
      apply attendance_written_twice.
  - intros Hvalid Hn.
    destruct (backlogs_row_run row w student Hrel Hvalid Hstudent Hn)
      as (w1 & Hrun1 & Hp1 & _ & Hc1 & Hb1).
    assert (Hstudent1 : find_student (db w1)
                          (to_string (prop row "studentId")) = Some student).
    { unfold find_student.
      by rewrite (backlogs_row_students row _ _ _ Hrun1). }
    destruct (backlogs_row_run row w1 student Hrel Hvalid Hstudent1 Hn)
      as (w2 & Hrun2 & Hp2 & _ & Hc2 & Hb2).
    exists w1, w2. repeat split; try done; [|lia].
    apply store_beside_backlogs.
    + exact (backlogs_row_frame row w1 w2 _ Hrun2).
    + by rewrite Hc2, (with_course_again _ _ _ _ Hc1).
    + rewrite Hb2. unfold find_backlog. rewrite Hb1.
      apply backlog_written_twice.
Qed.

Lemma same_row_twice_witness :
  (exists w1 w2 : World,
      @attendance_row Engine.builtins Engine.no_faults march_row
        (start store_with_alice) = (w1, inr tt)
      /\ @attendance_row Engine.builtins Engine.no_faults march_row w1
         = (w2, inr tt)
      /\ db w2 = db w1)
  /\ exists w1 w2 : World,
       @backlogs_row Engine.builtins Engine.no_faults backlog_row
         (start store_with_alice) = (w1, inr tt)
       /\ @backlogs_row Engine.builtins Engine.no_faults backlog_row w1
          = (w2, inr tt)
       /\ db w2 = db w1.
Proof.
  destruct (@same_row_twice Engine.builtins Engine.no_faults march_row
              (start store_with_alice) alice no_faults_reliable)
    as [Hatt _]; [vm_compute; reflexivity|].
  destruct (@same_row_twice Engine.builtins Engine.no_faults backlog_row
              (start store_with_alice) alice no_faults_reliable)
    as [_ Hback]; [vm_compute; reflexivity|].
  split.
  - destruct Hatt as (w1 & w2 & H1 & H2 & Hdb & _);
      [vm_compute; reflexivity ..|].
    by exists w1, w2.
  - destruct Hback as (w1 & w2 & H1 & H2 & Hdb & _);
      [vm_compute; reflexivity ..|].
    by exists w1, w2.
Defined.

(** ** Students a file does not name *)

#[global] Instance others_kept_preorder (ids : list string) :
  PreOrder (others_kept ids).
Proof.
  split.
  - by intros w i s.
  - intros w1 w2 w3 H12 H23 i s Hs Hid. apply H23; [|done]. by apply H12.
Qed.

Lemma keeps_for_of_in {A : Type} (R : World -> World -> Prop)
    `{!PreOrder R} (rows : list A) (body : A -> M unit) :
  (forall row, row ∈ rows -> keeps R (body row)) ->
  keeps R (for_of rows body).
Proof.
  induction rows as [|row more IH]; intros Hbody; simpl.
  - by apply keeps_ret.
  - apply keeps_bind; [done | apply Hbody, list_elem_of_here |].
    intros _. apply IH. intros r Hr. by apply Hbody, list_elem_of_further.
Qed.

Section Others.
Context `{Builtins} `{Faults}.

Lemma same_students_others (ids : list string) (w w' : World) :
  same_students w w' -> others_kept ids w w'.
Proof. unfold same_students. intros Hsame i s Hs _. by rewrite Hsame. Qed.

Lemma upsert_student_others (teacher sid : string) (d : StudentData)
    (ids : list string) :
  sid ∈ ids -> keeps (others_kept ids) (upsert_student teacher sid d).
Proof.
  intros Hin.
  assert (Hupd : forall (w : World) t i s,
             students (db w) !! i = Some s -> studentId s ∉ ids ->
             map (update_student sid d t) (students (db w)) !! i = Some s).
  { intros w t i s Hs Hid. rewrite list_lookup_fmap, Hs. simpl.
    unfold update_student.
    destruct (String.eqb_spec (studentId s) sid) as [Heq|]; [|done].
    exfalso. apply Hid. by rewrite Heq. }
  unfold upsert_student, student_findUnique, student_update, student_create.
  apply keeps_bind; [typeclasses eauto | |].
  { apply keeps_client; by intros w i s. }
  intros [existing|].
  - destruct (no_teacher existing);
      (apply keeps_client; [by intros w i s|]);
      intros w i s Hs Hid; simpl; by apply Hupd.
  - apply keeps_client; [by intros w i s|].
    intros w i s Hs Hid. simpl. by apply lookup_app_l_Some.
Qed.

Lemma students_row_others (teacher : string) (row : Row)
    (ids : list string) :
  to_string (prop row "studentId") ∈ ids ->
  keeps (others_kept ids) (students_row teacher row).
Proof.
  intros Hin. unfold students_row, database_error.
  destruct (validateStudentRow row).
  { apply keeps_row_error. by intros w e ? ?. }
  cbv zeta. apply keeps_try_catch; [typeclasses eauto | |].
  2: { intros e. apply keeps_row_error. by intros w e' ? ?. }
  destruct (isInvalid _). { apply keeps_row_error. by intros w e ? ?. }
  destruct (_ || _). { apply keeps_row_error. by intros w e ? ?. }
  apply keeps_bind; [typeclasses eauto | |].
  { eapply keeps_weaken; [apply same_students_others|].
    apply final_batch_students. }
  intros finalBatchId.
  apply keeps_bind;
    [typeclasses eauto | by apply upsert_student_others |].
  intros _. apply keeps_count. by intros w n ? ?.
Qed.

Lemma row_handler_others (teacher type : string) (body : Row -> M unit)
    (row : Row) (ids : list string) :
  row_handler teacher type = Some body ->
  to_string (prop row "studentId") ∈ ids ->
  keeps (others_kept ids) (body row).
Proof.
  unfold row_handler.
  repeat match goal with
         | |- (if ?b then _ else _) = _ -> _ => destruct b
         end; intros [= <-] Hin;
    first [ by apply students_row_others
          | eapply keeps_weaken; [apply same_students_others|];
            first [ apply attendance_row_students
                  | apply testscores_row_students
                  | apply backlogs_row_students
                  | apply fees_row_students
                  | apply projects_row_students
                  | apply phd_row_students
                  | apply fellowships_row_students ] ].
Qed.

End Others.

(** X20.  Students a file does not name.  Whatever the upload type and
    whatever the store answers, a student whose identifier is in no row of
    the parsed file is, after the request, at the same place in the student
    table with every column as before. *)
Theorem unnamed_students_are_untouched `{Builtins} `{Faults}
    (uid type : option string) (csvText : string) (store : Store)
    (resp : Response) (w : World) (i : nat) (s : Student) :
  POST uid (Some csvText) type store = (resp, w) ->
  students store !! i = Some s ->
  studentId s ∉ named_students (parseCSV csvText) ->
  students (db w) !! i = Some s.
Proof.
  intros Hpost Hs Hid.
  assert (Hstep : others_kept (named_students (parseCSV csvText))
                    (start store) w).
  { unfold POST in Hpost.
    destruct uid as [teacher|]; [|by injection Hpost as _ <-].
    destruct (String.eqb teacher ""); [by injection Hpost as _ <-|].
    destruct type as [kind|]; [|by injection Hpost as _ <-].
    destruct (String.eqb kind ""); [by injection Hpost as _ <-|].
    destruct (length (parseCSV csvText) =? 0)%nat;
      [by injection Hpost as _ <-|].
    destruct (row_handler teacher kind) as [body|] eqn:Hbody;
      [|by injection Hpost as _ <-].
    destruct (for_of _ body (start store)) as [w1 r] eqn:Hloop.
    assert (others_kept (named_students (parseCSV csvText))
              (start store) w1).
    { eapply (keeps_for_of_in (others_kept _)); [|exact Hloop].
      intros row Hrow. eapply row_handler_others; [exact Hbody|].
      unfold named_students.
      by apply (list_elem_of_fmap_2
                  (fun row => to_string (prop row "studentId"))). }
    destruct r; by injection Hpost as _ <-. }
  by apply Hstep.
Qed.

Lemma unnamed_students_are_untouched_witness :
  students (db (snd (upload "students" bob_csv store_with_alice))) !! 0%nat
  = Some alice.
Proof.
  apply (@unnamed_students_are_untouched Engine.builtins Engine.no_faults
           (Some "T1") (Some "students") bob_csv store_with_alice
           (fst (upload "students" bob_csv store_with_alice))).
  - symmetry. apply surjective_pairing.
  - reflexivity.
  - apply (bool_decide_unpack _). vm_compute. exact I.
Defined.

(** ** One record per row *)

Lemma changes_only_refl {T : Type} (found : option T) (l : list T) :
  changes_only found l l.
Proof. split; [lia | done]. Qed.

Lemma NoDup_map_inj_on {A B : Type} (f : A -> B) (l : list A) (x y : A) :
  NoDup (map f l) -> x ∈ l -> y ∈ l -> f x = f y -> x = y.
Proof.
  induction l as [|z l IH]; intros Hnd Hx Hy Heq.
  - by apply elem_of_nil in Hx.
  - simpl in Hnd. apply NoDup_cons in Hnd as [Hnew Hnd].
    apply elem_of_cons in Hx as [->|Hx];
      apply elem_of_cons in Hy as [->|Hy]; [done | | | by apply IH].
    + exfalso. apply Hnew. rewrite Heq.
      by apply (list_elem_of_fmap_2 f).
    + exfalso. apply Hnew. rewrite <- Heq.
      by apply (list_elem_of_fmap_2 f).
Qed.

(** An update by identifier, on a table whose identifiers are distinct. *)
Lemma update_changes_only {T : Type} (ident : T -> nat) (upd : T -> T)
    (l : list T) (existing : T) :
  NoDup (map ident l) -> existing ∈ l ->
  (forall x, ident x <> ident existing -> upd x = x) ->
  (forall x, ident (upd x) = ident x) ->
  changes_only (Some existing) l (map upd l)
  /\ NoDup (map ident (map upd l)).
Proof.
  intros Hnd Hin Hother Hident. split; [split|].
  - rewrite length_map. lia.
  - intros i x Hx Hnot. rewrite list_lookup_fmap, Hx. simpl. f_equal.
    apply Hother. intros Heq. apply Hnot. f_equal.
    apply (NoDup_map_inj_on ident l); [done | done | | done].
    by apply list_elem_of_lookup_2 in Hx.
  - rewrite map_map. erewrite map_ext; [exact Hnd|]. intros x. apply Hident.
Qed.

(** A create with a fresh identifier. *)
Lemma create_changes_only {T : Type} (ident : T -> nat) (l : list T)
    (x : T) :
  NoDup (map ident l) -> ident x = fresh (map ident l) ->
  changes_only None l (l ++ [x]) /\ NoDup (map ident (l ++ [x])).
Proof.
  intros Hnd Hid. split; [split|].
  - rewrite length_app. simpl. lia.
  - intros i y Hy _. by apply lookup_app_l_Some.
  - rewrite map_app. simpl. apply NoDup_app. split; [done|].
    split; [|apply NoDup_singleton].
    intros n Hn Hx. apply list_elem_of_singleton in Hx as ->.
    apply fresh_above in Hn. lia.
Qed.

Section OneRecord.
Context `{Builtins} `{Faults}.

Lemma attendance_row_writes (row : Row) (w w' : World)
    (r : string + unit) :
  let sid := to_string (prop row "studentId") in
  let cid := to_string (prop row "courseId") in
  let month := month_date (to_string (prop row "month")) in
  let percent := parseFloat (to_string (prop row "attendancePercent")) in
  attendance_row row w = (w', r) ->
  attendances (db w') = attendances (db w)
  \/ match find_attendance (db w) sid cid month with
     | Some existing =>
         attendances (db w')
         = map (update_attendance (attendanceId existing) percent)
             (attendances (db w))
     | None =>
         attendances (db w')
         = attendances (db w)
           ++ [{| attendanceId :=
                    fresh (map attendanceId (attendances (db w)));
                  a_studentId := sid; a_courseId := cid;
                  a_month := month; attendancePercent := percent |}]
     end.
Proof.
  intros sid cid month percent.
  unfold attendance_row, database_error, student_not_found.
  destruct (validateAttendanceRow row). { intros [= <- _]. by left. }
  cbv zeta. fold sid cid month percent. unfold try_catch, bind at 1.
  destruct (student_findUnique sid w) as [w0 [e|student]] eqn:Hs0.
  all: pose proof (student_findUnique_db _ _ _ _ Hs0) as Hdb0;
    unfold same_on in Hdb0.
  { intros [= <- _]. left. simpl. by rewrite Hdb0. }
  destruct student as [student|];
    [|intros [= <- _]; left; simpl; by rewrite Hdb0].
  unfold bind at 1.
  destruct (find_or_create_course student cid w0) as [w1 [e|c]] eqn:Hs1.
  all: pose proof (f_equal attendances
                     (find_or_create_course_frame _ _ _ _ _ Hs1)) as Hdb1;
    simpl in Hdb1; rewrite Hdb0 in Hdb1.
  { intros [= <- _]. by left. }
  destruct (month_shape _); [|intros [= <- _]; by left].
  destruct (isInvalid month); [intros [= <- _]; by left|].
  destruct (_ || _); [intros [= <- _]; by left|].
  unfold bind, attendance_findFirst, attendance_update, attendance_create,
    client, count_processed.
  destruct (fault (db w1) (AttendanceFindFirst _ _ _));
    [intros [= <- _]; by left|].
  assert (Hsame : find_attendance (db w1) sid cid month
                  = find_attendance (db w) sid cid month)
    by (unfold find_attendance; by rewrite Hdb1).
  rewrite <- Hsame.
  destruct (find_attendance (db w1) sid cid month) as [existing|]; simpl.
  - destruct (fault (db w1) (AttendanceUpdate _ _));
      intros [= <- _]; [by left|]. right. simpl. by rewrite Hdb1.
  - destruct (fault (db w1) (AttendanceCreate _ _ _ _));
      intros [= <- _]; [by left|]. right. simpl. by rewrite Hdb1.
Qed.

Lemma backlogs_row_writes (row : Row) (w w' : World) (r : string + unit) :
  let sid := to_string (prop row "studentId") in
  let cid := to_string (prop row "courseId") in
  let n := parseInt (to_string (prop row "attempts")) in
  let c := parse_cleared (prop row "cleared") in
  backlogs_row row w = (w', r) ->
  backlogs (db w') = backlogs (db w)
  \/ match find_backlog (db w) sid cid with
     | Some existing =>
         backlogs (db w')
         = map (update_backlog (backlogId existing) n c) (backlogs (db w))
     | None =>
         backlogs (db w')
         = backlogs (db w)
           ++ [{| backlogId := fresh (map backlogId (backlogs (db w)));
                  g_studentId := sid; g_courseId := cid;
                  attempts := n; cleared := c |}]
     end.
Proof.
  intros sid cid n c.
  unfold backlogs_row, database_error, student_not_found.
  destruct (validateBacklogRow row). { intros [= <- _]. by left. }
  cbv zeta. fold sid cid n c. unfold try_catch, bind at 1.
  destruct (student_findUnique sid w) as [w0 [e|student]] eqn:Hs0.
  all: pose proof (student_findUnique_db _ _ _ _ Hs0) as Hdb0;
    unfold same_on in Hdb0.
  { intros [= <- _]. left. simpl. by rewrite Hdb0. }
  destruct student as [student|];
    [|intros [= <- _]; left; simpl; by rewrite Hdb0].
  unfold bind at 1.
  destruct (find_or_create_course student cid w0) as [w1 [e|course]] eqn:Hs1.
  all: pose proof (f_equal backlogs
                     (find_or_create_course_frame _ _ _ _ _ Hs1)) as Hdb1;
    simpl in Hdb1; rewrite Hdb0 in Hdb1.
  { intros [= <- _]. by left. }
  destruct (_ || _); [intros [= <- _]; by left|].
  unfold bind, backlog_findFirst, backlog_update, backlog_create, client,
    count_processed.
  destruct (fault (db w1) (BacklogFindFirst _ _));
    [intros [= <- _]; by left|].
  assert (Hsame : find_backlog (db w1) sid cid = find_backlog (db w) sid cid)
    by (unfold find_backlog; by rewrite Hdb1).
  rewrite <- Hsame.
  destruct (find_backlog (db w1) sid cid) as [existing|]; simpl.
  - destruct (fault (db w1) (BacklogUpdate _ _ _));
      intros [= <- _]; [by left|]. right. simpl. by rewrite Hdb1.
  - destruct (fault (db w1) (BacklogCreate _ _ _ _));
      intros [= <- _]; [by left|]. right. simpl. by rewrite Hdb1.
Qed.

End OneRecord.

(** X21.  One record per row.  On a table whose record identifiers are
    distinct, an attendance row rewrites at most the record its lookup by
    student, course and month finds, and a backlog row at most the record
    its lookup by student and course finds: every other record stays at its
    place unchanged, at most one record is appended, and the identifiers
    stay distinct.  This holds whatever the store answers. *)
Theorem row_changes_one_record `{Builtins} `{Faults} (row : Row)
    (w w' : World) (r : string + unit) :
  let sid := to_string (prop row "studentId") in
  let cid := to_string (prop row "courseId") in
  let month := month_date (to_string (prop row "month")) in
  (NoDup (map attendanceId (attendances (db w))) ->
   attendance_row row w = (w', r) ->
   changes_only (find_attendance (db w) sid cid month)
     (attendances (db w)) (attendances (db w'))
   /\ NoDup (map attendanceId (attendances (db w'))))
  /\ (NoDup (map backlogId (backlogs (db w))) ->
      backlogs_row row w = (w', r) ->
      changes_only (find_backlog (db w) sid cid)
        (backlogs (db w)) (backlogs (db w'))
      /\ NoDup (map backlogId (backlogs (db w')))).
Proof.
  intros sid cid month. split.
  - intros Hnd Hrun.
    destruct (attendance_row_writes _ _ _ _ Hrun) as [->|Hwrite].
    { split; [apply changes_only_refl | done]. }
    fold sid cid month in Hwrite.
    destruct (find_attendance (db w) sid cid month) as [existing|] eqn:Hfind;
      rewrite Hwrite.
    + apply find_attendance_Some in Hfind as [Hin _].
      apply (update_changes_only attendanceId); [done | done | |].
      * intros x Hx. unfold update_attendance.
        by destruct (Nat.eqb_spec (attendanceId x) (attendanceId existing)).
      * intros x. unfold update_attendance.
        by destruct (attendanceId x =? attendanceId existing)%nat.
    + by apply (create_changes_only attendanceId).
  - intros Hnd Hrun.
    destruct (backlogs_row_writes _ _ _ _ Hrun) as [->|Hwrite].
    { split; [apply changes_only_refl | done]. }
    fold sid cid in Hwrite.
    destruct (find_backlog (db w) sid cid) as [existing|] eqn:Hfind;
      rewrite Hwrite.
    + apply find_backlog_Some in Hfind as [Hin _].
      apply (update_changes_only backlogId); [done | done | |].
      * intros x Hx. unfold update_backlog.
        by destruct (Nat.eqb_spec (backlogId x) (backlogId existing)).
      * intros x. unfold update_backlog.
        by destruct (backlogId x =? backlogId existing)%nat.
    + by apply (create_changes_only backlogId).
Qed.

Lemma row_changes_one_record_witness :
  attendances
    (db (fst (@attendance_row Engine.builtins Engine.no_faults march_row
                (start store_with_two_months)))) !! 0%nat
  = Some february_record.
Proof.
  destruct (@row_changes_one_record Engine.builtins Engine.no_faults
              march_row (start store_with_two_months)
              (fst (@attendance_row Engine.builtins Engine.no_faults
                      march_row (start store_with_two_months)))
              (snd (@attendance_row Engine.builtins Engine.no_faults
                      march_row (start store_with_two_months))))
    as [Hattendance _].
  destruct Hattendance as [[_ Hothers] _].
  - apply (bool_decide_unpack _). vm_compute. exact I.
  - apply surjective_pairing.
  - apply Hothers; [reflexivity|]. vm_compute. discriminate.
Defined.
